(** * saver6775: the ASRock HDD Saver driver (src/dkms/src/saver6775.c)

    A shallow embedding of the driver over a simulated Super-I/O chip.  Every
    port access the driver makes goes through [outb] and [inb] below, which
    drive the chip model and append to a trace, so that both the register
    contents and the exact bus traffic of every driver entry point can be
    stated.  The driver runs sequentially here: [update_lock] is taken and
    released around every body in the source and is not represented. *)

From Stdlib Require Import ZArith List Bool String Ascii Lia.
Import ListNotations.
Local Open Scope Z_scope.

(** ** Machine integers *)

Definition u8 (x : Z) : Z := Z.land x 0xff.
Definition u16 (x : Z) : Z := Z.land x 0xffff.

Definition BITS_PER_LONG : Z := 64.
Definition ulong (x : Z) : Z := x mod 2 ^ BITS_PER_LONG.
(* (long)x for an unsigned long x; also (ssize_t)x for a size_t x *)
Definition long (x : Z) : Z :=
  if ulong x <? 2 ^ (BITS_PER_LONG - 1) then ulong x else ulong x - 2 ^ BITS_PER_LONG.

(* (int)x for a pointer or unsigned long x: the low 32 bits, signed *)
Definition to_int (x : Z) : Z :=
  if x mod 2 ^ 32 <? 2 ^ 31 then x mod 2 ^ 32 else x mod 2 ^ 32 - 2 ^ 32.

(* include/linux/jiffies.h: time_after(a,b) is ((long)((b) - (a)) < 0) *)
Definition time_after (a b : Z) : bool := long (b - a) <? 0.

Definition EBUSY : Z := 16.
Definition ENOMEM : Z := 12.
Definition ENODEV : Z := 19.
Definition EINVAL : Z := 22.
Definition MAX_ERRNO : Z := 4095.

(* include/linux/err.h, on a pointer seen as an unsigned long *)
Definition IS_ERR (p : Z) : bool := 2 ^ BITS_PER_LONG - MAX_ERRNO <=? ulong p.
Definition PTR_ERR_OR_ZERO (p : Z) : Z := if IS_ERR p then long p else 0.

(** ** Constants of the driver *)

Definition SIO_REG_LDSEL : Z := 0x07.
Definition SIO_REG_DEVID : Z := 0x20.
Definition SIO_REG_ENABLE : Z := 0x30.
Definition SIO_REG_ADDR : Z := 0x60.
Definition SIO_ID_MASK : Z := 0xFFF8.
Definition SIO_NCT6791_ID : Z := 0xc800.
Definition NCT6775_LD_HWM : Z := 0x0b.
Definition NCT6775_LD_GPIO_DATA : Z := 0x08.
Definition NCT6775_REG_CR_GPIO1_DATA : Z := 0xf1.
Definition NCT6791_REG_HM_IO_SPACE_LOCK_ENABLE : Z := 0x28.
Definition IOREGION_ALIGNMENT : Z := Z.lnot 7.
Definition IOREGION_OFFSET : Z := 5.
Definition IOREGION_LENGTH : Z := 2.
Definition NCT6775_REG_CONFIG : Z := 0x40.
Definition MAXRETRIES : nat := 5.

(** ** The simulated Super-I/O chip

    The chip decodes two ports, [sio_base] (index) and [sio_base + 1] (data).
    Two writes of 0x87 to the index port open the extended function mode,
    0xaa closes it; outside that mode data reads float to 0xff and data
    writes are dropped.  Registers below 0x30 are shared by all logical
    devices, 0x07 selects the logical device for the rest. *)

Inductive sio_mode := Locked | HalfKey | Extended.

Record sio_chip := mk_chip {
  sio_base : Z;
  sio_mode_of : sio_mode;
  sio_index : Z;
  sio_ldn : Z;
  cr_global : Z -> Z;
  cr_ld : Z -> Z -> Z
}.

Definition chip_read (c : sio_chip) : Z :=
  let i := sio_index c in
  if i =? SIO_REG_LDSEL then u8 (sio_ldn c)
  else if i <? 0x30 then u8 (cr_global c i)
  else u8 (cr_ld c (sio_ldn c) i).

Definition upd1 (f : Z -> Z) (k v : Z) : Z -> Z :=
  fun k' => if k' =? k then v else f k'.
Definition upd2 (f : Z -> Z -> Z) (l k v : Z) : Z -> Z -> Z :=
  fun l' k' => if (l' =? l) && (k' =? k) then v else f l' k'.

Definition chip_write (v : Z) (c : sio_chip) : sio_chip :=
  let i := sio_index c in
  if i =? SIO_REG_LDSEL then
    mk_chip (sio_base c) (sio_mode_of c) i v (cr_global c) (cr_ld c)
  else if i <? 0x30 then
    mk_chip (sio_base c) (sio_mode_of c) i (sio_ldn c) (upd1 (cr_global c) i v) (cr_ld c)
  else
    mk_chip (sio_base c) (sio_mode_of c) i (sio_ldn c) (cr_global c)
            (upd2 (cr_ld c) (sio_ldn c) i v).

Definition chip_set_mode (m : sio_mode) (c : sio_chip) : sio_chip :=
  mk_chip (sio_base c) m (sio_index c) (sio_ldn c) (cr_global c) (cr_ld c).
Definition chip_set_index (i : Z) (c : sio_chip) : sio_chip :=
  mk_chip (sio_base c) (sio_mode_of c) i (sio_ldn c) (cr_global c) (cr_ld c).

Definition chip_index_port (v : Z) (c : sio_chip) : sio_chip :=
  match sio_mode_of c with
  | Locked => if v =? 0x87 then chip_set_mode HalfKey c else c
  | HalfKey => if v =? 0x87 then chip_set_mode Extended c else chip_set_mode Locked c
  | Extended => if v =? 0xaa then chip_set_mode Locked c else chip_set_index v c
  end.

Definition chip_data_port (v : Z) (c : sio_chip) : sio_chip :=
  match sio_mode_of c with
  | Extended => chip_write v c
  | _ => c
  end.

Definition chip_outb (v port : Z) (c : sio_chip) : sio_chip :=
  if port =? sio_base c then chip_index_port v c
  else if port =? sio_base c + 1 then chip_data_port v c
  else c.

Definition chip_inb (port : Z) (c : sio_chip) : Z :=
  if port =? sio_base c + 1 then
    match sio_mode_of c with
    | Extended => chip_read c
    | _ => 0xff
    end
  else 0xff.

(* the chip once both key bytes have arrived *)
Definition chip_entered (c : sio_chip) : sio_chip :=
  mk_chip (sio_base c) Extended
          (match sio_mode_of c with Locked => sio_index c | _ => 0x87 end)
          (sio_ldn c) (cr_global c) (cr_ld c).

(* Register views used by the statements. *)
Definition global_reg (c : sio_chip) (i : Z) : Z := u8 (cr_global c i).
Definition ld_reg (c : sio_chip) (ld i : Z) : Z := u8 (cr_ld c ld i).
Definition gpio1_data (c : sio_chip) : Z :=
  ld_reg c NCT6775_LD_GPIO_DATA NCT6775_REG_CR_GPIO1_DATA.
Definition hwm_enable (c : sio_chip) : Z := ld_reg c NCT6775_LD_HWM SIO_REG_ENABLE.

(** ** The world: chip, region arbiter and trace

    Whether an I/O region request is granted depends on other drivers, so
    the world carries the outcome of every future request: the n-th request
    made (of either kind) is granted iff [region_grant n]. *)

Inductive event :=
| EvRequestMuxed (start n : Z) (granted : bool)
| EvRelease (start n : Z)
| EvOutb (val port : Z)
| EvInb (port val : Z)
| EvDevmRequest (start n : Z) (granted : bool)
| EvSleep (min max : Z).

Record world := mk_world {
  chip : sio_chip;
  region_grant : nat -> bool;
  region_calls : nat;
  trace : list event
}.

Definition io (A : Type) : Type := world -> A * world.
Definition ret {A} (a : A) : io A := fun w => (a, w).
Definition bind {A B} (m : io A) (k : A -> io B) : io B :=
  fun w => let (a, w') := m w in k a w'.

Notation "x <- m ;; k" := (bind m (fun x => k))
  (at level 61, m at next level, right associativity).
Notation "m ;;; k" := (bind m (fun _ => k))
  (at level 61, right associativity).

Definition emit (e : event) (w : world) : world :=
  mk_world (chip w) (region_grant w) (region_calls w) (trace w ++ [e]).

(* outb(value, port) and inb(port).  The value is cut to a byte on its way
   out; port numbers stay the int the driver computed. *)
Definition outb (val port : Z) : io unit := fun w =>
  (tt, emit (EvOutb (u8 val) port)
         (mk_world (chip_outb (u8 val) port (chip w))
                   (region_grant w) (region_calls w) (trace w))).

Definition inb (port : Z) : io Z := fun w =>
  let v := chip_inb port (chip w) in (v, emit (EvInb port v) w).

Definition next_grant (w : world) : bool := region_grant w (region_calls w).

Definition ask_region (mk : bool -> event) : io bool := fun w =>
  let g := next_grant w in
  (g, emit (mk g) (mk_world (chip w) (region_grant w) (S (region_calls w)) (trace w))).

Definition request_muxed_region (start n : Z) : io bool :=
  ask_region (EvRequestMuxed start n).
(* devm_request_region returns the struct resource * of the region, NULL if
   the request is refused; [res k] is the pointer the request counted [k]
   hands back when it is granted *)
Definition devm_request_region (res : nat -> Z) (start n : Z) : io Z := fun w =>
  let (g, w') := ask_region (EvDevmRequest start n) w in
  ((if g then res (region_calls w) else 0), w').
Definition release_region (start n : Z) : io unit := fun w =>
  (tt, emit (EvRelease start n) w).
Definition usleep_range (min max : Z) : io unit := fun w =>
  (tt, emit (EvSleep min max) w).

(** ** Driver data *)

(* enum kinds { nct6791 }: the [default:] arms of the two switches on the
   kind in nct6775_probe have no value to run on. *)
Inductive kinds := nct6791.

(* struct nct6775_sio_data; its fields carry the prefix sd_ because struct
   nct6775_data has fields of the same names *)
Record nct6775_sio_data := mk_sio_data {
  sd_sioreg : Z;
  sd_kind : kinds
}.

(* struct nct6775_data without update_lock and the unused in[15][3] *)
Record nct6775_data := mk_data {
  addr : Z;
  sioreg : Z;
  kind : kinds;
  REG_CONFIG : Z;
  valid : bool;
  last_updated : Z;
  bank : Z;
  in_num : Z;
  have_hddsaver : bool;
  hddsaver_status : bool;
  sio_reg_enable : Z
}.

(* what devm_kzalloc hands out *)
Definition kzalloc_data : nct6775_data :=
  mk_data 0 0 nct6791 0 false 0 0 0 false false 0.

Definition set_stamp (v : bool) (t : Z) (d : nct6775_data) : nct6775_data :=
  mk_data (addr d) (sioreg d) (kind d) (REG_CONFIG d) v t (bank d) (in_num d)
          (have_hddsaver d) (hddsaver_status d) (sio_reg_enable d).
Definition set_valid (v : bool) (d : nct6775_data) : nct6775_data :=
  set_stamp v (last_updated d) d.
Definition set_bank (b : Z) (d : nct6775_data) : nct6775_data :=
  mk_data (addr d) (sioreg d) (kind d) (REG_CONFIG d) (valid d) (last_updated d) b
          (in_num d) (have_hddsaver d) (hddsaver_status d) (sio_reg_enable d).
Definition set_have_hddsaver (b : bool) (d : nct6775_data) : nct6775_data :=
  mk_data (addr d) (sioreg d) (kind d) (REG_CONFIG d) (valid d) (last_updated d) (bank d)
          (in_num d) b (hddsaver_status d) (sio_reg_enable d).
Definition set_hddsaver_status (b : bool) (d : nct6775_data) : nct6775_data :=
  mk_data (addr d) (sioreg d) (kind d) (REG_CONFIG d) (valid d) (last_updated d) (bank d)
          (in_num d) (have_hddsaver d) b (sio_reg_enable d).

(* C truth value of an integer *)
Definition truthy (x : Z) : bool := negb (x =? 0).

(* strcmp is only ever tested against 0 *)
Definition strcmp (a b : string) : Z :=
  match String.compare a b with Eq => 0 | Lt => -1 | Gt => 1 end.

(** ** I/O functions *)

Definition superio_outb (ioreg reg val : Z) : io unit :=
  outb reg ioreg ;;; outb val (ioreg + 1).

Definition superio_inb (ioreg reg : Z) : io Z :=
  outb reg ioreg ;;; inb (ioreg + 1).

Definition superio_select (ioreg ld : Z) : io unit :=
  outb SIO_REG_LDSEL ioreg ;;; outb ld (ioreg + 1).

Definition superio_enter (ioreg : Z) : io Z :=
  got <- request_muxed_region ioreg 2 ;;
  if negb got then ret (- EBUSY)
  else outb 0x87 ioreg ;;; outb 0x87 ioreg ;;; ret 0.

Definition superio_exit (ioreg : Z) : io unit :=
  outb 0xaa ioreg ;;; outb 0x02 ioreg ;;; outb 0x02 (ioreg + 1) ;;;
  release_region ioreg 2.

Definition nct6791_enable_io_mapping (sioaddr : Z) : io unit :=
  val <- superio_inb sioaddr NCT6791_REG_HM_IO_SPACE_LOCK_ENABLE ;;
  if truthy (Z.land val 0x10) then
    superio_outb sioaddr NCT6791_REG_HM_IO_SPACE_LOCK_ENABLE (Z.land val (Z.lnot 0x10))
  else ret tt.

(* for (i = 0; i < MAXRETRIES; i++): [n] is the number of rounds left, the
   result is the final value of [region].  [region] is an int: the pointer
   devm_request_region returns is cut to it before it is tested. *)
Fixpoint request_retry (res : nat -> Z) (n : nat) (start : Z) : io Z :=
  match n with
  | O => ret 0
  | S n' =>
      p <- devm_request_region res start IOREGION_LENGTH ;;
      let region := to_int p in
      if truthy region then ret region
      else usleep_range 100000 100001 ;;; request_retry res n' start
  end.

(* What nct6775_probe takes from the rest of the kernel. *)
Record probe_env := mk_probe_env {
  board_vendor : option string;   (* dmi_get_system_info(DMI_BOARD_VENDOR), None is NULL *)
  board_name : option string;     (* dmi_get_system_info(DMI_BOARD_NAME) *)
  kzalloc_ok : bool;              (* devm_kzalloc did not return NULL *)
  sysfs_err : Z;                  (* result of sysfs_create_group *)
  hwmon_dev : Z;                  (* the local hwmon_dev, returned without ever being set *)
  region_res : nat -> Z           (* what devm_request_region returns when granted *)
}.

(* the board test of nct6775_probe, lines 354-358 *)
Definition board_has_hddsaver (env : probe_env) : bool :=
  match board_name env, board_vendor env with
  | Some name, Some vendor =>
      (strcmp vendor "ASRock" =? 0) &&
      ((strcmp name "Z97 Extreme4" =? 0) || (strcmp name "Z97 Extreme6" =? 0)
       || (strcmp name "X99 Extreme4/3.1" =? 0))
  | _, _ => false
  end.

Section Driver.

(* kstrtobool of the running kernel: None is -EINVAL *)
Variable kstrtobool : string -> option bool.
(* ticks per second *)
Variable HZ : Z.

Definition nct6775_update_device (jiffies : Z) (data : nct6775_data) : io nct6775_data :=
  if time_after jiffies (ulong (last_updated data + HZ + HZ / 2)) || negb (valid data)
  then ret (set_stamp true jiffies data)
  else ret data.

(* the result is sprintf's return value and the buffer it filled *)
Definition show_hddsaver (jiffies : Z) (data : nct6775_data)
  : io (Z * string * nct6775_data) :=
  data <- nct6775_update_device jiffies data ;;
  let buf := ((if hddsaver_status data then "On" else "Off") ++ String "010" "")%string in
  ret (Z.of_nat (String.length buf), buf, data).

Definition store_hddsaver (data : nct6775_data) (sio_data : nct6775_sio_data)
           (buf : string) (count : Z) : io (Z * nct6775_data) :=
  match kstrtobool buf with
  | None => ret (- EINVAL, data)
  | Some val =>
      r <- superio_enter (sd_sioreg sio_data) ;;
      if truthy r then
        (* count = ret; goto error *)
        ret (long (ulong r), data)
      else
        data <- (if negb (Bool.eqb val (hddsaver_status data)) then
                   superio_select (sd_sioreg sio_data) NCT6775_LD_GPIO_DATA ;;;
                   tmp <- superio_inb (sd_sioreg sio_data) NCT6775_REG_CR_GPIO1_DATA ;;
                   superio_outb (sd_sioreg sio_data) NCT6775_REG_CR_GPIO1_DATA
                                (Z.lxor (u8 tmp) (Z.shiftl 1 0)) ;;;
                   ret (set_hddsaver_status val data)
                 else ret data) ;;
        superio_exit (sd_sioreg sio_data) ;;;
        ret (long count, data)
  end.

Definition hddsaver_suspend (jiffies : Z) (data : nct6775_data) : io (Z * nct6775_data) :=
  data <- nct6775_update_device jiffies data ;;
  ret (0, data).

Definition hddsaver_resume (data : nct6775_data) : io (Z * nct6775_data) :=
  let data := set_bank 0xff data in
  err <- superio_enter (sioreg data) ;;
  (if truthy err then ret tt
   else
     superio_select (sioreg data) NCT6775_LD_HWM ;;;
     reg <- superio_inb (sioreg data) SIO_REG_ENABLE ;;
     (if negb (u8 reg =? sio_reg_enable data)
      then superio_outb (sioreg data) SIO_REG_ENABLE (sio_reg_enable data)
      else ret tt) ;;;
     match kind data with nct6791 => nct6791_enable_io_mapping (sioreg data) end ;;;
     superio_exit (sioreg data)) ;;;
  ret (err, set_valid false data).

(* The second component is the driver data once platform_set_drvdata has run. *)
Definition nct6775_probe (env : probe_env) (sio_data : nct6775_sio_data) (res_start : Z)
  : io (Z * option nct6775_data) :=
  region <- request_retry (region_res env) MAXRETRIES res_start ;;
  if negb (truthy region) then ret (- EBUSY, None)
  else if negb (kzalloc_ok env) then ret (- ENOMEM, None)
  else
    let data :=
      mk_data res_start (sd_sioreg sio_data) (sd_kind sio_data)
              (REG_CONFIG kzalloc_data) (valid kzalloc_data) (last_updated kzalloc_data)
              0xff (in_num kzalloc_data) (have_hddsaver kzalloc_data)
              (hddsaver_status kzalloc_data) (sio_reg_enable kzalloc_data) in
    let data :=
      match kind data with
      | nct6791 =>
          mk_data (addr data) (sioreg data) (kind data) NCT6775_REG_CONFIG (valid data)
                  (last_updated data) (bank data) 15 (have_hddsaver data)
                  (hddsaver_status data) (sio_reg_enable data)
      end in
    err <- superio_enter (sd_sioreg sio_data) ;;
    if truthy err then ret (err, Some data)
    else
      cr2a <- superio_inb (sd_sioreg sio_data) 0x2a ;;
      let data :=
        match kind data with
        | nct6791 =>
            if board_has_hddsaver env
            then set_have_hddsaver (truthy (Z.land (u8 cr2a) (Z.shiftl 1 6))) data
            else data
        end in
      data <- (if have_hddsaver data then
                 superio_select (sd_sioreg sio_data) NCT6775_LD_GPIO_DATA ;;;
                 tmp <- superio_inb (sd_sioreg sio_data) NCT6775_REG_CR_GPIO1_DATA ;;
                 ret (set_hddsaver_status (truthy (Z.land (u8 tmp) (Z.shiftl 1 0))) data)
               else ret data) ;;
      superio_exit (sd_sioreg sio_data) ;;;
      if truthy (sysfs_err env) then ret (sysfs_err env, Some data)
      else ret (PTR_ERR_OR_ZERO (hwmon_dev env), Some data).

(* The two superio_inb calls of each 16-bit read are operands of one [|];
   they are taken left to right, as the compiler emits them. *)
Definition nct6775_find (sioaddr : Z) (sio_data : nct6775_sio_data)
  : io (Z * nct6775_sio_data) :=
  err <- superio_enter sioaddr ;;
  if truthy err then ret (err, sio_data)
  else
    hi <- superio_inb sioaddr SIO_REG_DEVID ;;
    lo <- superio_inb sioaddr (SIO_REG_DEVID + 1) ;;
    let val := u16 (Z.lor (Z.shiftl hi 8) lo) in
    if negb (Z.land val SIO_ID_MASK =? SIO_NCT6791_ID) then
      superio_exit sioaddr ;;; ret (- ENODEV, sio_data)
    else
      let sio_data := mk_sio_data (sd_sioreg sio_data) nct6791 in
      superio_select sioaddr NCT6775_LD_HWM ;;;
      hi <- superio_inb sioaddr SIO_REG_ADDR ;;
      lo <- superio_inb sioaddr (SIO_REG_ADDR + 1) ;;
      let val := u16 (Z.lor (Z.shiftl hi 8) lo) in
      let addr := Z.land val IOREGION_ALIGNMENT in
      if addr =? 0 then
        superio_exit sioaddr ;;; ret (- ENODEV, sio_data)
      else
        en <- superio_inb sioaddr SIO_REG_ENABLE ;;
        let val := u16 en in
        (if negb (truthy (Z.land val 0x01))
         then superio_outb sioaddr SIO_REG_ENABLE (Z.lor val 0x01)
         else ret tt) ;;;
        match sd_kind sio_data with nct6791 => nct6791_enable_io_mapping sioaddr end ;;;
        superio_exit sioaddr ;;;
        ret (addr, mk_sio_data sioaddr (sd_kind sio_data)).

End Driver.

(** ** Concrete surroundings for the closed examples *)

(* lib/kstrtox.c: the first character decides, "o" looks at the second *)
Definition kstrtobool_kernel (s : string) : option bool :=
  match s with
  | String c rest =>
      if existsb (Ascii.eqb c) ["y"; "Y"; "t"; "T"; "1"]%char then Some true
      else if existsb (Ascii.eqb c) ["n"; "N"; "f"; "F"; "0"]%char then Some false
      else if existsb (Ascii.eqb c) ["o"; "O"]%char then
        match rest with
        | String c2 _ =>
            if existsb (Ascii.eqb c2) ["n"; "N"]%char then Some true
            else if existsb (Ascii.eqb c2) ["f"; "F"]%char then Some false
            else None
        | EmptyString => None
        end
      else None
  | EmptyString => None
  end.

(* An NCT6791D at 0x2e: ID 0xc803, hardware monitor enabled at 0x290,
   CR2A bit 6 set, GPIO1 data register [gpio]. *)
Definition nct6791d (gpio : Z) : sio_chip :=
  mk_chip 0x2e Locked 0 0
    (fun i => if i =? 0x20 then 0xc8 else if i =? 0x21 then 0x03
              else if i =? 0x2a then 0x40 else 0)
    (fun ld i =>
       if (ld =? 0x0b) && (i =? 0x60) then 0x02
       else if (ld =? 0x0b) && (i =? 0x61) then 0x90
       else if (ld =? 0x0b) && (i =? 0x30) then 0x01
       else if (ld =? 0x08) && (i =? 0xf1) then gpio
       else 0).

Definition always (b : bool) : nat -> bool := fun _ => b.
(* the first [k] region requests are refused, all later ones granted *)
Definition after (k : nat) : nat -> bool := fun n => (k <=? n)%nat.

Definition quiet_world (gpio : Z) : world := mk_world (nct6791d gpio) (always true) 0 [].
Definition busy_world (gpio : Z) : world := mk_world (nct6791d gpio) (always false) 0 [].

(* a struct resource in the direct map *)
Definition res_at_5a40 : nat -> Z := fun _ => 0xffff888104e25a40.
(* the same, at an address whose low 32 bits are all zero *)
Definition res_at_4g : nat -> Z := fun _ => 0xffff888100000000.

Definition asrock_z97 : probe_env :=
  mk_probe_env (Some "ASRock"%string) (Some "Z97 Extreme4"%string) true 0 0 res_at_5a40.
Definition asus_z97 : probe_env :=
  mk_probe_env (Some "ASUSTeK COMPUTER INC."%string) (Some "Z97-A"%string) true 0 0
               res_at_5a40.
(* the listed board again, with the region's resource at the 4 GiB boundary *)
Definition asrock_z97_4g : probe_env :=
  mk_probe_env (Some "ASRock"%string) (Some "Z97 Extreme4"%string) true 0 0 res_at_4g.

Definition sio_2e : nct6775_sio_data := mk_sio_data 0x2e nct6791.

(** ** Traces *)

Definition enter_seq (ioreg : Z) : list event :=
  [EvRequestMuxed ioreg 2 true; EvOutb 0x87 ioreg; EvOutb 0x87 ioreg].
Definition refused_seq (ioreg : Z) : list event :=
  [EvRequestMuxed ioreg 2 false].
Definition exit_seq (ioreg : Z) : list event :=
  [EvOutb 0xaa ioreg; EvOutb 0x02 ioreg; EvOutb 0x02 (ioreg + 1); EvRelease ioreg 2].

Definition is_port_event (e : event) : bool :=
  match e with EvOutb _ _ | EvInb _ _ => true | _ => false end.
Definition is_release (e : event) : bool :=
  match e with EvRelease _ _ => true | _ => false end.
Definition is_devm_request (e : event) : bool :=
  match e with EvDevmRequest _ _ _ => true | _ => false end.
Definition is_retry_event (e : event) : bool :=
  match e with EvDevmRequest _ _ _ | EvSleep _ _ => true | _ => false end.

Definition releases (tr : list event) : nat := List.length (filter is_release tr).
Definition attempts (tr : list event) : nat := List.length (filter is_devm_request tr).

(* Scans a trace for the pairing discipline: ports are touched only while
   the muxed region is held, a granted request is answered by one release
   before the trace ends, and nothing is released that is not held. *)
Fixpoint paired (held : bool) (tr : list event) : bool :=
  match tr with
  | [] => negb held
  | EvRequestMuxed _ _ g :: tr' => negb held && paired g tr'
  | EvRelease _ _ :: tr' => held && paired false tr'
  | EvOutb _ _ :: tr' => held && paired held tr'
  | EvInb _ _ :: tr' => held && paired held tr'
  | _ :: tr' => paired held tr'
  end.

(* One pass through the bracket at [ioreg], as seen on the bus. *)
Definition bracket_run (ioreg : Z) (granted : bool) (tr : list event) : Prop :=
  if granted
  then exists body, tr = enter_seq ioreg ++ body ++ exit_seq ioreg
                    /\ forallb is_port_event body = true
  else tr = refused_seq ioreg.

(* Actions that only touch ports. *)
Definition port_only {A} (m : io A) : Prop :=
  forall w, exists tr,
    trace (snd (m w)) = trace w ++ tr /\ forallb is_port_event tr = true.

(* Actions that touch ports and then leave through superio_exit. *)
Definition ends_with_exit {A} (ioreg : Z) (m : io A) : Prop :=
  forall w, exists body,
    trace (snd (m w)) = trace w ++ body ++ exit_seq ioreg
    /\ forallb is_port_event body = true.

(** ** Vocabulary of the statements *)

(* the boards named in nct6775_probe *)
Definition hddsaver_boards : list (string * string) :=
  [("ASRock", "Z97 Extreme4"); ("ASRock", "Z97 Extreme6");
   ("ASRock", "X99 Extreme4/3.1")]%string.

Definition board_listed (env : probe_env) : Prop :=
  exists vendor name,
    board_vendor env = Some vendor /\ board_name env = Some name
    /\ In (vendor, name) hddsaver_boards.

(* the 16-bit values nct6775_find assembles from the chip *)
Definition chip_devid (c : sio_chip) : Z :=
  u16 (Z.lor (Z.shiftl (global_reg c SIO_REG_DEVID) 8) (global_reg c (SIO_REG_DEVID + 1))).
Definition chip_hwm_base (c : sio_chip) : Z :=
  u16 (Z.lor (Z.shiftl (ld_reg c NCT6775_LD_HWM SIO_REG_ADDR) 8)
             (ld_reg c NCT6775_LD_HWM (SIO_REG_ADDR + 1))).

(* the cache is stale, or was never filled *)
Definition cache_stale (HZ jiffies : Z) (d : nct6775_data) : Prop :=
  time_after jiffies (ulong (last_updated d + HZ + HZ / 2)) = true \/ valid d = false.

(* index of the first request among the next [n] that [grant] accepts *)
Fixpoint first_grant (grant : nat -> bool) (from n : nat) : option nat :=
  match n with
  | O => None
  | S n' => if grant from then Some O
            else option_map S (first_grant grant (S from) n')
  end.

(* the region request counted [n] is granted and its pointer, cut to an int,
   is not 0: the request nct6775_probe takes as a success *)
Definition region_kept (res : nat -> Z) (grant : nat -> bool) (n : nat) : bool :=
  grant n && truthy (to_int (res n)).

(* [k] rounds of the reservation loop that did not end it, from the request
   counted [from] on: each is the request as the arbiter answered it,
   followed by the sleep *)
Fixpoint retry_rounds (grant : nat -> bool) (from k : nat) (start : Z) : list event :=
  match k with
  | O => []
  | S k' => [EvDevmRequest start IOREGION_LENGTH (grant from); EvSleep 100000 100001]
              ++ retry_rounds grant (S from) k' start
  end.

(* the control surface after probe *)
Inductive ctl_op :=
| CtlShow (jiffies : Z)
| CtlStore (buf : string) (count : Z).

Definition ctl_step (kstrtobool : string -> option bool) (HZ : Z)
           (sio_data : nct6775_sio_data) (s : nct6775_data * world) (op : ctl_op)
  : nct6775_data * world :=
  match op with
  | CtlShow jiffies =>
      let '(_, _, d, w) := show_hddsaver HZ jiffies (fst s) (snd s) in (d, w)
  | CtlStore buf count =>
      let '(_, d, w) := store_hddsaver kstrtobool (fst s) sio_data buf count (snd s) in (d, w)
  end.

Definition ctl_run (kstrtobool : string -> option bool) (HZ : Z)
           (sio_data : nct6775_sio_data) (ops : list ctl_op) (s : nct6775_data * world)
  : nct6775_data * world :=
  fold_left (ctl_step kstrtobool HZ sio_data) ops s.

(* A write that found nothing to change: the device data is as before, the
   bus saw the bracket and nothing else (or, if the bracket was refused, one
   refused request and no port access), and the chip registers are as
   before when the chip sits at the driver's address. *)
Definition write_left_alone (r : Z) (count : Z) (sio_data : nct6775_sio_data)
           (d d' : nct6775_data) (w w' : world) : Prop :=
  d' = d
  /\ (if next_grant w
      then r = count
           /\ trace w' = trace w ++ enter_seq (sd_sioreg sio_data)
                                 ++ exit_seq (sd_sioreg sio_data)
      else r = - EBUSY
           /\ trace w' = trace w ++ refused_seq (sd_sioreg sio_data)
           /\ chip w' = chip w)
  /\ (sd_sioreg sio_data = sio_base (chip w) ->
      cr_global (chip w') = cr_global (chip w) /\ cr_ld (chip w') = cr_ld (chip w)).

(* What an entry point that goes through the bracket at [ioreg] shows on the
   bus between [w] and [w']: one pass through the bracket, every port access
   inside it, one release iff the request was granted, and -EBUSY as the
   result when it was not. *)
Definition bracket_discipline (ioreg r : Z) (w w' : world) : Prop :=
  exists tr,
    trace w' = trace w ++ tr
    /\ bracket_run ioreg (next_grant w) tr
    /\ paired false tr = true
    /\ releases tr = (if next_grant w then 1 else 0)%nat
    /\ (next_grant w = false -> r = - EBUSY).

(* a write that parses, is let into the bracket and asks for a value other
   than the cached one *)
Definition effective_write (v : option bool) (d : nct6775_data) (w : world) : bool :=
  match v with
  | Some v => next_grant w && negb (Bool.eqb v (hddsaver_status d))
  | None => false
  end.

(* the cache agrees with the pin, on a chip at the driver's address *)
Definition cache_coherent (sio_data : nct6775_sio_data) (s : nct6775_data * world) : Prop :=
  sio_base (chip (snd s)) = sd_sioreg sio_data
  /\ hddsaver_status (fst s) = Z.testbit (gpio1_data (chip (snd s))) 0.

(* probe of the listed board on the quiet chip, for the closed examples *)
Definition probed_asrock : Z * option nct6775_data * world :=
  nct6775_probe asrock_z97 sio_2e 0x295 (quiet_world 0xfe).
Definition probed_data : nct6775_data :=
  match snd (fst probed_asrock) with Some d => d | None => kzalloc_data end.

(** ** Module init and exit

    The platform bus is outside the driver: its calls are logged in the
    order the driver makes them and their outcomes are supplied.  The one
    thing taken from it is what the source notes at the call, that
    platform_device_add calls probe(); a device that could not be added is
    not probed. *)

Inductive plat_call :=
| PlDriverRegister
| PlDriverUnregister
| PlDeviceAlloc (id : Z)
| PlDeviceAddData (sio_data : nct6775_sio_data)
| PlAcpiCheck (res_start res_end : Z)
| PlDeviceAddResources (res_start res_end : Z)
| PlDeviceAdd
| PlDevicePut
| PlDeviceUnregister.

Record init_env := mk_init_env {
  driver_register_err : Z;          (* platform_driver_register *)
  device_alloc_ok : bool;           (* platform_device_alloc did not return NULL *)
  add_data_err : Z;                 (* platform_device_add_data *)
  acpi_conflict_err : Z;            (* acpi_check_resource_conflict *)
  add_resources_err : Z;            (* platform_device_add_resources *)
  device_add_err : Z;               (* platform_device_add *)
  probe_surroundings : probe_env;
  stack_sio_data : nct6775_sio_data (* the local sio_data, not initialised *)
}.

Record module_state := mk_module {
  pdev : bool;                              (* the static pdev is not NULL *)
  plat_calls : list plat_call;
  probed : option (Z * option nct6775_data) (* what probe returned, once it ran *)
}.

Definition plat (c : plat_call) (m : module_state) : module_state :=
  mk_module (pdev m) (plat_calls m ++ [c]) (probed m).
Definition set_pdev (b : bool) (m : module_state) : module_state :=
  mk_module b (plat_calls m) (probed m).
Definition set_probed (p : Z * option nct6775_data) (m : module_state) : module_state :=
  mk_module (pdev m) (plat_calls m) (Some p).

(* the three labels at the end of hddsaver_init *)
Definition exit_unregister (err : Z) (m : module_state) : Z * module_state :=
  (err, plat PlDriverUnregister m).
Definition exit_device_unregister (err : Z) (m : module_state) : Z * module_state :=
  exit_unregister err (if pdev m then plat PlDeviceUnregister m else m).
Definition exit_device_put (err : Z) (m : module_state) : Z * module_state :=
  exit_device_unregister err (plat PlDevicePut m).

Definition platform_device_add (env : init_env) (sio_data : nct6775_sio_data)
           (res_start : Z) (m : module_state) : io module_state :=
  let m := plat PlDeviceAdd m in
  if truthy (device_add_err env) then ret m
  else
    p <- nct6775_probe (probe_surroundings env) sio_data res_start ;;
    ret (set_probed p m).

Definition hddsaver_init (env : init_env) (m : module_state) : io (Z * module_state) :=
  let sioaddr := 0x2e in
  let m := plat PlDriverRegister m in
  if truthy (driver_register_err env) then ret (driver_register_err env, m)
  else
    found <- nct6775_find sioaddr (stack_sio_data env) ;;
    let '(address, sio_data) := found in
    if 0 <? address then
      let m := set_pdev (device_alloc_ok env) (plat (PlDeviceAlloc address) m) in
      if negb (pdev m) then ret (exit_device_unregister (- ENOMEM) m)
      else
        let m := plat (PlDeviceAddData sio_data) m in
        if truthy (add_data_err env) then ret (exit_device_put (add_data_err env) m)
        else
          let res_start := address + IOREGION_OFFSET in
          let res_end := address + IOREGION_OFFSET + IOREGION_LENGTH - 1 in
          let m := plat (PlAcpiCheck res_start res_end) m in
          if truthy (acpi_conflict_err env) then
            ret (exit_unregister (- ENODEV) (set_pdev false (plat PlDevicePut m)))
          else
            let m := plat (PlDeviceAddResources res_start res_end) m in
            if truthy (add_resources_err env)
            then ret (exit_device_put (add_resources_err env) m)
            else
              m <- platform_device_add env sio_data res_start m ;;
              if truthy (device_add_err env)
              then ret (exit_device_put (device_add_err env) m)
              else ret (0, m)
    else
      (* !found *)
      ret (exit_unregister (- ENODEV) m).

Definition hddsaver_exit (m : module_state) : module_state :=
  plat PlDriverUnregister (if pdev m then plat PlDeviceUnregister m else m).

Definition module_loaded : module_state := mk_module false [] None.

Definition is_driver_register (c : plat_call) : bool :=
  match c with PlDriverRegister => true | _ => false end.
Definition is_driver_unregister (c : plat_call) : bool :=
  match c with PlDriverUnregister => true | _ => false end.
Definition count_calls (f : plat_call -> bool) (l : list plat_call) : nat :=
  List.length (filter f l).

Definition init_env_ok : init_env :=
  mk_init_env 0 true 0 0 0 0 asrock_z97 (mk_sio_data 0 nct6791).
(* the same, with platform_device_add_data failing with -ENOMEM *)
Definition init_env_no_data : init_env :=
  mk_init_env 0 true (- ENOMEM) 0 0 0 asrock_z97 (mk_sio_data 0 nct6791).

(** ** The whole life of the device: attribute and power management *)

Inductive life_op :=
| LifeShow (jiffies : Z)
| LifeStore (buf : string) (count : Z)
| LifeSuspend (jiffies : Z)
| LifeResume.

Definition life_step (kstrtobool : string -> option bool) (HZ : Z)
           (sio_data : nct6775_sio_data) (s : nct6775_data * world) (op : life_op)
  : nct6775_data * world :=
  match op with
  | LifeShow jiffies =>
      let '(_, _, d, w) := show_hddsaver HZ jiffies (fst s) (snd s) in (d, w)
  | LifeStore buf count =>
      let '(_, d, w) := store_hddsaver kstrtobool (fst s) sio_data buf count (snd s) in (d, w)
  | LifeSuspend jiffies =>
      let '(_, d, w) := hddsaver_suspend HZ jiffies (fst s) (snd s) in (d, w)
  | LifeResume =>
      let '(_, d, w) := hddsaver_resume (fst s) (snd s) in (d, w)
  end.

Definition life_run (kstrtobool : string -> option bool) (HZ : Z)
           (sio_data : nct6775_sio_data) (ops : list life_op) (s : nct6775_data * world)
  : nct6775_data * world :=
  fold_left (life_step kstrtobool HZ sio_data) ops s.

(* a chip already in extended function mode whose I/O space lock bit is set *)
Definition nct6791d_open (cr28 : Z) : sio_chip :=
  mk_chip 0x2e Extended 0 0
    (fun i => if i =? 0x28 then cr28 else 0)
    (fun ld i => if (ld =? 0x0b) && (i =? 0x30) then 0x01 else 0).
Definition open_world (cr28 : Z) : world := mk_world (nct6791d_open cr28) (always true) 0 [].

(* every register of the chip but the one named *)
Definition globals_but (i : Z) (c c' : sio_chip) : Prop :=
  forall j, j <> i -> cr_global c' j = cr_global c j.
Definition lds_but (ld i : Z) (c c' : sio_chip) : Prop :=
  forall l j, (l, j) <> (ld, i) -> cr_ld c' l j = cr_ld c l j.

(** * Proofs *)

(** ** Machine integers and bits *)

Lemma long_small (x : Z) : 0 <= x < 2 ^ 63 -> long x = x.
Proof.
  intros H. unfold long, ulong, BITS_PER_LONG.
  change (2 ^ (64 - 1)) with (2 ^ 63).
  assert (E : x mod 2 ^ 64 = x) by (apply Z.mod_small; change (2 ^ 64) with (2 * 2 ^ 63); lia).
  rewrite E. destruct (Z.ltb_spec x (2 ^ 63)); lia.
Qed.

Lemma succ_eqb_self (b : Z) : (b + 1 =? b) = false.
Proof. apply Z.eqb_neq; lia. Qed.

Lemma u8_idem (x : Z) : u8 (u8 x) = u8 x.
Proof. unfold u8. now rewrite <- Z.land_assoc, Z.land_diag. Qed.

Lemma u8_testbit (x i : Z) : 0 <= i < 8 -> Z.testbit (u8 x) i = Z.testbit x i.
Proof.
  intros H. unfold u8. rewrite Z.land_spec.
  change 0xff with (Z.ones 8). rewrite Z.ones_spec_low by lia. apply andb_true_r.
Qed.

Lemma u8_testbit_high (x i : Z) : 8 <= i -> Z.testbit (u8 x) i = false.
Proof.
  intros H. unfold u8. rewrite Z.land_spec.
  change 0xff with (Z.ones 8). rewrite Z.ones_spec_high by lia. apply andb_false_r.
Qed.

Lemma testbit_one (i : Z) : Z.testbit 1 i = (i =? 0).
Proof.
  destruct (Z.eqb_spec i 0) as [->|Hi]; [reflexivity|].
  destruct (Z.lt_ge_cases i 0) as [Hn|Hp].
  - now apply Z.testbit_neg_r.
  - change 1 with (2 ^ 0). apply Z.pow2_bits_false. lia.
Qed.

(* tmp ^ (1 << 0), as it lands in the register *)
Lemma flip_bit0 (x i : Z) :
  0 <= i ->
  Z.testbit (u8 (Z.lxor (u8 x) (Z.shiftl 1 0))) i
  = if i =? 0 then negb (Z.testbit (u8 x) 0) else Z.testbit (u8 x) i.
Proof.
  intros Hi. change (Z.shiftl 1 0) with 1.
  destruct (Z.lt_ge_cases i 8) as [Hlt|Hge].
  - rewrite u8_testbit by lia. rewrite Z.lxor_spec, testbit_one.
    destruct (Z.eqb_spec i 0) as [->|Hne].
    + now rewrite xorb_true_r.
    + now rewrite xorb_false_r.
  - destruct (Z.eqb_spec i 0); [lia|].
    now rewrite !u8_testbit_high by lia.
Qed.

Lemma flip_bit0_twice (x : Z) :
  u8 (Z.lxor (u8 (Z.lxor (u8 x) (Z.shiftl 1 0))) (Z.shiftl 1 0)) = u8 x.
Proof.
  apply Z.bits_inj'. intros i Hi.
  rewrite flip_bit0 by assumption.
  rewrite !flip_bit0 by lia.
  destruct (Z.eqb_spec i 0) as [->|Hne].
  - cbn [Z.eqb]. apply negb_involutive.
  - reflexivity.
Qed.

Lemma truthy_bit0 (x : Z) : truthy (Z.land (u8 x) (Z.shiftl 1 0)) = Z.testbit (u8 x) 0.
Proof.
  change (Z.shiftl 1 0) with 1. unfold truthy.
  change 1 with (Z.ones 1). rewrite Z.land_ones by lia.
  change (2 ^ 1) with 2. rewrite <- Z.bit0_mod.
  now destruct (Z.testbit (u8 x) 0).
Qed.

(** ** Single bus steps on a chip that sits at the driver's address *)

Ltac proj :=
  cbn [chip sio_base sio_mode_of region_grant region_calls trace sio_index
       sio_ldn cr_global cr_ld fst snd].

Lemma outb_index (b : Z) c v gr n tr :
  sio_base c = b ->
  outb v b (mk_world c gr n tr)
  = (tt, mk_world (chip_index_port (u8 v) c) gr n (tr ++ [EvOutb (u8 v) b])).
Proof.
  intros <-. unfold outb, emit, chip_outb; proj. now rewrite Z.eqb_refl.
Qed.

Lemma outb_data (b : Z) c v gr n tr :
  sio_base c = b ->
  outb v (b + 1) (mk_world c gr n tr)
  = (tt, mk_world (chip_data_port (u8 v) c) gr n (tr ++ [EvOutb (u8 v) (b + 1)])).
Proof.
  intros <-. unfold outb, emit, chip_outb; proj.
  now rewrite succ_eqb_self, Z.eqb_refl.
Qed.

Lemma inb_data (b : Z) c gr n tr :
  sio_base c = b -> sio_mode_of c = Extended ->
  inb (b + 1) (mk_world c gr n tr)
  = (chip_read c, mk_world c gr n (tr ++ [EvInb (b + 1) (chip_read c)])).
Proof.
  intros <- Hm. unfold inb, emit, chip_inb; proj. now rewrite Z.eqb_refl, Hm.
Qed.

Ltac bus_step :=
  first [ rewrite outb_index by reflexivity
        | rewrite outb_data by reflexivity
        | rewrite inb_data by reflexivity ];
  cbv beta iota.

Lemma superio_enter_refused (ioreg : Z) w :
  next_grant w = false ->
  superio_enter ioreg w
  = (- EBUSY, mk_world (chip w) (region_grant w) (S (region_calls w))
                       (trace w ++ refused_seq ioreg)).
Proof.
  intros Hg. unfold superio_enter, request_muxed_region, ask_region, bind, ret, emit.
  rewrite Hg. reflexivity.
Qed.

Lemma superio_enter_trace (ioreg : Z) w :
  next_grant w = true ->
  fst (superio_enter ioreg w) = 0
  /\ trace (snd (superio_enter ioreg w)) = trace w ++ enter_seq ioreg
  /\ region_grant (snd (superio_enter ioreg w)) = region_grant w
  /\ region_calls (snd (superio_enter ioreg w)) = S (region_calls w).
Proof.
  intros Hg. unfold superio_enter, request_muxed_region, ask_region, bind, ret, outb, emit.
  rewrite Hg. proj. cbn [negb]. proj. rewrite <- !app_assoc. now repeat split.
Qed.

Lemma superio_enter_granted (b : Z) c gr n tr :
  sio_base c = b -> gr n = true ->
  superio_enter b (mk_world c gr n tr)
  = (0, mk_world (chip_entered c) gr (S n) (tr ++ enter_seq b)).
Proof.
  intros <- Hg. destruct c as [b m i l g r].
  unfold superio_enter, request_muxed_region, ask_region, bind, ret, next_grant, emit.
  proj. rewrite Hg. cbn [negb].
  destruct m; repeat bus_step; cbn; rewrite <- !app_assoc; reflexivity.
Qed.

Lemma superio_exit_ext (b : Z) c gr n tr :
  sio_base c = b -> sio_mode_of c = Extended ->
  superio_exit b (mk_world c gr n tr)
  = (tt, mk_world (chip_set_mode Locked c) gr n (tr ++ exit_seq b)).
Proof.
  intros <- Hm. destruct c as [b m i l g r]. cbn in Hm. subst m.
  unfold superio_exit, bind, release_region, emit.
  repeat bus_step. cbn. rewrite <- !app_assoc; reflexivity.
Qed.

Lemma superio_select_ext (b : Z) ld c gr n tr :
  sio_base c = b -> sio_mode_of c = Extended ->
  superio_select b ld (mk_world c gr n tr)
  = (tt, mk_world (mk_chip b Extended SIO_REG_LDSEL (u8 ld) (cr_global c) (cr_ld c)) gr n
                  (tr ++ [EvOutb SIO_REG_LDSEL b; EvOutb (u8 ld) (b + 1)])).
Proof.
  intros <- Hm. destruct c as [b m i l g r]. cbn in Hm. subst m.
  unfold superio_select, bind. repeat bus_step. cbn. rewrite <- !app_assoc; reflexivity.
Qed.

Lemma superio_inb_ext (b : Z) reg c gr n tr :
  sio_base c = b -> sio_mode_of c = Extended -> u8 reg <> 0xaa ->
  superio_inb b reg (mk_world c gr n tr)
  = (chip_read (chip_set_index (u8 reg) c),
     mk_world (chip_set_index (u8 reg) c) gr n
              (tr ++ [EvOutb (u8 reg) b;
                      EvInb (b + 1) (chip_read (chip_set_index (u8 reg) c))])).
Proof.
  intros <- Hm Hreg. destruct c as [b m i l g r]. cbn in Hm. subst m.
  apply Z.eqb_neq in Hreg.
  unfold superio_inb, bind. bus_step.
  unfold chip_index_port; proj. rewrite Hreg.
  bus_step. rewrite <- !app_assoc; reflexivity.
Qed.

Lemma superio_outb_ext (b : Z) reg val c gr n tr :
  sio_base c = b -> sio_mode_of c = Extended -> u8 reg <> 0xaa ->
  superio_outb b reg val (mk_world c gr n tr)
  = (tt, mk_world (chip_write (u8 val) (chip_set_index (u8 reg) c)) gr n
                  (tr ++ [EvOutb (u8 reg) b; EvOutb (u8 val) (b + 1)])).
Proof.
  intros <- Hm Hreg. destruct c as [b m i l g r]. cbn in Hm. subst m.
  apply Z.eqb_neq in Hreg.
  unfold superio_outb, bind. bus_step.
  unfold chip_index_port; proj. rewrite Hreg.
  bus_step. unfold chip_data_port; proj. rewrite <- !app_assoc; reflexivity.
Qed.

Ltac sio_side := first [ reflexivity | vm_compute; discriminate ].
Ltac sio_step :=
  first [ rewrite superio_select_ext by sio_side
        | rewrite superio_inb_ext by sio_side
        | rewrite superio_outb_ext by sio_side
        | rewrite superio_exit_ext by sio_side ];
  cbv beta iota.
Ltac sio_steps := cbv beta iota; repeat sio_step.

(** ** The attribute write *)

Section Store.
Variable kstrtobool : string -> option bool.

Lemma store_invalid d sd buf count w :
  kstrtobool buf = None ->
  store_hddsaver kstrtobool d sd buf count w = (- EINVAL, d, w).
Proof. intros H. unfold store_hddsaver. now rewrite H. Qed.

Lemma store_refused d sd buf count w v :
  kstrtobool buf = Some v -> next_grant w = false ->
  store_hddsaver kstrtobool d sd buf count w
  = (- EBUSY, d, mk_world (chip w) (region_grant w) (S (region_calls w))
                          (trace w ++ refused_seq (sd_sioreg sd))).
Proof.
  intros Hv Hg. unfold store_hddsaver, bind. rewrite Hv.
  rewrite superio_enter_refused by assumption. reflexivity.
Qed.

(* desired == cached, bracket granted: the bus sees the two key sequences *)
Lemma store_same_trace d sd buf count w :
  kstrtobool buf = Some (hddsaver_status d) -> next_grant w = true ->
  fst (store_hddsaver kstrtobool d sd buf count w) = (long count, d)
  /\ trace (snd (store_hddsaver kstrtobool d sd buf count w))
     = trace w ++ enter_seq (sd_sioreg sd) ++ exit_seq (sd_sioreg sd).
Proof.
  intros Hv Hg. unfold store_hddsaver. rewrite Hv.
  unfold superio_enter, superio_exit, request_muxed_region, ask_region, bind, ret,
    outb, release_region, emit.
  rewrite Hg, eqb_reflx. cbn -[chip_outb Z.add long].
  rewrite <- !app_assoc. split; reflexivity.
Qed.

Lemma store_same_ext d (b : Z) k buf count m i l g r gr n tr :
  kstrtobool buf = Some (hddsaver_status d) -> gr n = true ->
  store_hddsaver kstrtobool d (mk_sio_data b k) buf count
                 (mk_world (mk_chip b m i l g r) gr n tr)
  = (long count, d,
     mk_world (mk_chip b Locked (match m with Locked => i | _ => 0x87 end) l g r)
              gr (S n) (tr ++ enter_seq b ++ exit_seq b)).
Proof.
  intros Hv Hg. unfold store_hddsaver, bind. rewrite Hv. proj.
  cbn [sd_sioreg]. rewrite superio_enter_granted by (reflexivity || assumption).
  change (truthy 0) with false. cbv iota. rewrite eqb_reflx. cbn [negb].
  unfold ret. sio_steps. now rewrite <- app_assoc.
Qed.

(* desired != cached, bracket granted, chip at the driver's address *)
Lemma store_toggle_ext d (b : Z) k buf count v m i l g r gr n tr :
  kstrtobool buf = Some v -> v <> hddsaver_status d -> gr n = true ->
  store_hddsaver kstrtobool d (mk_sio_data b k) buf count
                 (mk_world (mk_chip b m i l g r) gr n tr)
  = (long count, set_hddsaver_status v d,
     mk_world
       (mk_chip b Locked NCT6775_REG_CR_GPIO1_DATA NCT6775_LD_GPIO_DATA g
          (upd2 r NCT6775_LD_GPIO_DATA NCT6775_REG_CR_GPIO1_DATA
                (u8 (Z.lxor (u8 (u8 (r NCT6775_LD_GPIO_DATA NCT6775_REG_CR_GPIO1_DATA)))
                            (Z.shiftl 1 0)))))
       gr (S n)
       (tr ++ enter_seq b
           ++ [EvOutb SIO_REG_LDSEL b; EvOutb NCT6775_LD_GPIO_DATA (b + 1);
               EvOutb NCT6775_REG_CR_GPIO1_DATA b;
               EvInb (b + 1) (u8 (r NCT6775_LD_GPIO_DATA NCT6775_REG_CR_GPIO1_DATA));
               EvOutb NCT6775_REG_CR_GPIO1_DATA b;
               EvOutb (u8 (Z.lxor (u8 (u8 (r NCT6775_LD_GPIO_DATA NCT6775_REG_CR_GPIO1_DATA)))
                                  (Z.shiftl 1 0))) (b + 1)]
           ++ exit_seq b)).
Proof.
  intros Hv Hne Hg. unfold store_hddsaver, bind. rewrite Hv. cbn [sd_sioreg].
  rewrite superio_enter_granted by (reflexivity || assumption).
  change (truthy 0) with false. cbv iota.
  replace (Bool.eqb v (hddsaver_status d)) with false
    by (symmetry; apply eqb_false_iff; exact Hne).
  cbn [negb]. unfold ret. sio_steps.
  rewrite <- !app_assoc. reflexivity.
Qed.

(* What a write of the value already cached does, whatever the chip. *)
Lemma store_same_value d sd buf count w :
  kstrtobool buf = Some (hddsaver_status d) -> 0 <= count < 2 ^ 63 ->
  let '(r, d', w') := store_hddsaver kstrtobool d sd buf count w in
  write_left_alone r count sd d d' w w'.
Proof.
  intros Hv Hc. unfold write_left_alone.
  destruct (next_grant w) eqn:Hg.
  - destruct (store_same_trace d sd buf count w Hv Hg) as [Hr Ht].
    destruct (store_hddsaver kstrtobool d sd buf count w) as [[r d'] w'] eqn:E.
    cbn [fst snd] in Hr, Ht. injection Hr as -> ->.
    split; [reflexivity|]. split.
    + split; [now apply long_small | exact Ht].
    + intros Hb. destruct sd as [b k], w as [[b' m i l g r] gr n tr].
      cbn in Hb, Hg. subst b'.
      rewrite store_same_ext in E by assumption.
      injection E as <-. split; reflexivity.
  - rewrite (store_refused d sd buf count w _ Hv Hg).
    repeat split; reflexivity.
Qed.

End Store.

(** ** Writes that change nothing *)

(** C1, as amended.  With the capability absent and the cache off, a write
    that parses to false leaves the device data alone (the cache stays
    false); if the bracket is granted it returns [count] and the bus sees
    only the unlock and lock key sequences, so the GPIO logical device is
    not selected and its data register is neither read nor written; if the
    bracket is refused it returns -EBUSY without any port access. *)
Theorem store_off_without_feature
        (kstrtobool : string -> option bool) d sd buf count w :
  have_hddsaver d = false -> hddsaver_status d = false ->
  kstrtobool buf = Some false -> 0 <= count < 2 ^ 63 ->
  let '(r, d', w') := store_hddsaver kstrtobool d sd buf count w in
  hddsaver_status d' = false /\ write_left_alone r count sd d d' w w'.
Proof.
  intros _ Hs Hv Hc. rewrite <- Hs in Hv.
  pose proof (store_same_value kstrtobool d sd buf count w Hv Hc) as H.
  destruct (store_hddsaver kstrtobool d sd buf count w) as [[r d'] w'].
  split; [|exact H]. destruct H as [-> _]. exact Hs.
Qed.

Lemma store_off_without_feature_witness :
  have_hddsaver kzalloc_data = false /\ hddsaver_status kzalloc_data = false
  /\ kstrtobool_kernel "0" = Some false /\ 0 <= 2 < 2 ^ 63
  /\ let '(r, d', w') :=
       store_hddsaver kstrtobool_kernel kzalloc_data sio_2e "0" 2 (quiet_world 0xfe) in
     hddsaver_status d' = false
     /\ write_left_alone r 2 sio_2e kzalloc_data d' (quiet_world 0xfe) w'.
Proof.
  do 3 (split; [reflexivity|]). split; [lia|].
  apply (store_off_without_feature kstrtobool_kernel kzalloc_data sio_2e "0" 2
                                   (quiet_world 0xfe));
    [reflexivity | reflexivity | reflexivity | lia].
Defined.

(** C1 as stated fails.  On a board that is not listed, probe leaves
    have_hddsaver false, and a write of "1" then selects the GPIO logical
    device, reads its data register (0xfe) and writes it back with bit 0
    flipped (0xff), and turns the cache on; and when the ports are held by
    someone else the write returns -EBUSY. *)
Lemma store_on_without_feature_toggles :
  match nct6775_probe asus_z97 sio_2e 0x295 (quiet_world 0xfe) with
  | (_, Some d, w) =>
      have_hddsaver d = false /\ hddsaver_status d = false
      /\ kstrtobool_kernel "1" = Some true
      /\ (let '(r, d', w') := store_hddsaver kstrtobool_kernel d sio_2e "1" 2 w in
          r = 2 /\ hddsaver_status d' = true
          /\ gpio1_data (chip w) = 0xfe /\ gpio1_data (chip w') = 0xff
          /\ trace w' = trace w ++ enter_seq 0x2e
                                ++ [EvOutb SIO_REG_LDSEL 0x2e;
                                    EvOutb NCT6775_LD_GPIO_DATA 0x2f;
                                    EvOutb NCT6775_REG_CR_GPIO1_DATA 0x2e;
                                    EvInb 0x2f 0xfe;
                                    EvOutb NCT6775_REG_CR_GPIO1_DATA 0x2e;
                                    EvOutb 0xff 0x2f]
                                ++ exit_seq 0x2e)
      /\ fst (fst (store_hddsaver kstrtobool_kernel d sio_2e "1" 2 (busy_world 0xfe)))
         = - EBUSY
  | _ => False
  end.
Proof. vm_compute. repeat split; reflexivity. Qed.

(** C3, as amended.  A write of the value already cached leaves the device
    data alone (so last_updated, bank and the cached status keep their
    values); if the bracket is granted it returns [count] and the only bus
    traffic is the bracket itself, the unlock key sequence followed by the
    lock key sequence, with no register selected, read or written in
    between; if the bracket is refused it returns -EBUSY without any port
    access. *)
Theorem store_cached_value_brackets_only
        (kstrtobool : string -> option bool) d sd buf count w :
  kstrtobool buf = Some (hddsaver_status d) -> 0 <= count < 2 ^ 63 ->
  let '(r, d', w') := store_hddsaver kstrtobool d sd buf count w in
  last_updated d' = last_updated d /\ bank d' = bank d
  /\ write_left_alone r count sd d d' w w'.
Proof.
  intros Hv Hc.
  pose proof (store_same_value kstrtobool d sd buf count w Hv Hc) as H.
  destruct (store_hddsaver kstrtobool d sd buf count w) as [[r d'] w'].
  pose proof H as [-> _]. split; [reflexivity|]. split; [reflexivity|]. exact H.
Qed.

Lemma store_cached_value_witness :
  kstrtobool_kernel "on" = Some (hddsaver_status (set_hddsaver_status true kzalloc_data))
  /\ 0 <= 3 < 2 ^ 63
  /\ let d := set_hddsaver_status true kzalloc_data in
     let '(r, d', w') :=
       store_hddsaver kstrtobool_kernel d sio_2e "on" 3 (quiet_world 0xff) in
     last_updated d' = last_updated d /\ bank d' = bank d
     /\ write_left_alone r 3 sio_2e d d' (quiet_world 0xff) w'.
Proof.
  split; [reflexivity|]. split; [lia|].
  apply (store_cached_value_brackets_only kstrtobool_kernel
           (set_hddsaver_status true kzalloc_data) sio_2e "on" 3 (quiet_world 0xff));
    [reflexivity | lia].
Defined.

(** C3 as stated fails.  Writing "0" while the cache is off puts the five
    key bytes of superio_enter and superio_exit on the bus, and it returns
    -EBUSY instead of succeeding when the ports are held by someone else. *)
Lemma store_cached_value_has_bus_traffic :
  hddsaver_status kzalloc_data = false /\ kstrtobool_kernel "0" = Some false
  /\ (let '(r, _, w') :=
        store_hddsaver kstrtobool_kernel kzalloc_data sio_2e "0" 2 (quiet_world 0xfe) in
      r = 2
      /\ trace w' = [EvRequestMuxed 0x2e 2 true; EvOutb 0x87 0x2e; EvOutb 0x87 0x2e;
                     EvOutb 0xaa 0x2e; EvOutb 0x02 0x2e; EvOutb 0x02 0x2f;
                     EvRelease 0x2e 2]
      /\ List.length (filter is_port_event (trace w')) = 5%nat)
  /\ fst (fst (store_hddsaver kstrtobool_kernel kzalloc_data sio_2e "0" 2 (busy_world 0xfe)))
     = - EBUSY.
Proof. vm_compute. repeat split; reflexivity. Qed.

(** ** The attribute read *)

Lemma update_device_silent HZ jiffies d w :
  snd (nct6775_update_device HZ jiffies d w) = w
  /\ hddsaver_status (fst (nct6775_update_device HZ jiffies d w)) = hddsaver_status d.
Proof.
  unfold nct6775_update_device.
  destruct (time_after jiffies (ulong (last_updated d + HZ + HZ / 2)) || negb (valid d));
    split; reflexivity.
Qed.

Lemma show_hddsaver_world HZ jiffies d w :
  let '(_, _, d', w') := show_hddsaver HZ jiffies d w in
  w' = w /\ hddsaver_status d' = hddsaver_status d.
Proof.
  unfold show_hddsaver, bind.
  destruct (update_device_silent HZ jiffies d w) as [Hw Hs].
  destruct (nct6775_update_device HZ jiffies d w) as [d1 w1]. cbn [fst snd] in Hw, Hs.
  subst w1. unfold ret. split; [reflexivity | exact Hs].
Qed.

(** C2, where the code departs from it.  On the listed board, after a
    probe that found the capability and a resume, which marks the data
    invalid to force re-reading all values, a read stamps the data valid
    and adds nothing to the trace: the bracket is not entered, the GPIO
    logical device is not selected, the status bit is not read.  On a board
    that is not listed probe never reads the bit; with bit 0 of the GPIO1
    data register set and the data invalid, the read reports "Off" and
    marks the data valid, again without any access to the chip. *)
Theorem show_stale_does_not_reread :
  match nct6775_probe asrock_z97 sio_2e 0x295 (quiet_world 0xfe) with
  | (0, Some d, w1) =>
      let '(_, d2, w2) := hddsaver_resume d w1 in
      let '(_, _, d3, w3) := show_hddsaver 250 5000 d2 w2 in
      have_hddsaver d = true
      /\ valid d2 = false /\ cache_stale 250 5000 d2
      /\ valid d3 = true /\ last_updated d3 = 5000
      /\ trace w3 = trace w2
  | _ => False
  end
  /\ match nct6775_probe asus_z97 sio_2e 0x295 (quiet_world 0xff) with
     | (0, Some d, w1) =>
         let '(_, buf, d', w') := show_hddsaver 250 5000 d w1 in
         valid d = false /\ cache_stale 250 5000 d
         /\ Z.testbit (gpio1_data (chip w1)) 0 = true
         /\ buf = ("Off" ++ String "010" "")%string
         /\ valid d' = true
         /\ trace w' = trace w1
     | _ => False
     end.
Proof.
  split.
  - vm_compute. repeat split; try reflexivity. right. reflexivity.
  - vm_compute. repeat split; try reflexivity. right. reflexivity.
Qed.

(** ** Toggling *)

Lemma gpio1_after_toggle (b i l : Z) m g r v :
  gpio1_data (mk_chip b m i l g
                (upd2 r NCT6775_LD_GPIO_DATA NCT6775_REG_CR_GPIO1_DATA v))
  = u8 v.
Proof. reflexivity. Qed.

(** C8.  From a cache that says off, a write of true followed by a write of
    false, both let into the bracket, on a chip at the driver's address:
    the GPIO1 data register ends as it began; in between it differs from
    the original in bit 0 and in no other bit, and each write keeps every
    bit from 1 upwards. *)
Theorem toggle_round_trip
        (kstrtobool : string -> option bool) d sd bufT bufF c1 c2 w :
  hddsaver_status d = false ->
  kstrtobool bufT = Some true -> kstrtobool bufF = Some false ->
  sd_sioreg sd = sio_base (chip w) ->
  next_grant w = true -> region_grant w (S (region_calls w)) = true ->
  let '(_, d1, w1) := store_hddsaver kstrtobool d sd bufT c1 w in
  let '(_, d2, w2) := store_hddsaver kstrtobool d1 sd bufF c2 w1 in
  gpio1_data (chip w2) = gpio1_data (chip w)
  /\ Z.testbit (gpio1_data (chip w1)) 0 = negb (Z.testbit (gpio1_data (chip w)) 0)
  /\ (forall i, 1 <= i ->
        Z.testbit (gpio1_data (chip w1)) i = Z.testbit (gpio1_data (chip w)) i)
  /\ (forall i, 1 <= i ->
        Z.testbit (gpio1_data (chip w2)) i = Z.testbit (gpio1_data (chip w1)) i)
  /\ hddsaver_status d1 = true /\ hddsaver_status d2 = false.
Proof.
  intros Hs HT HF Hb Hg1 Hg2.
  destruct sd as [b k], w as [[b' m i l g r] gr n tr].
  cbn in Hb, Hg1, Hg2. subst b'.
  rewrite (store_toggle_ext kstrtobool d b k bufT c1 true) by
      (try assumption; rewrite Hs; discriminate).
  rewrite (store_toggle_ext kstrtobool _ b k bufF c2 false) by
      (try assumption; cbn; discriminate).
  proj. rewrite !gpio1_after_toggle.
  set (x := r NCT6775_LD_GPIO_DATA NCT6775_REG_CR_GPIO1_DATA).
  change (gpio1_data (mk_chip b m i l g r)) with (u8 x).
  assert (Hmid : upd2 r NCT6775_LD_GPIO_DATA NCT6775_REG_CR_GPIO1_DATA
                   (u8 (Z.lxor (u8 (u8 x)) (Z.shiftl 1 0)))
                   NCT6775_LD_GPIO_DATA NCT6775_REG_CR_GPIO1_DATA
                 = u8 (Z.lxor (u8 (u8 x)) (Z.shiftl 1 0))) by reflexivity.
  rewrite Hmid, !u8_idem.
  split; [apply flip_bit0_twice|].
  split; [now rewrite flip_bit0 by lia|].
  split; [intros j Hj; rewrite flip_bit0 by lia;
          destruct (Z.eqb_spec j 0); [lia | reflexivity]|].
  split; [|split; reflexivity].
  intros j Hj. rewrite flip_bit0_twice. rewrite flip_bit0 by lia.
  destruct (Z.eqb_spec j 0); [lia | reflexivity].
Qed.

Lemma toggle_round_trip_witness :
  let '(_, d1, w1) :=
    store_hddsaver kstrtobool_kernel kzalloc_data sio_2e "1" 2 (quiet_world 0xa4) in
  let '(_, d2, w2) := store_hddsaver kstrtobool_kernel d1 sio_2e "0" 2 w1 in
  gpio1_data (chip w2) = gpio1_data (chip (quiet_world 0xa4))
  /\ Z.testbit (gpio1_data (chip w1)) 0
     = negb (Z.testbit (gpio1_data (chip (quiet_world 0xa4))) 0)
  /\ (forall i, 1 <= i ->
        Z.testbit (gpio1_data (chip w1)) i
        = Z.testbit (gpio1_data (chip (quiet_world 0xa4))) i)
  /\ (forall i, 1 <= i ->
        Z.testbit (gpio1_data (chip w2)) i = Z.testbit (gpio1_data (chip w1)) i)
  /\ hddsaver_status d1 = true /\ hddsaver_status d2 = false.
Proof.
  exact (toggle_round_trip kstrtobool_kernel kzalloc_data sio_2e "1" "0" 2 2
                           (quiet_world 0xa4)
                           eq_refl eq_refl eq_refl eq_refl eq_refl eq_refl).
Defined.

Example toggle_round_trip_bytes :
  let '(_, d1, w1) :=
    store_hddsaver kstrtobool_kernel kzalloc_data sio_2e "1" 2 (quiet_world 0xa4) in
  let '(_, _, w2) := store_hddsaver kstrtobool_kernel d1 sio_2e "0" 2 w1 in
  (gpio1_data (chip w1), gpio1_data (chip w2)) = (0xa5, 0xa4).
Proof. vm_compute. reflexivity. Qed.

(** ** Traces of the building blocks *)

Lemma port_only_ret {A} (a : A) : port_only (ret a).
Proof. intros w. exists []. cbn. now rewrite app_nil_r. Qed.

Lemma port_only_outb v p : port_only (outb v p).
Proof. intros w. now exists [EvOutb (u8 v) p]. Qed.

Lemma port_only_inb p : port_only (inb p).
Proof. intros w. now exists [EvInb p (chip_inb p (chip w))]. Qed.

Lemma port_only_bind {A B} (m : io A) (k : A -> io B) :
  port_only m -> (forall a, port_only (k a)) -> port_only (bind m k).
Proof.
  intros Hm Hk w. unfold bind.
  destruct (Hm w) as (t1 & E1 & P1). destruct (m w) as [a w1]. cbn [snd] in E1.
  destruct (Hk a w1) as (t2 & E2 & P2).
  exists (t1 ++ t2). rewrite E2, E1, app_assoc, forallb_app, P1, P2. now split.
Qed.

Ltac port_tac :=
  repeat first
    [ apply port_only_ret | apply port_only_outb | apply port_only_inb
    | apply port_only_bind; [|intros ?]
    | match goal with
      | |- port_only (if ?c then _ else _) => destruct c
      | |- port_only (match ?k with nct6791 => _ end) => destruct k
      end ].

Lemma port_only_superio_outb ioreg reg val : port_only (superio_outb ioreg reg val).
Proof. unfold superio_outb. port_tac. Qed.

Lemma port_only_superio_inb ioreg reg : port_only (superio_inb ioreg reg).
Proof. unfold superio_inb. port_tac. Qed.

Lemma port_only_superio_select ioreg ld : port_only (superio_select ioreg ld).
Proof. unfold superio_select. port_tac. Qed.

Lemma port_only_enable_io_mapping ioreg : port_only (nct6791_enable_io_mapping ioreg).
Proof.
  unfold nct6791_enable_io_mapping.
  apply port_only_bind; [apply port_only_superio_inb | intros val].
  destruct (truthy (Z.land val 16)); [apply port_only_superio_outb | apply port_only_ret].
Qed.

Lemma superio_exit_trace ioreg w :
  trace (snd (superio_exit ioreg w)) = trace w ++ exit_seq ioreg.
Proof.
  unfold superio_exit, bind, outb, release_region, emit. proj.
  now rewrite <- !app_assoc.
Qed.

Lemma ewe_exit ioreg : ends_with_exit ioreg (superio_exit ioreg).
Proof. intros w. exists []. split; [apply superio_exit_trace | reflexivity]. Qed.

Lemma ewe_bind {A B} ioreg (m : io A) (k : A -> io B) :
  port_only m -> (forall a, ends_with_exit ioreg (k a)) -> ends_with_exit ioreg (bind m k).
Proof.
  intros Hm Hk w. unfold bind.
  destruct (Hm w) as (t1 & E1 & P1). destruct (m w) as [a w1]. cbn [snd] in E1.
  destruct (Hk a w1) as (t2 & E2 & P2).
  exists (t1 ++ t2). rewrite E2, E1, <- !app_assoc, forallb_app, P1, P2. now split.
Qed.

Lemma ewe_then_silent {A B} ioreg (m : io A) (k : A -> io B) :
  ends_with_exit ioreg m -> (forall a w, snd (k a w) = w) ->
  ends_with_exit ioreg (bind m k).
Proof.
  intros Hm Hk w. unfold bind.
  destruct (Hm w) as (t1 & E1 & P1). destruct (m w) as [a w1]. cbn [snd] in E1.
  exists t1. now rewrite Hk.
Qed.

Lemma releases_app a b : releases (a ++ b) = (releases a + releases b)%nat.
Proof. unfold releases. now rewrite filter_app, length_app. Qed.

Lemma attempts_app a b : attempts (a ++ b) = (attempts a + attempts b)%nat.
Proof. unfold attempts. now rewrite filter_app, length_app. Qed.

Lemma port_body_counts body :
  forallb is_port_event body = true -> releases body = 0%nat /\ attempts body = 0%nat.
Proof.
  induction body as [|e body IH]; [now split|].
  cbn [forallb]. intros H. apply andb_true_iff in H as [He Hb].
  destruct (IH Hb) as [IH1 IH2].
  destruct e; try discriminate; now split.
Qed.

Lemma paired_port_body body rest :
  forallb is_port_event body = true ->
  paired true (body ++ rest) = paired true rest.
Proof.
  induction body as [|e body IH]; [reflexivity|].
  cbn [forallb]. intros H. apply andb_true_iff in H as [He Hb].
  destruct e; try discriminate; cbn; now apply IH.
Qed.

Lemma bracket_run_counts ioreg g tr :
  bracket_run ioreg g tr ->
  paired false tr = true
  /\ releases tr = (if g then 1 else 0)%nat
  /\ attempts tr = 0%nat.
Proof.
  unfold bracket_run. destruct g.
  - intros (body & -> & Hb). destruct (port_body_counts body Hb) as [R A].
    split; [|split].
    + cbn. now rewrite paired_port_body.
    + rewrite !releases_app, R. reflexivity.
    + rewrite !attempts_app, A. reflexivity.
  - intros ->. now repeat split.
Qed.

(** ** Bracket pairing *)

Ltac port_all :=
  cbv zeta;
  repeat first
    [ apply port_only_ret | apply port_only_superio_outb | apply port_only_superio_inb
    | apply port_only_superio_select | apply port_only_enable_io_mapping
    | apply port_only_outb | apply port_only_inb
    | apply port_only_bind; [|intros ?]
    | match goal with
      | |- port_only (if ?c then _ else _) => destruct c
      | |- port_only (match ?k with nct6791 => _ end) => destruct k
      end ].

Ltac silent_tac :=
  intros;
  repeat match goal with
         | |- context [if ?c then _ else _] => destruct c
         end;
  reflexivity.

Ltac ewe_tac :=
  cbv zeta;
  repeat first
    [ apply ewe_exit
    | apply ewe_bind; [solve [port_all] | intros ?]
    | apply ewe_then_silent; [| solve [silent_tac]]
    | match goal with
      | |- ends_with_exit _ (if ?c then _ else _) => destruct c
      | |- ends_with_exit _ (match ?k with nct6791 => _ end) => destruct k
      end ].

(* An entry point that starts with superio_enter, gives up quietly with the
   error when that fails, and otherwise runs to a superio_exit. *)
Lemma enter_then {A} ioreg (k : Z -> io A) (res : A -> Z) w :
  (forall w1, snd (k (- EBUSY) w1) = w1 /\ res (fst (k (- EBUSY) w1)) = - EBUSY) ->
  ends_with_exit ioreg (k 0) ->
  bracket_discipline ioreg (res (fst (bind (superio_enter ioreg) k w))) w
                     (snd (bind (superio_enter ioreg) k w)).
Proof.
  intros Hbusy Hok. unfold bracket_discipline, bind.
  destruct (next_grant w) eqn:Hg.
  - destruct (superio_enter_trace ioreg w Hg) as (E0 & Et & _).
    destruct (superio_enter ioreg w) as [e w1]. cbn [fst snd] in E0, Et. subst e.
    destruct (Hok w1) as (body & Eb & Pb).
    assert (R : bracket_run ioreg true (enter_seq ioreg ++ body ++ exit_seq ioreg))
      by (exists body; now split).
    destruct (bracket_run_counts _ _ _ R) as (P & C & _).
    exists (enter_seq ioreg ++ body ++ exit_seq ioreg).
    rewrite Eb, Et, <- app_assoc. repeat split; try assumption. discriminate.
  - rewrite superio_enter_refused by assumption.
    destruct (Hbusy (mk_world (chip w) (region_grant w) (S (region_calls w))
                              (trace w ++ refused_seq ioreg))) as [Es Er].
    exists (refused_seq ioreg). rewrite Es. repeat split. intros _. exact Er.
Qed.

Lemma find_bracket sioaddr sd w :
  bracket_discipline sioaddr (fst (fst (nct6775_find sioaddr sd w))) w
                     (snd (nct6775_find sioaddr sd w)).
Proof.
  unfold nct6775_find.
  apply (enter_then sioaddr _ (fun x => fst x)).
  - intros w1. split; reflexivity.
  - change (truthy 0) with false. cbv iota. ewe_tac.
Qed.

Lemma store_bracket kstrtobool d sd buf count w v :
  kstrtobool buf = Some v ->
  bracket_discipline (sd_sioreg sd)
                     (fst (fst (store_hddsaver kstrtobool d sd buf count w))) w
                     (snd (store_hddsaver kstrtobool d sd buf count w)).
Proof.
  intros Hv. unfold store_hddsaver. rewrite Hv.
  apply (enter_then (sd_sioreg sd) _ (fun x => fst x)).
  - intros w1. split; reflexivity.
  - change (truthy 0) with false. cbv iota. ewe_tac.
Qed.

Lemma resume_bracket d w :
  bracket_discipline (sioreg d) (fst (fst (hddsaver_resume d w))) w
                     (snd (hddsaver_resume d w)).
Proof.
  unfold hddsaver_resume. cbv zeta.
  change (sioreg (set_bank 255 d)) with (sioreg d).
  apply (enter_then (sioreg d) _ (fun x => fst x)).
  - intros w1. split; reflexivity.
  - change (truthy 0) with false. cbv iota. ewe_tac.
Qed.

(** ** Probe: the reservation loop *)

Lemma to_int_null : truthy (to_int 0) = false.
Proof. reflexivity. Qed.

Lemma request_retry_spec res n start w :
  let '(region, w') := request_retry res n start w in
  chip w' = chip w /\ region_grant w' = region_grant w
  /\ match first_grant (region_kept res (region_grant w)) (region_calls w) n with
     | None =>
         region = 0
         /\ trace w' = trace w ++ retry_rounds (region_grant w) (region_calls w) n start
     | Some k =>
         truthy region = true /\ (k < n)%nat
         /\ trace w' = trace w ++ retry_rounds (region_grant w) (region_calls w) k start
                               ++ [EvDevmRequest start IOREGION_LENGTH true]
     end.
Proof.
  revert w. induction n as [|n IH]; intros w.
  - cbn. now rewrite app_nil_r.
  - cbn [request_retry first_grant].
    unfold bind, devm_request_region, ask_region, usleep_range, next_grant, emit,
      region_kept.
    cbv zeta. proj.
    assert (Hnext : forall g,
      region_grant w (region_calls w) = g ->
      let w1 := mk_world (chip w) (region_grant w) (S (region_calls w))
                  ((trace w ++ [EvDevmRequest start IOREGION_LENGTH g])
                     ++ [EvSleep 100000 100001]) in
      let '(region, w') := request_retry res n start w1 in
      chip w' = chip w /\ region_grant w' = region_grant w
      /\ match option_map S
                 (first_grant (fun n0 => region_grant w n0 && truthy (to_int (res n0)))
                              (S (region_calls w)) n) with
         | None =>
             region = 0
             /\ trace w' = trace w ++ retry_rounds (region_grant w) (region_calls w)
                                                  (S n) start
         | Some k =>
             truthy region = true /\ (k < S n)%nat
             /\ trace w' = trace w ++ retry_rounds (region_grant w) (region_calls w) k start
                                   ++ [EvDevmRequest start IOREGION_LENGTH true]
         end).
    { intros g Hg w1. specialize (IH w1). unfold region_kept in IH.
      destruct (request_retry res n start w1) as [region w'].
      destruct IH as (Hc & Hgr & IH). subst w1. proj. cbn [chip region_grant] in Hc, Hgr.
      cbn [region_grant region_calls trace] in IH.
      split; [exact Hc|]. split; [exact Hgr|].
      destruct (first_grant (fun n0 => region_grant w n0 && truthy (to_int (res n0)))
                            (S (region_calls w)) n) as [k|];
        cbn [option_map retry_rounds]; rewrite Hg.
      - destruct IH as (Ht & Hk & ->). split; [exact Ht|]. split; [lia|].
        now rewrite <- !app_assoc.
      - destruct IH as (-> & ->). split; [reflexivity|]. now rewrite <- !app_assoc. }
    destruct (region_grant w (region_calls w)) eqn:Hg; cbn [andb].
    + destruct (truthy (to_int (res (region_calls w)))) eqn:Ht.
      * unfold ret. proj. repeat split; [exact Ht | lia].
      * exact (Hnext true eq_refl).
    + rewrite to_int_null. exact (Hnext false eq_refl).
Qed.

Lemma attempts_retry_rounds grant k : forall from start,
  attempts (retry_rounds grant from k start) = k.
Proof.
  induction k as [|k IH]; intros from start; [reflexivity|].
  cbn [retry_rounds]. rewrite attempts_app, IH. reflexivity.
Qed.

Lemma retry_events_retry_rounds grant k : forall from start,
  forallb is_retry_event (retry_rounds grant from k start) = true.
Proof. induction k as [|k IH]; intros from start; [reflexivity | apply IH]. Qed.

(* Past the reservation loop and the allocation, probe is one pass through
   the bracket; before that it has touched no port. *)
Lemma probe_shape env sd rs w :
  let '(region, w1) := request_retry (region_res env) MAXRETRIES rs w in
  let '(r, od, w') := nct6775_probe env sd rs w in
  if truthy region && kzalloc_ok env
  then bracket_discipline (sd_sioreg sd) r w1 w'
  else w' = w1 /\ od = None /\ r = (if truthy region then - ENOMEM else - EBUSY).
Proof.
  unfold nct6775_probe. unfold bind at 1.
  destruct (request_retry (region_res env) MAXRETRIES rs w) as [region w1].
  destruct (truthy region); cbn [negb andb]; [|now repeat split].
  destruct (kzalloc_ok env); cbn [negb]; [|now repeat split].
  cbv zeta.
  match goal with
  | |- context [bind (superio_enter ?io) ?k w1] =>
      assert (H : bracket_discipline io (fst (fst (bind (superio_enter io) k w1))) w1
                                     (snd (bind (superio_enter io) k w1)))
  end.
  { apply (enter_then (sd_sioreg sd) _ (fun x => fst x)).
    - intros w2. split; reflexivity.
    - change (truthy 0) with false. cbv iota. ewe_tac. }
  match goal with
  | |- context [bind (superio_enter ?io) ?k w1] =>
      destruct (bind (superio_enter io) k w1) as [[r od] w']
  end.
  exact H.
Qed.

Lemma port_body_no_retry body :
  forallb is_port_event body = true ->
  forallb (fun e => negb (is_retry_event e)) body = true.
Proof.
  induction body as [|e body IH]; [reflexivity|].
  cbn [forallb]. intros H. apply andb_true_iff in H as [He Hb].
  rewrite (IH Hb). destruct e; try discriminate; reflexivity.
Qed.

Lemma bracket_run_no_retry ioreg g tr :
  bracket_run ioreg g tr -> forallb (fun e => negb (is_retry_event e)) tr = true.
Proof.
  unfold bracket_run. destruct g.
  - intros (body & -> & Hb). rewrite !forallb_app, (port_body_no_retry body Hb).
    reflexivity.
  - intros ->. reflexivity.
Qed.

(** X26.  The reservation loop of probe as the code runs it.  A request
    ends the loop when it is granted and the pointer it returns, cut to the
    int it is stored in, is not 0.  If none of the next five requests is
    such, probe makes exactly five attempts, each followed by the 100 ms
    sleep, makes no other access and returns -EBUSY without device data.
    If the first such request is attempt k (counting from 0, k < 5), probe
    makes exactly k + 1 attempts: k that did not end the loop, each
    followed by the sleep, then the one that did, after which nothing is
    requested or slept on again.  There are never more than five attempts,
    and probe, a function on all inputs, returns in either case. *)
Theorem probe_reservation_rounds env sd rs w :
  let '(r, od, w') := nct6775_probe env sd rs w in
  exists tr,
    trace w' = trace w ++ tr
    /\ match first_grant (region_kept (region_res env) (region_grant w))
                         (region_calls w) MAXRETRIES with
       | None =>
           r = - EBUSY /\ od = None
           /\ tr = retry_rounds (region_grant w) (region_calls w) 5 rs
           /\ attempts tr = 5%nat
       | Some k =>
           (k < 5)%nat /\ attempts tr = S k
           /\ exists rest,
               tr = retry_rounds (region_grant w) (region_calls w) k rs
                      ++ EvDevmRequest rs IOREGION_LENGTH true :: rest
               /\ forallb (fun e => negb (is_retry_event e)) rest = true
       end.
Proof.
  pose proof (request_retry_spec (region_res env) MAXRETRIES rs w) as Hloop.
  pose proof (probe_shape env sd rs w) as Hshape.
  destruct (request_retry (region_res env) MAXRETRIES rs w) as [region w1].
  destruct (nct6775_probe env sd rs w) as [[r od] w'].
  destruct Hloop as (_ & _ & Hloop).
  destruct (first_grant (region_kept (region_res env) (region_grant w))
                        (region_calls w) MAXRETRIES) as [k|].
  - destruct Hloop as (Hr & Hk & Ht). rewrite Hr in Hshape. cbn [andb] in Hshape.
    assert (Hrest : exists rest, trace w' = trace w1 ++ rest
                    /\ forallb (fun e => negb (is_retry_event e)) rest = true
                    /\ attempts rest = 0%nat).
    { destruct (kzalloc_ok env).
      - destruct Hshape as (tr2 & E2 & R2 & _). exists tr2.
        split; [exact E2|]. split; [exact (bracket_run_no_retry _ _ _ R2)|].
        now destruct (bracket_run_counts _ _ _ R2) as (_ & _ & A).
      - destruct Hshape as (-> & _). exists []. now rewrite app_nil_r. }
    destruct Hrest as (rest & E & NR & A0).
    exists (retry_rounds (region_grant w) (region_calls w) k rs
              ++ EvDevmRequest rs IOREGION_LENGTH true :: rest).
    split; [rewrite E, Ht, <- !app_assoc; reflexivity|].
    split; [exact Hk|]. split.
    + change (EvDevmRequest rs IOREGION_LENGTH true :: rest)
        with ([EvDevmRequest rs IOREGION_LENGTH true] ++ rest).
      rewrite !attempts_app, attempts_retry_rounds, A0. cbn. lia.
    + exists rest. now split.
  - destruct Hloop as (-> & Ht). change (truthy 0) with false in Hshape.
    cbn [andb] in Hshape.
    destruct Hshape as (-> & -> & ->).
    exists (retry_rounds (region_grant w) (region_calls w) 5 rs).
    split; [exact Ht|]. split; [reflexivity|]. split; [reflexivity|].
    split; [reflexivity | apply attempts_retry_rounds].
Qed.

(** C9, where the code departs from it.  The region is granted at the
    first request and refused from then on, being held; the struct resource
    of the region lies at 0xffff888100000000.  That pointer is stored in the
    int region and reads 0 there, so the granted request does not stop the
    retrying: probe sleeps, asks four more times, is refused each time and
    returns -EBUSY without device data, five attempts in all. *)
Theorem probe_retries_after_granted_region :
  let w := mk_world (nct6791d 0xfe) (fun n => Nat.eqb n 0) 0 [] in
  let '(r, od, w') := nct6775_probe asrock_z97_4g sio_2e 0x295 w in
  next_grant w = true
  /\ region_res asrock_z97_4g 0 = 0xffff888100000000
  /\ to_int (region_res asrock_z97_4g 0) = 0
  /\ r = - EBUSY /\ od = None /\ attempts (trace w') = 5%nat
  /\ trace w'
     = [EvDevmRequest 0x295 2 true; EvSleep 100000 100001;
        EvDevmRequest 0x295 2 false; EvSleep 100000 100001;
        EvDevmRequest 0x295 2 false; EvSleep 100000 100001;
        EvDevmRequest 0x295 2 false; EvSleep 100000 100001;
        EvDevmRequest 0x295 2 false; EvSleep 100000 100001].
Proof. vm_compute. repeat split; reflexivity. Qed.

(* the same board and arbiter with the resource elsewhere: the first request
   ends the loop *)
Example probe_keeps_granted_region :
  let w := mk_world (nct6791d 0xfe) (fun n => Nat.eqb n 0) 0 [] in
  let '(r, _, w') := nct6775_probe asrock_z97 sio_2e 0x295 w in
  to_int (region_res asrock_z97 0) = 0x04e25a40
  /\ attempts (trace w') = 1%nat
  /\ firstn 2 (trace w') = [EvDevmRequest 0x295 2 true; EvRequestMuxed 0x2e 2 false].
Proof. vm_compute. repeat split; reflexivity. Qed.

Example probe_retry_all_refused :
  let '(r, od, w') :=
    nct6775_probe asrock_z97 sio_2e 0x295 (busy_world 0) in
  r = - EBUSY /\ od = None /\ attempts (trace w') = 5%nat
  /\ List.length (filter is_port_event (trace w')) = 0%nat.
Proof. vm_compute. repeat split; reflexivity. Qed.

Example probe_retry_third_granted :
  let '(r, _, w') :=
    nct6775_probe asrock_z97 sio_2e 0x295 (mk_world (nct6791d 0) (after 2) 0 []) in
  r = 0 /\ attempts (trace w') = 3%nat
  /\ firstn 5 (trace w')
     = [EvDevmRequest 0x295 2 false; EvSleep 100000 100001;
        EvDevmRequest 0x295 2 false; EvSleep 100000 100001;
        EvDevmRequest 0x295 2 true].
Proof. vm_compute. repeat split; reflexivity. Qed.

(** C5.  Every entry point that enters the bracket (discovery, attribute
    write, resume, and probe once it holds its region and memory) shows one
    pass through it on the bus.  If the request is granted the trace is
    the unlock sequence, then port accesses only, then the lock sequence and
    the release: one release, whatever branch was taken.  If it is refused
    the trace is the refused request alone, no port is touched, nothing is
    released, and the entry point returns -EBUSY.  A write that does not
    parse, and a probe that fails before the bracket, leave the ports
    untouched. *)
Theorem bracket_pairing :
  (forall sioaddr sd w,
      let '(r, _, w') := nct6775_find sioaddr sd w in
      bracket_discipline sioaddr r w w')
  /\ (forall kstrtobool d sd buf count w,
         let '(r, _, w') := store_hddsaver kstrtobool d sd buf count w in
         match kstrtobool buf with
         | Some _ => bracket_discipline (sd_sioreg sd) r w w'
         | None => w' = w
         end)
  /\ (forall d w,
         let '(r, _, w') := hddsaver_resume d w in
         bracket_discipline (sioreg d) r w w')
  /\ (forall env sd rs w,
         let '(region, w1) := request_retry (region_res env) MAXRETRIES rs w in
         let '(r, _, w') := nct6775_probe env sd rs w in
         (exists pre, trace w1 = trace w ++ pre
                      /\ forallb is_retry_event pre = true)
         /\ if truthy region && kzalloc_ok env
            then bracket_discipline (sd_sioreg sd) r w1 w'
            else w' = w1).
Proof.
  split; [|split; [|split]].
  - intros sioaddr sd w. pose proof (find_bracket sioaddr sd w) as H.
    now destruct (nct6775_find sioaddr sd w) as [[r sd'] w'].
  - intros kstrtobool d sd buf count w.
    destruct (kstrtobool buf) as [v|] eqn:Hv.
    + pose proof (store_bracket kstrtobool d sd buf count w v Hv) as H.
      now destruct (store_hddsaver kstrtobool d sd buf count w) as [[r d'] w'].
    + now rewrite store_invalid.
  - intros d w. pose proof (resume_bracket d w) as H.
    now destruct (hddsaver_resume d w) as [[r d'] w'].
  - intros env sd rs w.
    pose proof (request_retry_spec (region_res env) MAXRETRIES rs w) as Hloop.
    pose proof (probe_shape env sd rs w) as Hshape.
    destruct (request_retry (region_res env) MAXRETRIES rs w) as [region w1].
    destruct (nct6775_probe env sd rs w) as [[r od] w'].
    split.
    + destruct Hloop as (_ & _ & Hloop).
      destruct (first_grant (region_kept (region_res env) (region_grant w))
                            (region_calls w) MAXRETRIES) as [k|].
      * destruct Hloop as (_ & _ & Ht). eexists. split; [exact Ht|].
        rewrite forallb_app, retry_events_retry_rounds. reflexivity.
      * destruct Hloop as (_ & Ht). eexists. split; [exact Ht|].
        apply retry_events_retry_rounds.
    + destruct (truthy region && kzalloc_ok env); [exact Hshape | apply Hshape].
Qed.

(** ** Probe: the board gate *)

Lemma strcmp_zero a b : (strcmp a b =? 0) = true <-> a = b.
Proof.
  unfold strcmp. split.
  - destruct (String.compare a b) eqn:E; cbn; intros H; try discriminate.
    now apply String.compare_eq_iff.
  - intros ->. pose proof (String.compare_antisym b b) as H.
    destruct (String.compare b b); cbn in H; try discriminate; reflexivity.
Qed.

Lemma board_has_hddsaver_listed env :
  board_has_hddsaver env = true <-> board_listed env.
Proof.
  unfold board_has_hddsaver, board_listed, hddsaver_boards. split.
  - destruct (board_name env) as [name|]; [|discriminate].
    destruct (board_vendor env) as [vendor|]; [|discriminate].
    intros H. apply andb_true_iff in H as [Hv Hn]. apply strcmp_zero in Hv.
    exists vendor, name. split; [reflexivity|]. split; [reflexivity|]. subst vendor.
    apply orb_true_iff in Hn as [Hn|Hn]; [apply orb_true_iff in Hn as [Hn|Hn]|];
      apply strcmp_zero in Hn; subst name; cbn; tauto.
  - intros (vendor & name & -> & -> & Hin).
    cbn in Hin. destruct Hin as [E|[E|[E|[]]]]; injection E as <- <-; reflexivity.
Qed.

(** C6.  For every board that is not one of the three listed ASRock
    models (a missing vendor or model string included), the device data
    probe leaves behind has have_hddsaver false, whatever the chip
    registers hold, bit 6 of CR 0x2a included. *)
Theorem probe_board_gating env sd rs w :
  ~ board_listed env ->
  match snd (fst (nct6775_probe env sd rs w)) with
  | Some d => have_hddsaver d = false
  | None => True
  end.
Proof.
  intros Hnot.
  assert (Hb : board_has_hddsaver env = false).
  { destruct (board_has_hddsaver env) eqn:E; [|reflexivity].
    exfalso. apply Hnot. now apply board_has_hddsaver_listed. }
  unfold nct6775_probe, bind.
  destruct (request_retry (region_res env) MAXRETRIES rs w) as [region w1].
  destruct (truthy region); cbn [negb]; [|exact I].
  destruct (kzalloc_ok env); cbn [negb]; [|exact I].
  cbv zeta.
  destruct (superio_enter (sd_sioreg sd) w1) as [err w2].
  destruct (truthy err); [destruct (sd_kind sd); reflexivity|].
  destruct (superio_inb (sd_sioreg sd) 42 w2) as [cr2a w3].
  destruct (sd_kind sd). cbn [kind]. rewrite Hb. cbn [have_hddsaver].
  unfold ret at 1.
  destruct (superio_exit (sd_sioreg sd) w3) as [u w4].
  destruct (truthy (sysfs_err env)); reflexivity.
Qed.

Lemma probe_board_gating_witness :
  ~ board_listed asus_z97
  /\ Z.testbit (global_reg (chip (quiet_world 0xfe)) 0x2a) 6 = true
  /\ match snd (fst (nct6775_probe asus_z97 sio_2e 0x295 (quiet_world 0xfe))) with
     | Some d => have_hddsaver d = false
     | None => True
     end.
Proof.
  assert (H : ~ board_listed asus_z97).
  { intros Hl. apply board_has_hddsaver_listed in Hl. discriminate Hl. }
  split; [exact H|]. split; [reflexivity|].
  exact (probe_board_gating asus_z97 sio_2e 0x295 (quiet_world 0xfe) H).
Defined.

Example probe_listed_board_sees_bit :
  match snd (fst (nct6775_probe asrock_z97 sio_2e 0x295 (quiet_world 0xfe))) with
  | Some d => have_hddsaver d = true
  | None => False
  end.
Proof. vm_compute. reflexivity. Qed.

(** ** Discovery *)

Lemma hwm_base_nonneg c : 0 <= Z.land (chip_hwm_base c) IOREGION_ALIGNMENT.
Proof.
  apply Z.land_nonneg. left. unfold chip_hwm_base, u16.
  apply Z.land_nonneg. right. lia.
Qed.

(** C7.  Discovery on a chip at the probed address, once let into the
    bracket.  It returns -ENODEV exactly when the 16-bit ID under
    SIO_ID_MASK is not SIO_NCT6791_ID or the base address of the hardware
    monitor, masked to its alignment, is 0.  On an ID mismatch the bus sees
    the bracket and the two ID reads and nothing else, so neither the
    enable register is written nor the I/O space lock register touched, and
    no register changes.  Any other result is the masked base address,
    which is positive, with the port address and chip kind recorded. *)
Theorem find_not_found_iff sioaddr sd w :
  sio_base (chip w) = sioaddr -> next_grant w = true ->
  let '(r, sd', w') := nct6775_find sioaddr sd w in
  (r = - ENODEV <->
   Z.land (chip_devid (chip w)) SIO_ID_MASK <> SIO_NCT6791_ID
   \/ Z.land (chip_hwm_base (chip w)) IOREGION_ALIGNMENT = 0)
  /\ (Z.land (chip_devid (chip w)) SIO_ID_MASK <> SIO_NCT6791_ID ->
      trace w' = trace w ++ enter_seq sioaddr
                         ++ [EvOutb SIO_REG_DEVID sioaddr;
                             EvInb (sioaddr + 1) (global_reg (chip w) SIO_REG_DEVID);
                             EvOutb (SIO_REG_DEVID + 1) sioaddr;
                             EvInb (sioaddr + 1) (global_reg (chip w) (SIO_REG_DEVID + 1))]
                         ++ exit_seq sioaddr
      /\ cr_global (chip w') = cr_global (chip w)
      /\ cr_ld (chip w') = cr_ld (chip w))
  /\ (r <> - ENODEV ->
      r = Z.land (chip_hwm_base (chip w)) IOREGION_ALIGNMENT
      /\ 0 < r /\ sd_sioreg sd' = sioaddr /\ sd_kind sd' = nct6791).
Proof.
  intros Hb Hg. destruct w as [c gr n tr]. cbn in Hb, Hg. subst sioaddr. proj.
  pose proof (hwm_base_nonneg c) as Hnn.
  unfold nct6775_find, bind.
  rewrite superio_enter_granted by (reflexivity || assumption).
  change (truthy 0) with false. sio_steps.
  match goal with
  | |- context [if negb (?X =? SIO_NCT6791_ID) then _ else _] =>
      change X with (Z.land (chip_devid c) SIO_ID_MASK)
  end.
  destruct (Z.eqb_spec (Z.land (chip_devid c) SIO_ID_MASK) SIO_NCT6791_ID) as [Hid|Hid];
    cbn [negb].
  2:{ sio_steps. unfold ret. split; [|split].
      - split; [now left | intros _; reflexivity].
      - intros _. rewrite <- !app_assoc. repeat split.
      - intros H. now destruct H. }
  sio_steps.
  match goal with
  | |- context [if ?X =? 0 then _ else _] =>
      change X with (Z.land (chip_hwm_base c) IOREGION_ALIGNMENT)
  end.
  destruct (Z.eqb_spec (Z.land (chip_hwm_base c) IOREGION_ALIGNMENT) 0) as [Hz|Hz].
  { sio_steps. unfold ret. split; [|split].
    - split; [now right | intros _; reflexivity].
    - intros H. now destruct H.
    - intros H. now destruct H. }
  assert (Hpos : 0 < Z.land (chip_hwm_base c) IOREGION_ALIGNMENT) by lia.
  assert (Hiff : Z.land (chip_hwm_base c) IOREGION_ALIGNMENT = - ENODEV <->
                 Z.land (chip_devid c) SIO_ID_MASK <> SIO_NCT6791_ID
                 \/ Z.land (chip_hwm_base c) IOREGION_ALIGNMENT = 0).
  { split; [unfold ENODEV; lia | intros [H|H]; contradiction]. }
  unfold nct6791_enable_io_mapping, bind. cbn [sd_kind]. sio_steps.
  match goal with
  | |- context [if negb (truthy ?X) then _ else _] => destruct (negb (truthy X))
  end; unfold ret; sio_steps;
    (match goal with
     | |- context [if truthy ?X then _ else _] => destruct (truthy X)
     end; unfold ret; sio_steps;
     (split; [exact Hiff|]);
     (split; [intros H; contradiction|]);
     intros _; repeat split; exact Hpos).
Qed.

Lemma find_not_found_iff_witness :
  sio_base (chip (quiet_world 0xfe)) = 0x2e /\ next_grant (quiet_world 0xfe) = true
  /\ let '(r, sd', w') := nct6775_find 0x2e sio_2e (quiet_world 0xfe) in
     (r = - ENODEV <->
      Z.land (chip_devid (chip (quiet_world 0xfe))) SIO_ID_MASK <> SIO_NCT6791_ID
      \/ Z.land (chip_hwm_base (chip (quiet_world 0xfe))) IOREGION_ALIGNMENT = 0)
     /\ (Z.land (chip_devid (chip (quiet_world 0xfe))) SIO_ID_MASK <> SIO_NCT6791_ID ->
         trace w' = trace (quiet_world 0xfe) ++ enter_seq 0x2e
                      ++ [EvOutb SIO_REG_DEVID 0x2e;
                          EvInb (0x2e + 1)
                                (global_reg (chip (quiet_world 0xfe)) SIO_REG_DEVID);
                          EvOutb (SIO_REG_DEVID + 1) 0x2e;
                          EvInb (0x2e + 1)
                                (global_reg (chip (quiet_world 0xfe)) (SIO_REG_DEVID + 1))]
                      ++ exit_seq 0x2e
         /\ cr_global (chip w') = cr_global (chip (quiet_world 0xfe))
         /\ cr_ld (chip w') = cr_ld (chip (quiet_world 0xfe)))
     /\ (r <> - ENODEV ->
         r = Z.land (chip_hwm_base (chip (quiet_world 0xfe))) IOREGION_ALIGNMENT
         /\ 0 < r /\ sd_sioreg sd' = 0x2e /\ sd_kind sd' = nct6791).
Proof.
  split; [reflexivity|]. split; [reflexivity|].
  exact (find_not_found_iff 0x2e sio_2e (quiet_world 0xfe) eq_refl eq_refl).
Defined.

(* a chip of another family, and one whose base address was left at 0 *)
Example find_rejects_other_chip :
  let c := mk_chip 0x2e Locked 0 0 (fun i => if i =? 0x20 then 0xd4 else 0x20)
                   (fun _ _ => 0x01) in
  let '(r, _, w') := nct6775_find 0x2e sio_2e (mk_world c (always true) 0 []) in
  r = - ENODEV
  /\ trace w' = enter_seq 0x2e
                  ++ [EvOutb 0x20 0x2e; EvInb 0x2f 0xd4; EvOutb 0x21 0x2e; EvInb 0x2f 0x20]
                  ++ exit_seq 0x2e.
Proof. vm_compute. split; reflexivity. Qed.

Example find_rejects_base_zero :
  let c := mk_chip 0x2e Locked 0 0
                   (fun i => if i =? 0x20 then 0xc8 else 0)
                   (fun _ i => if i =? 0x61 then 0x07 else 0) in
  fst (fst (nct6775_find 0x2e sio_2e (mk_world c (always true) 0 []))) = - ENODEV.
Proof. vm_compute. reflexivity. Qed.

Example find_busy :
  fst (fst (nct6775_find 0x2e sio_2e (busy_world 0))) = - EBUSY.
Proof. vm_compute. reflexivity. Qed.

(** ** The cache and the pin *)

Lemma probe_cache_coherent env sd rs w r d w' :
  sd_sioreg sd = sio_base (chip w) ->
  nct6775_probe env sd rs w = (r, Some d, w') ->
  have_hddsaver d = true ->
  cache_coherent sd (d, w').
Proof.
  intros Hb. unfold cache_coherent, nct6775_probe. unfold bind at 1.
  pose proof (request_retry_spec (region_res env) MAXRETRIES rs w) as Hloop.
  destruct (request_retry (region_res env) MAXRETRIES rs w) as [region w1].
  destruct Hloop as (Hc & _ & _).
  destruct (truthy region); cbn [negb]; [|discriminate].
  destruct (kzalloc_ok env); cbn [negb]; [|discriminate].
  destruct w1 as [c1 gr1 n1 tr1], sd as [b k]. cbn in Hc, Hb. cbn [sd_sioreg sd_kind].
  subst c1 b. cbv zeta. unfold bind.
  destruct (gr1 n1) eqn:Hg.
  2:{ rewrite superio_enter_refused by exact Hg.
      change (truthy (- EBUSY)) with true. cbv iota. unfold ret.
      intros E. injection E as _ <- _. destruct k. discriminate. }
  rewrite superio_enter_granted by (reflexivity || assumption).
  change (truthy 0) with false. sio_steps.
  destruct k. cbn [kind].
  destruct (board_has_hddsaver env).
  2:{ cbn [have_hddsaver]. unfold ret. sio_steps.
      destruct (truthy (sysfs_err env)); intros E; injection E as _ <- _; discriminate. }
  cbn [have_hddsaver set_have_hddsaver].
  match goal with
  | |- context [if truthy ?X then _ else _] => destruct (truthy X)
  end.
  2:{ unfold ret. sio_steps.
      destruct (truthy (sysfs_err env)); intros E; injection E as _ <- _; discriminate. }
  unfold ret. sio_steps.
  destruct (truthy (sysfs_err env)); intros E; injection E as _ <- <-; intros _;
    (split; [reflexivity|]); cbn [fst snd hddsaver_status set_hddsaver_status];
    rewrite truthy_bit0, u8_testbit by lia; reflexivity.
Qed.

Lemma show_keeps_coherent kstrtobool HZ sd jiffies d w :
  cache_coherent sd (d, w) ->
  cache_coherent sd (ctl_step kstrtobool HZ sd (d, w) (CtlShow jiffies)).
Proof.
  unfold cache_coherent, ctl_step. cbn [fst snd]. intros [Hb Hs].
  pose proof (show_hddsaver_world HZ jiffies d w) as H.
  destruct (show_hddsaver HZ jiffies d w) as [[[r buf] d'] w'].
  destruct H as [-> H]. cbn [fst snd]. now rewrite H.
Qed.

Lemma store_keeps_coherent kstrtobool sd d w buf count :
  cache_coherent sd (d, w) ->
  let '(_, d', w') := store_hddsaver kstrtobool d sd buf count w in
  cache_coherent sd (d', w').
Proof.
  unfold cache_coherent. cbn [fst snd]. intros [Hb Hs].
  destruct (kstrtobool buf) as [v|] eqn:Hv.
  2:{ rewrite store_invalid by assumption. now split. }
  destruct (next_grant w) eqn:Hg.
  2:{ rewrite (store_refused kstrtobool d sd buf count w v) by assumption. now split. }
  destruct sd as [b k], w as [[b' m i l g r] gr n tr]. cbn in Hb, Hg. subst b'.
  cbn [sd_sioreg]. cbn [chip] in Hs.
  destruct (Bool.eqb v (hddsaver_status d)) eqn:Hsame.
  - apply eqb_prop in Hsame. subst v.
    rewrite store_same_ext by assumption. now split.
  - apply eqb_false_iff in Hsame.
    rewrite (store_toggle_ext kstrtobool d b k buf count v) by assumption.
    split; [reflexivity|]. proj.
    cbn [hddsaver_status set_hddsaver_status].
    rewrite gpio1_after_toggle, !u8_idem, flip_bit0 by lia. cbn [Z.eqb].
    change (u8 (r NCT6775_LD_GPIO_DATA NCT6775_REG_CR_GPIO1_DATA))
      with (gpio1_data (mk_chip b m i l g r)).
    rewrite <- Hs. destruct v, (hddsaver_status d); try reflexivity; now elim Hsame.
Qed.

(* what one write does to the cache and to the pin *)
Lemma store_step_effect kstrtobool sd d w buf count :
  sio_base (chip w) = sd_sioreg sd ->
  let '(_, d', w') := store_hddsaver kstrtobool d sd buf count w in
  if effective_write (kstrtobool buf) d w
  then kstrtobool buf = Some (hddsaver_status d')
       /\ hddsaver_status d' = negb (hddsaver_status d)
       /\ (forall i, 0 <= i ->
             Z.testbit (gpio1_data (chip w')) i
             = if i =? 0 then negb (Z.testbit (gpio1_data (chip w)) 0)
               else Z.testbit (gpio1_data (chip w)) i)
  else hddsaver_status d' = hddsaver_status d
       /\ gpio1_data (chip w') = gpio1_data (chip w).
Proof.
  intros Hb. unfold effective_write.
  destruct (kstrtobool buf) as [v|] eqn:Hv.
  2:{ rewrite store_invalid by assumption. now split. }
  destruct (next_grant w) eqn:Hg; cbn [andb].
  2:{ rewrite (store_refused kstrtobool d sd buf count w v) by assumption. now split. }
  destruct sd as [b k], w as [[b' m i l g r] gr n tr]. cbn in Hb, Hg. subst b'.
  cbn [sd_sioreg].
  destruct (Bool.eqb v (hddsaver_status d)) eqn:Hsame; cbn [negb].
  - apply eqb_prop in Hsame. subst v.
    rewrite store_same_ext by assumption. now split.
  - apply eqb_false_iff in Hsame.
    rewrite (store_toggle_ext kstrtobool d b k buf count v) by assumption.
    proj. cbn [hddsaver_status set_hddsaver_status].
    split; [reflexivity|]. split.
    + destruct v, (hddsaver_status d); try reflexivity; now elim Hsame.
    + intros j Hj. rewrite gpio1_after_toggle, !u8_idem, flip_bit0 by assumption.
      reflexivity.
Qed.

(** C10.  After a probe that returned 0 with the capability found, on a
    chip at the driver's address, the cached status equals bit 0 of the
    GPIO1 data register, and it still does after any sequence of attribute
    reads and writes (whatever they parse to, whether or not the bracket is
    granted).  From any state so reached, an effective write (one that
    parses, is let into the bracket and asks for a value other than the
    cached one) inverts bit 0 of the register, keeps its other bits and
    sets the cache to the value written, in the one step; any other write,
    and any read, changes neither the register nor the cached status.
    Nothing but the driver writes to the chip in this model. *)
Theorem cache_tracks_gpio
        (kstrtobool : string -> option bool) (HZ : Z) env sd rs w0 d w ops :
  sd_sioreg sd = sio_base (chip w0) ->
  nct6775_probe env sd rs w0 = (0, Some d, w) ->
  have_hddsaver d = true ->
  cache_coherent sd (d, w)
  /\ cache_coherent sd (ctl_run kstrtobool HZ sd ops (d, w))
  /\ (forall buf count,
        let s := ctl_run kstrtobool HZ sd ops (d, w) in
        let s' := ctl_step kstrtobool HZ sd s (CtlStore buf count) in
        if effective_write (kstrtobool buf) (fst s) (snd s)
        then kstrtobool buf = Some (hddsaver_status (fst s'))
             /\ hddsaver_status (fst s') = negb (hddsaver_status (fst s))
             /\ (forall i, 0 <= i ->
                   Z.testbit (gpio1_data (chip (snd s'))) i
                   = if i =? 0 then negb (Z.testbit (gpio1_data (chip (snd s))) 0)
                     else Z.testbit (gpio1_data (chip (snd s))) i)
        else hddsaver_status (fst s') = hddsaver_status (fst s)
             /\ gpio1_data (chip (snd s')) = gpio1_data (chip (snd s)))
  /\ (forall jiffies,
        let s := ctl_run kstrtobool HZ sd ops (d, w) in
        let s' := ctl_step kstrtobool HZ sd s (CtlShow jiffies) in
        hddsaver_status (fst s') = hddsaver_status (fst s) /\ snd s' = snd s).
Proof.
  intros Hb Hp Hh.
  assert (H0 : cache_coherent sd (d, w))
    by exact (probe_cache_coherent env sd rs w0 0 d w Hb Hp Hh).
  split; [exact H0|].
  assert (Hrun : cache_coherent sd (ctl_run kstrtobool HZ sd ops (d, w))).
  { clear Hp Hh Hb. unfold ctl_run.
    generalize dependent (d, w). clear d w.
    induction ops as [|op ops IH]; intros s Hs; [exact Hs|].
    cbn [fold_left]. apply IH. destruct s as [d w], op as [jiffies|buf count].
    - apply (show_keeps_coherent kstrtobool HZ sd jiffies d w Hs).
    - unfold ctl_step. cbn [fst snd].
      pose proof (store_keeps_coherent kstrtobool sd d w buf count Hs) as H.
      now destruct (store_hddsaver kstrtobool d sd buf count w) as [[r d'] w']. }
  split; [exact Hrun|].
  destruct (ctl_run kstrtobool HZ sd ops (d, w)) as [d1 w1].
  destruct Hrun as [Hb1 _]. cbn [fst snd] in Hb1.
  split.
  - intros buf count. cbv zeta. unfold ctl_step. cbn [fst snd].
    pose proof (store_step_effect kstrtobool sd d1 w1 buf count Hb1) as H.
    destruct (store_hddsaver kstrtobool d1 sd buf count w1) as [[r d'] w'].
    exact H.
  - intros jiffies. cbv zeta. unfold ctl_step. cbn [fst snd].
    pose proof (show_hddsaver_world HZ jiffies d1 w1) as H.
    destruct (show_hddsaver HZ jiffies d1 w1) as [[[r buf] d'] w'].
    destruct H as [-> H]. cbn [fst snd]. now split.
Qed.

Lemma cache_tracks_gpio_witness :
  let ops := [CtlStore "1" 2; CtlShow 5000; CtlStore "off" 4; CtlStore "bogus" 6;
              CtlStore "on" 3] in
  let s := ctl_run kstrtobool_kernel 250 sio_2e ops (probed_data, snd probed_asrock) in
  sd_sioreg sio_2e = sio_base (chip (quiet_world 0xfe))
  /\ nct6775_probe asrock_z97 sio_2e 0x295 (quiet_world 0xfe)
     = (0, Some probed_data, snd probed_asrock)
  /\ have_hddsaver probed_data = true
  /\ effective_write (kstrtobool_kernel "0") (fst s) (snd s) = true
  /\ cache_coherent sio_2e (probed_data, snd probed_asrock)
  /\ cache_coherent sio_2e s
  /\ (forall buf count,
        let s' := ctl_step kstrtobool_kernel 250 sio_2e s (CtlStore buf count) in
        if effective_write (kstrtobool_kernel buf) (fst s) (snd s)
        then kstrtobool_kernel buf = Some (hddsaver_status (fst s'))
             /\ hddsaver_status (fst s') = negb (hddsaver_status (fst s))
             /\ (forall i, 0 <= i ->
                   Z.testbit (gpio1_data (chip (snd s'))) i
                   = if i =? 0 then negb (Z.testbit (gpio1_data (chip (snd s))) 0)
                     else Z.testbit (gpio1_data (chip (snd s))) i)
        else hddsaver_status (fst s') = hddsaver_status (fst s)
             /\ gpio1_data (chip (snd s')) = gpio1_data (chip (snd s)))
  /\ (forall jiffies,
        let s' := ctl_step kstrtobool_kernel 250 sio_2e s (CtlShow jiffies) in
        hddsaver_status (fst s') = hddsaver_status (fst s) /\ snd s' = snd s).
Proof.
  intros ops s.
  assert (Hb : sd_sioreg sio_2e = sio_base (chip (quiet_world 0xfe))) by reflexivity.
  assert (Hp : nct6775_probe asrock_z97 sio_2e 0x295 (quiet_world 0xfe)
               = (0, Some probed_data, snd probed_asrock))
    by (vm_compute; reflexivity).
  assert (Hh : have_hddsaver probed_data = true) by (vm_compute; reflexivity).
  assert (He : effective_write (kstrtobool_kernel "0") (fst s) (snd s) = true)
    by (vm_compute; reflexivity).
  split; [exact Hb|]. split; [exact Hp|]. split; [exact Hh|]. split; [exact He|].
  exact (cache_tracks_gpio kstrtobool_kernel 250 asrock_z97 sio_2e 0x295
                           (quiet_world 0xfe) probed_data (snd probed_asrock) ops
                           Hb Hp Hh).
Defined.

Example cache_tracks_gpio_run :
  let '(d, w) :=
    ctl_run kstrtobool_kernel 250 sio_2e
            [CtlStore "1" 2; CtlShow 5000; CtlStore "off" 4; CtlStore "on" 3]
            (probed_data, snd probed_asrock) in
  (hddsaver_status d, gpio1_data (chip w)) = (true, 0xff).
Proof. vm_compute. reflexivity. Qed.

(** ** Resume *)

(* nothing ever stores the enable register in the device data *)
Lemma probe_leaves_sio_reg_enable_zero env sd rs w :
  match snd (fst (nct6775_probe env sd rs w)) with
  | Some d => sio_reg_enable d = 0
  | None => True
  end.
Proof.
  unfold nct6775_probe, bind.
  destruct (request_retry (region_res env) MAXRETRIES rs w) as [region w1].
  destruct (truthy region); cbn [negb]; [|exact I].
  destruct (kzalloc_ok env); cbn [negb]; [|exact I].
  cbv zeta.
  destruct (superio_enter (sd_sioreg sd) w1) as [err w2].
  destruct (truthy err); [destruct (sd_kind sd); reflexivity|].
  destruct (superio_inb (sd_sioreg sd) 42 w2) as [cr2a w3].
  destruct (sd_kind sd). cbn [kind].
  destruct (board_has_hddsaver env); cbn [have_hddsaver set_have_hddsaver].
  - destruct (truthy (Z.land (u8 cr2a) (Z.shiftl 1 6))).
    + destruct (superio_select (sd_sioreg sd) NCT6775_LD_GPIO_DATA w3) as [u1 w4].
      destruct (superio_inb (sd_sioreg sd) NCT6775_REG_CR_GPIO1_DATA w4) as [tmp w5].
      unfold ret at 1.
      destruct (superio_exit (sd_sioreg sd) w5) as [u w6].
      destruct (truthy (sysfs_err env)); reflexivity.
    + unfold ret at 1.
      destruct (superio_exit (sd_sioreg sd) w3) as [u w4].
      destruct (truthy (sysfs_err env)); reflexivity.
  - unfold ret at 1.
    destruct (superio_exit (sd_sioreg sd) w3) as [u w4].
    destruct (truthy (sysfs_err env)); reflexivity.
Qed.

Lemma suspend_keeps_sio_reg_enable HZ jiffies d w :
  let '(r, d', w') := hddsaver_suspend HZ jiffies d w in
  r = 0 /\ sio_reg_enable d' = sio_reg_enable d /\ w' = w.
Proof.
  unfold hddsaver_suspend, nct6775_update_device, bind, ret.
  destruct (time_after jiffies (ulong (last_updated d + HZ + HZ / 2)) || negb (valid d));
    repeat split.
Qed.

(** C4, where the code departs from it.  Discovery and probe on an NCT6791D
    whose hardware monitor is enabled (enable register 0x01), then suspend,
    then resume, every bracket granted: the remembered value is 0, as
    devm_kzalloc left it, although the register read 0x01 all along, and
    resume, seeing 0x01 differ from 0, writes 0x00 into the enable
    register. *)
Theorem resume_writes_back_unrecorded_enable :
  let w0 := quiet_world 0xfe in
  let '(base, sd, w1) := nct6775_find 0x2e (mk_sio_data 0 nct6791) w0 in
  match nct6775_probe asrock_z97 sd (base + IOREGION_OFFSET) w1 with
  | (0, Some d, w2) =>
      let '(_, d3, w3) := hddsaver_suspend 250 5000 d w2 in
      let '(r, _, w4) := hddsaver_resume d3 w3 in
      base = 0x290
      /\ hwm_enable (chip w0) = 0x01 /\ hwm_enable (chip w3) = 0x01
      /\ sio_reg_enable d3 = 0
      /\ r = 0
      /\ hwm_enable (chip w4) = 0x00
      /\ In (EvOutb 0x00 0x2f) (skipn (List.length (trace w3)) (trace w4))
  | _ => False
  end.
Proof. vm_compute. repeat split; try reflexivity. auto 20. Qed.

(** * Further properties of the driver *)

(** ** The attribute write, all outcomes *)

Lemma set_hddsaver_status_same d : set_hddsaver_status (hddsaver_status d) d = d.
Proof. now destruct d. Qed.

Lemma upd1_other f k v k' : k' <> k -> upd1 f k v k' = f k'.
Proof. intros H. unfold upd1. now destruct (Z.eqb_spec k' k). Qed.

Lemma upd2_other f l k v l' k' : (l', k') <> (l, k) -> upd2 f l k v l' k' = f l' k'.
Proof.
  intros H. unfold upd2.
  destruct (Z.eqb_spec l' l) as [->|]; [|reflexivity].
  destruct (Z.eqb_spec k' k) as [->|]; [|reflexivity].
  now elim H.
Qed.

(* a write that is let in returns the count and caches the value written *)
Lemma store_granted_data (kstrtobool : string -> option bool) d sd buf count w v :
  kstrtobool buf = Some v -> next_grant w = true ->
  fst (store_hddsaver kstrtobool d sd buf count w) = (long count, set_hddsaver_status v d).
Proof.
  intros Hv Hg. unfold store_hddsaver, bind. rewrite Hv.
  destruct (superio_enter_trace (sd_sioreg sd) w Hg) as (E0 & _).
  destruct (superio_enter (sd_sioreg sd) w) as [e w1]. cbn [fst] in E0. subst e.
  change (truthy 0) with false. cbv iota.
  destruct (Bool.eqb v (hddsaver_status d)) eqn:Hsame; cbn [negb].
  - apply eqb_prop in Hsame. subst v. unfold ret at 1.
    destruct (superio_exit (sd_sioreg sd) w1) as [u w2]. unfold ret. cbn [fst].
    now rewrite set_hddsaver_status_same.
  - destruct (superio_select (sd_sioreg sd) NCT6775_LD_GPIO_DATA w1) as [u1 w2].
    destruct (superio_inb (sd_sioreg sd) NCT6775_REG_CR_GPIO1_DATA w2) as [tmp w3].
    destruct (superio_outb (sd_sioreg sd) NCT6775_REG_CR_GPIO1_DATA
                           (Z.lxor (u8 tmp) (Z.shiftl 1 0)) w3) as [u2 w4].
    unfold ret at 1.
    destruct (superio_exit (sd_sioreg sd) w4) as [u w5]. reflexivity.
Qed.

(** X1.  The three ways a write can end.  Text that does not parse gives
    -EINVAL and changes nothing, not even the trace.  A refused bracket
    gives -EBUSY with the device data and the chip as they were and only
    the refused request on the trace.  Otherwise the write returns the
    count and the device data differ from before at most in the cached
    status, which is the value written. *)
Theorem store_outcomes (kstrtobool : string -> option bool) d sd buf count w :
  let '(r, d', w') := store_hddsaver kstrtobool d sd buf count w in
  match kstrtobool buf with
  | None => r = - EINVAL /\ d' = d /\ w' = w
  | Some v =>
      if next_grant w
      then r = long count /\ d' = set_hddsaver_status v d
      else r = - EBUSY /\ d' = d /\ chip w' = chip w
           /\ trace w' = trace w ++ refused_seq (sd_sioreg sd)
  end.
Proof.
  destruct (kstrtobool buf) as [v|] eqn:Hv.
  2:{ rewrite store_invalid by assumption. now repeat split. }
  destruct (next_grant w) eqn:Hg.
  2:{ rewrite (store_refused kstrtobool d sd buf count w v) by assumption.
      now repeat split. }
  pose proof (store_granted_data kstrtobool d sd buf count w v Hv Hg) as H.
  destruct (store_hddsaver kstrtobool d sd buf count w) as [[r d'] w'].
  cbn [fst] in H. injection H as -> ->. split; reflexivity.
Qed.

Example store_rejects_bad_text :
  store_hddsaver kstrtobool_kernel kzalloc_data sio_2e "maybe" 6 (quiet_world 0xfe)
  = (- EINVAL, kzalloc_data, quiet_world 0xfe).
Proof. reflexivity. Qed.

(** X2.  A read after a write that was let into the bracket reports the
    value written: "On" for true, "Off" for false, whatever the cache and
    the chip held before and whenever the read comes. *)
Theorem show_after_store (kstrtobool : string -> option bool) (HZ jiffies : Z)
        d sd buf count w v :
  kstrtobool buf = Some v -> next_grant w = true ->
  let '(_, d1, w1) := store_hddsaver kstrtobool d sd buf count w in
  let '(_, text, _, w2) := show_hddsaver HZ jiffies d1 w1 in
  text = ((if v then "On" else "Off") ++ String "010" "")%string /\ w2 = w1.
Proof.
  intros Hv Hg. pose proof (store_granted_data kstrtobool d sd buf count w v Hv Hg) as H.
  destruct (store_hddsaver kstrtobool d sd buf count w) as [[r d1] w1].
  cbn [fst] in H. injection H as _ ->.
  unfold show_hddsaver, nct6775_update_device, bind, ret.
  destruct (time_after jiffies _ || negb _); split; reflexivity.
Qed.

Lemma show_after_store_witness :
  kstrtobool_kernel "y" = Some true /\ next_grant (quiet_world 0xfe) = true
  /\ let '(_, d1, w1) :=
       store_hddsaver kstrtobool_kernel kzalloc_data sio_2e "y" 2 (quiet_world 0xfe) in
     let '(_, text, _, w2) := show_hddsaver 250 5000 d1 w1 in
     text = ("On" ++ String "010" "")%string /\ w2 = w1.
Proof.
  split; [reflexivity|]. split; [reflexivity|].
  exact (show_after_store kstrtobool_kernel 250 5000 kzalloc_data sio_2e "y" 2
                          (quiet_world 0xfe) true eq_refl eq_refl).
Defined.

(** X3.  One effective write, seen whole.  With the desired value different
    from the cache, the bracket granted and the chip at the driver's
    address, the bus sees, inside the bracket, the selection of logical
    device 8, one read of CR F1 and one write of CR F1, in that order; the
    byte written is the byte read with bit 0 inverted and bits 1 to 7 as
    read; no other register of the chip changes; the chip is locked again
    afterwards. *)
Theorem store_toggle_effect (kstrtobool : string -> option bool) d sd buf count w v :
  kstrtobool buf = Some v -> v <> hddsaver_status d ->
  sd_sioreg sd = sio_base (chip w) -> next_grant w = true ->
  let '(_, d', w') := store_hddsaver kstrtobool d sd buf count w in
  let old := gpio1_data (chip w) in
  let new := gpio1_data (chip w') in
  trace w' = trace w ++ enter_seq (sd_sioreg sd)
               ++ [EvOutb SIO_REG_LDSEL (sd_sioreg sd);
                   EvOutb NCT6775_LD_GPIO_DATA (sd_sioreg sd + 1);
                   EvOutb NCT6775_REG_CR_GPIO1_DATA (sd_sioreg sd);
                   EvInb (sd_sioreg sd + 1) old;
                   EvOutb NCT6775_REG_CR_GPIO1_DATA (sd_sioreg sd);
                   EvOutb new (sd_sioreg sd + 1)]
               ++ exit_seq (sd_sioreg sd)
  /\ Z.testbit new 0 = negb (Z.testbit old 0)
  /\ (forall i, 1 <= i -> Z.testbit new i = Z.testbit old i)
  /\ cr_global (chip w') = cr_global (chip w)
  /\ lds_but NCT6775_LD_GPIO_DATA NCT6775_REG_CR_GPIO1_DATA (chip w) (chip w')
  /\ sio_mode_of (chip w') = Locked
  /\ hddsaver_status d' = v.
Proof.
  intros Hv Hne Hb Hg.
  destruct sd as [b k], w as [[b' m i l g r] gr n tr]. cbn in Hb, Hg. subst b'.
  rewrite (store_toggle_ext kstrtobool d b k buf count v) by assumption.
  cbv zeta. proj. cbn [sd_sioreg]. rewrite gpio1_after_toggle.
  set (x := r NCT6775_LD_GPIO_DATA NCT6775_REG_CR_GPIO1_DATA).
  change (gpio1_data (mk_chip b m i l g r)) with (u8 x).
  rewrite !u8_idem.
  split; [reflexivity|].
  split; [now rewrite flip_bit0 by lia|].
  split; [intros j Hj; rewrite flip_bit0 by lia;
          destruct (Z.eqb_spec j 0); [lia | reflexivity]|].
  split; [reflexivity|]. split; [|split; reflexivity].
  intros l' j' Hne'. cbn [cr_ld]. now apply upd2_other.
Qed.

Lemma store_toggle_effect_witness :
  let '(_, d', w') :=
    store_hddsaver kstrtobool_kernel kzalloc_data sio_2e "1" 2 (quiet_world 0xa4) in
  let old := gpio1_data (chip (quiet_world 0xa4)) in
  let new := gpio1_data (chip w') in
  trace w' = trace (quiet_world 0xa4) ++ enter_seq (sd_sioreg sio_2e)
               ++ [EvOutb SIO_REG_LDSEL (sd_sioreg sio_2e);
                   EvOutb NCT6775_LD_GPIO_DATA (sd_sioreg sio_2e + 1);
                   EvOutb NCT6775_REG_CR_GPIO1_DATA (sd_sioreg sio_2e);
                   EvInb (sd_sioreg sio_2e + 1) old;
                   EvOutb NCT6775_REG_CR_GPIO1_DATA (sd_sioreg sio_2e);
                   EvOutb new (sd_sioreg sio_2e + 1)]
               ++ exit_seq (sd_sioreg sio_2e)
  /\ Z.testbit new 0 = negb (Z.testbit old 0)
  /\ (forall i, 1 <= i -> Z.testbit new i = Z.testbit old i)
  /\ cr_global (chip w') = cr_global (chip (quiet_world 0xa4))
  /\ lds_but NCT6775_LD_GPIO_DATA NCT6775_REG_CR_GPIO1_DATA
             (chip (quiet_world 0xa4)) (chip w')
  /\ sio_mode_of (chip w') = Locked
  /\ hddsaver_status d' = true.
Proof.
  exact (store_toggle_effect kstrtobool_kernel kzalloc_data sio_2e "1" 2
                             (quiet_world 0xa4) true eq_refl
                             (fun H => Bool.diff_true_false H) eq_refl eq_refl).
Defined.

(** ** The attribute read and the freshness window *)

(** X4.  A read never fails and never reaches the bus: the world comes back
    as it was, the text is "On" or "Off" followed by a newline according to
    the cached status, the result is the length of that text, and of the
    device data only valid and last_updated can differ afterwards, valid
    being true and last_updated either as before or the current time. *)
Theorem show_reports_cache (HZ jiffies : Z) d w :
  let '(r, text, d', w') := show_hddsaver HZ jiffies d w in
  w' = w
  /\ text = ((if hddsaver_status d then "On" else "Off") ++ String "010" "")%string
  /\ r = Z.of_nat (String.length text) /\ (r = 3 \/ r = 4)
  /\ valid d' = true
  /\ d' = set_stamp true (last_updated d') d
  /\ (last_updated d' = last_updated d \/ last_updated d' = jiffies).
Proof.
  unfold show_hddsaver, nct6775_update_device, bind, ret.
  destruct (time_after jiffies (ulong (last_updated d + HZ + HZ / 2))) eqn:Et;
    cbn [orb].
  - cbn [hddsaver_status set_stamp valid last_updated].
    destruct d as [a s k rc va lu bk inn hh hs se]; cbn.
    destruct hs; repeat split; auto.
  - destruct (valid d) eqn:Ev; cbn [negb].
    + destruct d as [a s k rc va lu bk inn hh hs se]; cbn in *. subst va.
      destruct hs; repeat split; auto.
    + cbn [hddsaver_status set_stamp valid last_updated].
      destruct d as [a s k rc va lu bk inn hh hs se]; cbn.
      destruct hs; repeat split; auto.
Qed.

Lemma long_of_signed (x y : Z) :
  - 2 ^ 63 <= y < 2 ^ 63 -> x mod 2 ^ 64 = y mod 2 ^ 64 -> long x = y.
Proof.
  intros Hy E. unfold long, ulong, BITS_PER_LONG.
  change (2 ^ (64 - 1)) with (2 ^ 63). rewrite E.
  change (2 ^ 64) with (2 * 2 ^ 63) in *.
  destruct (Z.lt_ge_cases y 0) as [Hneg|Hpos].
  - assert (Em : y mod (2 * 2 ^ 63) = y + 2 * 2 ^ 63).
    { symmetry. apply (Z.mod_unique _ _ (-1)); lia. }
    rewrite Em. destruct (Z.ltb_spec (y + 2 * 2 ^ 63) (2 ^ 63)); lia.
  - rewrite Z.mod_small by lia. destruct (Z.ltb_spec y (2 ^ 63)); lia.
Qed.

(** X5.  The freshness window, wrap-around included.  For valid data, with
    the ticks elapsed since last_updated taken modulo 2^64 and below 2^63,
    an update restamps the data exactly when more than HZ + HZ/2 ticks have
    elapsed, and otherwise leaves them alone; in neither case is the bus
    used. *)
Theorem update_device_window (HZ jiffies : Z) d w :
  valid d = true ->
  0 <= HZ + HZ / 2 < 2 ^ 63 ->
  ulong (jiffies - last_updated d) < 2 ^ 63 ->
  nct6775_update_device HZ jiffies d w
  = (if HZ + HZ / 2 <? ulong (jiffies - last_updated d)
     then set_stamp true jiffies d else d, w).
Proof.
  intros Hv HK Hd. unfold nct6775_update_device. rewrite Hv. cbn [negb].
  rewrite orb_false_r. unfold time_after.
  set (K := HZ + HZ / 2) in *. set (D := ulong (jiffies - last_updated d)) in *.
  assert (HD : 0 <= D) by (subst D; unfold ulong, BITS_PER_LONG; apply Z.mod_pos_bound; lia).
  assert (E : long (ulong (last_updated d + HZ + HZ / 2) - jiffies) = K - D).
  { apply long_of_signed; [lia|].
    subst K D. unfold ulong, BITS_PER_LONG.
    rewrite Zminus_mod_idemp_l, Zminus_mod_idemp_r. f_equal. lia. }
  rewrite E.
  destruct (Z.ltb_spec (K - D) 0), (Z.ltb_spec K D); try lia; reflexivity.
Qed.

Lemma update_device_window_witness :
  valid (set_stamp true (2 ^ 64 - 100) kzalloc_data) = true
  /\ 0 <= 250 + 250 / 2 < 2 ^ 63
  /\ ulong (200 - last_updated (set_stamp true (2 ^ 64 - 100) kzalloc_data)) < 2 ^ 63
  /\ nct6775_update_device 250 200 (set_stamp true (2 ^ 64 - 100) kzalloc_data)
                           (quiet_world 0)
     = (if 250 + 250 / 2
           <? ulong (200 - last_updated (set_stamp true (2 ^ 64 - 100) kzalloc_data))
        then set_stamp true 200 (set_stamp true (2 ^ 64 - 100) kzalloc_data)
        else set_stamp true (2 ^ 64 - 100) kzalloc_data, quiet_world 0).
Proof.
  assert (H1 : 0 <= 250 + 250 / 2 < 2 ^ 63) by (vm_compute; split; congruence).
  assert (H2 : ulong (200 - last_updated (set_stamp true (2 ^ 64 - 100) kzalloc_data))
               < 2 ^ 63) by (vm_compute; reflexivity).
  split; [reflexivity|]. split; [exact H1|]. split; [exact H2|].
  exact (update_device_window 250 200 (set_stamp true (2 ^ 64 - 100) kzalloc_data)
                              (quiet_world 0) eq_refl H1 H2).
Defined.

(* 300 ticks across the wrap of the counter: not yet stale at HZ = 250 *)
Example update_device_across_wrap :
  fst (nct6775_update_device 250 200 (set_stamp true (2 ^ 64 - 100) kzalloc_data)
                             (quiet_world 0))
  = set_stamp true (2 ^ 64 - 100) kzalloc_data
  /\ fst (nct6775_update_device 250 276 (set_stamp true (2 ^ 64 - 100) kzalloc_data)
                                (quiet_world 0))
     = set_stamp true 276 kzalloc_data.
Proof. vm_compute. split; reflexivity. Qed.

(** ** The I/O space lock *)

Lemma testbit_16 (i : Z) : Z.testbit 0x10 i = (i =? 4).
Proof.
  destruct (Z.lt_ge_cases i 0) as [Hn|Hp].
  - rewrite Z.testbit_neg_r by assumption. destruct (Z.eqb_spec i 4); [lia | reflexivity].
  - change 0x10 with (2 ^ 4). rewrite Z.pow2_bits_eqb by lia. apply Z.eqb_sym.
Qed.

Lemma truthy_bit4 (v : Z) : truthy (Z.land v 0x10) = Z.testbit v 4.
Proof.
  unfold truthy. destruct (Z.testbit v 4) eqn:E.
  - destruct (Z.eqb_spec (Z.land v 0x10) 0) as [H|H]; [|reflexivity].
    assert (T : Z.testbit (Z.land v 0x10) 4 = true)
      by (rewrite Z.land_spec, E, testbit_16; reflexivity).
    rewrite H in T. discriminate T.
  - assert (H : Z.land v 0x10 = 0).
    { apply Z.bits_inj'. intros i _. rewrite Z.land_spec, testbit_16, Z.bits_0.
      destruct (Z.eqb_spec i 4) as [->|]; [now rewrite E | apply andb_false_r]. }
    now rewrite H.
Qed.

(* val & ~0x10, as it lands in the register *)
Lemma clear_bit4 (v i : Z) :
  Z.testbit (u8 (Z.land (u8 v) (Z.lnot 0x10))) i
  = if i =? 4 then false else Z.testbit (u8 v) i.
Proof.
  destruct (Z.lt_ge_cases i 0) as [Hn|Hp].
  - rewrite !Z.testbit_neg_r by assumption. now destruct (i =? 4).
  - destruct (Z.lt_ge_cases i 8) as [Hlt|Hge].
    + rewrite u8_testbit by lia. rewrite Z.land_spec, Z.lnot_spec, testbit_16 by lia.
      destruct (Z.eqb_spec i 4); [apply andb_false_r | apply andb_true_r].
    + rewrite !u8_testbit_high by lia. now destruct (i =? 4).
Qed.

(* the chip nct6791_enable_io_mapping leaves behind *)
Lemma enable_io_mapping_ext (b : Z) c gr n tr :
  sio_base c = b -> sio_mode_of c = Extended ->
  nct6791_enable_io_mapping b (mk_world c gr n tr)
  = (tt,
     mk_world
       (if Z.testbit (global_reg c 0x28) 4
        then mk_chip b Extended 0x28 (sio_ldn c)
                     (upd1 (cr_global c) 0x28
                           (u8 (Z.land (global_reg c 0x28) (Z.lnot 0x10))))
                     (cr_ld c)
        else chip_set_index 0x28 c)
       gr n
       (tr ++ [EvOutb 0x28 b; EvInb (b + 1) (global_reg c 0x28)]
           ++ (if Z.testbit (global_reg c 0x28) 4
               then [EvOutb 0x28 b;
                     EvOutb (u8 (Z.land (global_reg c 0x28) (Z.lnot 0x10))) (b + 1)]
               else []))).
Proof.
  intros Hb Hm. destruct c as [b' m i l g r]. cbn in Hb, Hm. subst b' m.
  unfold nct6791_enable_io_mapping, bind. sio_steps.
  change (chip_read (chip_set_index (u8 NCT6791_REG_HM_IO_SPACE_LOCK_ENABLE)
                                    (mk_chip b Extended i l g r)))
    with (global_reg (mk_chip b Extended i l g r) 0x28).
  rewrite truthy_bit4.
  destruct (Z.testbit (global_reg (mk_chip b Extended i l g r) 0x28) 4).
  - sio_steps. rewrite <- ?app_assoc. reflexivity.
  - unfold ret. rewrite <- ?app_assoc. reflexivity.
Qed.

Lemma io_mapping_chip_facts (b : Z) c :
  sio_base c = b ->
  let c' := if Z.testbit (global_reg c 0x28) 4
            then mk_chip b Extended 0x28 (sio_ldn c)
                         (upd1 (cr_global c) 0x28
                               (u8 (Z.land (global_reg c 0x28) (Z.lnot 0x10))))
                         (cr_ld c)
            else chip_set_index 0x28 c in
  Z.testbit (global_reg c' 0x28) 4 = false
  /\ (forall i, i <> 4 ->
        Z.testbit (global_reg c' 0x28) i = Z.testbit (global_reg c 0x28) i)
  /\ globals_but 0x28 c c'
  /\ cr_ld c' = cr_ld c /\ sio_base c' = b /\ sio_ldn c' = sio_ldn c
  /\ (Z.testbit (global_reg c 0x28) 4 = false -> cr_global c' = cr_global c).
Proof.
  intros Hb. cbv zeta.
  destruct (Z.testbit (global_reg c 0x28) 4) eqn:E.
  - match goal with
    | |- Z.testbit (global_reg ?c1 _) _ = _ /\ _ =>
        assert (Enew : global_reg c1 0x28
                       = u8 (Z.land (u8 (cr_global c 0x28)) (Z.lnot 0x10)))
          by apply u8_idem
    end.
    rewrite Enew. unfold global_reg at 1.
    split; [now rewrite clear_bit4|].
    split; [intros i Hi; rewrite clear_bit4; now destruct (Z.eqb_spec i 4)|].
    split; [intros j Hj; cbn [cr_global]; now apply upd1_other|].
    repeat split. discriminate.
  - unfold chip_set_index, global_reg in *. cbn [cr_global cr_ld sio_base sio_ldn].
    repeat split; try assumption; intros; reflexivity.
Qed.

(** X6.  nct6791_enable_io_mapping on an unlocked chip at the given address:
    afterwards bit 4 of CR 0x28 is clear and its other bits are as before;
    no other register changes; the register is read once and written only
    if the bit was set. *)
Theorem enable_io_mapping_effect (b : Z) w :
  sio_base (chip w) = b -> sio_mode_of (chip w) = Extended ->
  let w' := snd (nct6791_enable_io_mapping b w) in
  let old := global_reg (chip w) NCT6791_REG_HM_IO_SPACE_LOCK_ENABLE in
  let new := global_reg (chip w') NCT6791_REG_HM_IO_SPACE_LOCK_ENABLE in
  Z.testbit new 4 = false
  /\ (forall i, i <> 4 -> Z.testbit new i = Z.testbit old i)
  /\ globals_but NCT6791_REG_HM_IO_SPACE_LOCK_ENABLE (chip w) (chip w')
  /\ cr_ld (chip w') = cr_ld (chip w)
  /\ trace w' = trace w
                  ++ [EvOutb NCT6791_REG_HM_IO_SPACE_LOCK_ENABLE b; EvInb (b + 1) old]
                  ++ (if Z.testbit old 4
                      then [EvOutb NCT6791_REG_HM_IO_SPACE_LOCK_ENABLE b;
                            EvOutb new (b + 1)]
                      else []).
Proof.
  intros Hb Hm. destruct w as [c gr n tr]. cbn [chip] in Hb, Hm. cbv zeta.
  rewrite enable_io_mapping_ext by assumption. proj.
  pose proof (io_mapping_chip_facts b c Hb) as F. cbv zeta in F.
  destruct F as (F1 & F2 & F3 & F4 & _).
  split; [exact F1|]. split; [exact F2|]. split; [exact F3|]. split; [exact F4|].
  change NCT6791_REG_HM_IO_SPACE_LOCK_ENABLE with 0x28.
  destruct (Z.testbit (global_reg c 0x28) 4); [|reflexivity].
  do 5 f_equal. symmetry. apply u8_idem.
Qed.

Lemma enable_io_mapping_effect_witness :
  let w := open_world 0x1f in
  let w' := snd (nct6791_enable_io_mapping 0x2e w) in
  let old := global_reg (chip w) NCT6791_REG_HM_IO_SPACE_LOCK_ENABLE in
  let new := global_reg (chip w') NCT6791_REG_HM_IO_SPACE_LOCK_ENABLE in
  Z.testbit new 4 = false
  /\ (forall i, i <> 4 -> Z.testbit new i = Z.testbit old i)
  /\ globals_but NCT6791_REG_HM_IO_SPACE_LOCK_ENABLE (chip w) (chip w')
  /\ cr_ld (chip w') = cr_ld (chip w)
  /\ trace w' = trace w
                  ++ [EvOutb NCT6791_REG_HM_IO_SPACE_LOCK_ENABLE 0x2e; EvInb (0x2e + 1) old]
                  ++ (if Z.testbit old 4
                      then [EvOutb NCT6791_REG_HM_IO_SPACE_LOCK_ENABLE 0x2e;
                            EvOutb new (0x2e + 1)]
                      else []).
Proof.
  exact (enable_io_mapping_effect 0x2e (open_world 0x1f) eq_refl eq_refl).
Defined.

Example enable_io_mapping_bytes :
  global_reg (chip (snd (nct6791_enable_io_mapping 0x2e (open_world 0x1f)))) 0x28 = 0x0f
  /\ global_reg (chip (snd (nct6791_enable_io_mapping 0x2e (open_world 0x0f)))) 0x28 = 0x0f.
Proof. vm_compute. split; reflexivity. Qed.

(** ** Resume *)

Lemma resume_refused d w :
  next_grant w = false ->
  hddsaver_resume d w
  = (- EBUSY, set_valid false (set_bank 0xff d),
     mk_world (chip w) (region_grant w) (S (region_calls w))
              (trace w ++ refused_seq (sioreg d))).
Proof.
  intros Hg. unfold hddsaver_resume, bind. cbv zeta.
  change (sioreg (set_bank 255 d)) with (sioreg d).
  rewrite superio_enter_refused by assumption. reflexivity.
Qed.

Lemma resume_granted_ext d c gr n tr :
  sioreg d = sio_base c -> gr n = true ->
  let same := hwm_enable c =? sio_reg_enable d in
  let locked := Z.testbit (global_reg c 0x28) 4 in
  hddsaver_resume d (mk_world c gr n tr)
  = (0, set_valid false (set_bank 0xff d),
     mk_world
       (mk_chip (sio_base c) Locked 0x28 NCT6775_LD_HWM
          (if locked
           then upd1 (cr_global c) 0x28 (u8 (Z.land (global_reg c 0x28) (Z.lnot 0x10)))
           else cr_global c)
          (if same then cr_ld c
           else upd2 (cr_ld c) NCT6775_LD_HWM SIO_REG_ENABLE (u8 (sio_reg_enable d))))
       gr (S n)
       (tr ++ enter_seq (sio_base c)
           ++ ([EvOutb SIO_REG_LDSEL (sio_base c);
                EvOutb NCT6775_LD_HWM (sio_base c + 1);
                EvOutb SIO_REG_ENABLE (sio_base c);
                EvInb (sio_base c + 1) (hwm_enable c)]
               ++ (if same then []
                   else [EvOutb SIO_REG_ENABLE (sio_base c);
                         EvOutb (u8 (sio_reg_enable d)) (sio_base c + 1)])
               ++ [EvOutb 0x28 (sio_base c);
                   EvInb (sio_base c + 1) (global_reg c 0x28)]
               ++ (if locked
                   then [EvOutb 0x28 (sio_base c);
                         EvOutb (u8 (Z.land (global_reg c 0x28) (Z.lnot 0x10)))
                                (sio_base c + 1)]
                   else []))
           ++ exit_seq (sio_base c))).
Proof.
  intros Hb Hg. destruct c as [b m i l g r]. cbn [sio_base] in *. cbv zeta.
  unfold hddsaver_resume, bind. cbv zeta.
  change (sioreg (set_bank 255 d)) with (sioreg d). rewrite Hb.
  rewrite superio_enter_granted by (reflexivity || assumption).
  change (truthy 0) with false. sio_steps.
  change (sio_reg_enable (set_bank 255 d)) with (sio_reg_enable d).
  match goal with
  | |- context [if negb (u8 ?X =? sio_reg_enable d) then _ else _] =>
      change X with (hwm_enable (mk_chip b m i l g r))
  end.
  unfold hwm_enable at 1 2, ld_reg at 1 2. rewrite u8_idem.
  fold (ld_reg (mk_chip b m i l g r) NCT6775_LD_HWM SIO_REG_ENABLE).
  fold (hwm_enable (mk_chip b m i l g r)).
  destruct (kind (set_bank 255 d)).
  destruct (hwm_enable (mk_chip b m i l g r) =? sio_reg_enable d); cbn [negb].
  - unfold ret at 1. cbv beta iota.
    rewrite enable_io_mapping_ext by reflexivity. cbv beta iota.
    change (global_reg (chip_set_index (u8 SIO_REG_ENABLE) _) 40)
      with (global_reg (mk_chip b m i l g r) 40).
    destruct (Z.testbit (global_reg (mk_chip b m i l g r) 40) 4);
      sio_steps; unfold ret, enter_seq, exit_seq; rewrite <- !app_assoc;
      reflexivity.
  - sio_steps.
    rewrite enable_io_mapping_ext by reflexivity. cbv beta iota.
    change (global_reg (chip_write _ _) 40) with (global_reg (mk_chip b m i l g r) 40).
    destruct (Z.testbit (global_reg (mk_chip b m i l g r) 40) 4);
      sio_steps; unfold ret, enter_seq, exit_seq; rewrite <- !app_assoc;
      reflexivity.
Qed.

Lemma resume_always_invalidates_data d w :
  snd (fst (hddsaver_resume d w)) = set_valid false (set_bank 0xff d).
Proof.
  unfold hddsaver_resume, bind. cbv zeta.
  destruct (superio_enter (sioreg (set_bank 255 d)) w) as [e w1].
  match goal with
  | |- context [let (_, w') := ?m w1 in ret ?x w'] => destruct (m w1) as [u w2]
  end.
  reflexivity.
Qed.

(** X7.  Resume reports the outcome of the bracket and always invalidates:
    the result is 0 if the bracket was granted and -EBUSY if not, and in
    both cases the device data come back with bank 0xff and valid false and
    nothing else changed; a refused resume leaves the chip alone and puts
    only the refused request on the trace. *)
Theorem resume_always_invalidates d w :
  let '(r, d', w') := hddsaver_resume d w in
  d' = set_valid false (set_bank 0xff d)
  /\ valid d' = false /\ bank d' = 0xff
  /\ hddsaver_status d' = hddsaver_status d
  /\ if next_grant w
     then r = 0
     else r = - EBUSY /\ chip w' = chip w
          /\ trace w' = trace w ++ refused_seq (sioreg d).
Proof.
  destruct (next_grant w) eqn:Hg.
  2:{ rewrite resume_refused by assumption. now repeat split. }
  unfold hddsaver_resume, bind. cbv zeta.
  destruct (superio_enter_trace (sioreg (set_bank 255 d)) w Hg) as (E0 & _).
  destruct (superio_enter (sioreg (set_bank 255 d)) w) as [e w1].
  cbn [fst] in E0. subst e. change (truthy 0) with false. cbv iota.
  match goal with
  | |- context [let (_, w') := ?m w1 in ret ?x w'] => destruct (m w1) as [u w2]
  end.
  unfold ret. now repeat split.
Qed.

(** X8.  What a resume that was let into the bracket does to a chip at the
    driver's address: the enable register of the hardware monitor ends
    holding the byte kept in sio_reg_enable, bit 4 of CR 0x28 ends clear
    with the other bits of that register as before, every other
    configuration register is untouched (the GPIO data register among
    them), the logical device selector, CR 0x07, is left on the hardware
    monitor (0x0b), and the chip is locked again. *)
Theorem resume_effect d w :
  sioreg d = sio_base (chip w) -> next_grant w = true ->
  let '(r, _, w') := hddsaver_resume d w in
  r = 0
  /\ hwm_enable (chip w') = u8 (sio_reg_enable d)
  /\ Z.testbit (global_reg (chip w') NCT6791_REG_HM_IO_SPACE_LOCK_ENABLE) 4 = false
  /\ (forall i, i <> 4 ->
        Z.testbit (global_reg (chip w') NCT6791_REG_HM_IO_SPACE_LOCK_ENABLE) i
        = Z.testbit (global_reg (chip w) NCT6791_REG_HM_IO_SPACE_LOCK_ENABLE) i)
  /\ globals_but NCT6791_REG_HM_IO_SPACE_LOCK_ENABLE (chip w) (chip w')
  /\ lds_but NCT6775_LD_HWM SIO_REG_ENABLE (chip w) (chip w')
  /\ gpio1_data (chip w') = gpio1_data (chip w)
  /\ sio_base (chip w') = sio_base (chip w)
  /\ sio_mode_of (chip w') = Locked
  /\ sio_ldn (chip w') = NCT6775_LD_HWM.
Proof.
  intros Hb Hg. destruct w as [c gr n tr]. cbn [chip] in Hb. cbn in Hg.
  pose proof (resume_granted_ext d c gr n tr Hb Hg) as E. cbv zeta in E.
  rewrite E. clear E. proj.
  change NCT6791_REG_HM_IO_SPACE_LOCK_ENABLE with 0x28.
  assert (Hld : lds_but NCT6775_LD_HWM SIO_REG_ENABLE c
                  (mk_chip (sio_base c) Locked 0x28 NCT6775_LD_HWM
                     (if Z.testbit (global_reg c 0x28) 4
                      then upd1 (cr_global c) 0x28
                                (u8 (Z.land (global_reg c 0x28) (Z.lnot 0x10)))
                      else cr_global c)
                     (if hwm_enable c =? sio_reg_enable d then cr_ld c
                      else upd2 (cr_ld c) NCT6775_LD_HWM SIO_REG_ENABLE
                                (u8 (sio_reg_enable d))))).
  { intros l j Hne. cbn [cr_ld].
    destruct (hwm_enable c =? sio_reg_enable d); [reflexivity | now apply upd2_other]. }
  split; [reflexivity|]. split.
  { unfold hwm_enable at 1, ld_reg. cbn [cr_ld].
    destruct (Z.eqb_spec (hwm_enable c) (sio_reg_enable d)) as [He|He].
    - rewrite <- He. unfold hwm_enable, ld_reg. now rewrite u8_idem.
    - unfold upd2. cbn [Z.eqb Pos.eqb andb]. apply u8_idem. }
  split.
  { unfold global_reg at 1. cbn [cr_global].
    destruct (Z.testbit (global_reg c 0x28) 4) eqn:Eb; [|exact Eb].
    unfold upd1. cbn [Z.eqb Pos.eqb]. rewrite u8_idem. unfold global_reg.
    now rewrite clear_bit4. }
  split.
  { intros j Hj. unfold global_reg at 1. cbn [cr_global].
    destruct (Z.testbit (global_reg c 0x28) 4); [|reflexivity].
    unfold upd1. cbn [Z.eqb Pos.eqb]. rewrite u8_idem. unfold global_reg.
    rewrite clear_bit4. now destruct (Z.eqb_spec j 4). }
  split.
  { intros j Hj. cbn [cr_global].
    destruct (Z.testbit (global_reg c 0x28) 4); [now apply upd1_other | reflexivity]. }
  split; [exact Hld|]. split; [|split; [reflexivity | split; reflexivity]].
  unfold gpio1_data, ld_reg. f_equal. apply Hld. discriminate.
Qed.

Lemma resume_effect_witness :
  sioreg probed_data = sio_base (chip (snd probed_asrock))
  /\ next_grant (snd probed_asrock) = true
  /\ let '(r, _, w') := hddsaver_resume probed_data (snd probed_asrock) in
     r = 0
     /\ hwm_enable (chip w') = u8 (sio_reg_enable probed_data)
     /\ Z.testbit (global_reg (chip w') NCT6791_REG_HM_IO_SPACE_LOCK_ENABLE) 4 = false
     /\ (forall i, i <> 4 ->
           Z.testbit (global_reg (chip w') NCT6791_REG_HM_IO_SPACE_LOCK_ENABLE) i
           = Z.testbit (global_reg (chip (snd probed_asrock))
                                   NCT6791_REG_HM_IO_SPACE_LOCK_ENABLE) i)
     /\ globals_but NCT6791_REG_HM_IO_SPACE_LOCK_ENABLE (chip (snd probed_asrock)) (chip w')
     /\ lds_but NCT6775_LD_HWM SIO_REG_ENABLE (chip (snd probed_asrock)) (chip w')
     /\ gpio1_data (chip w') = gpio1_data (chip (snd probed_asrock))
     /\ sio_base (chip w') = sio_base (chip (snd probed_asrock))
     /\ sio_mode_of (chip w') = Locked
     /\ sio_ldn (chip w') = NCT6775_LD_HWM.
Proof.
  assert (H1 : sioreg probed_data = sio_base (chip (snd probed_asrock)))
    by (vm_compute; reflexivity).
  assert (H2 : next_grant (snd probed_asrock) = true) by (vm_compute; reflexivity).
  split; [exact H1|]. split; [exact H2|].
  exact (resume_effect probed_data (snd probed_asrock) H1 H2).
Defined.




(** ** Probe: what it leaves behind *)

Lemma truthy_pow2_bit (v k : Z) : 0 <= k -> truthy (Z.land v (2 ^ k)) = Z.testbit v k.
Proof.
  intros Hk. unfold truthy. destruct (Z.testbit v k) eqn:E.
  - destruct (Z.eqb_spec (Z.land v (2 ^ k)) 0) as [H|H]; [|reflexivity].
    assert (T : Z.testbit (Z.land v (2 ^ k)) k = true)
      by (rewrite Z.land_spec, E, Z.pow2_bits_true by lia; reflexivity).
    rewrite H, Z.bits_0 in T. discriminate T.
  - assert (H : Z.land v (2 ^ k) = 0).
    { apply Z.bits_inj'. intros i Hi. rewrite Z.land_spec, Z.bits_0.
      destruct (Z.eq_dec k i) as [<-|Hne].
      - now rewrite E.
      - rewrite (Z.pow2_bits_false k i) by lia. apply andb_false_r. }
    now rewrite H.
Qed.

(* every path of probe, cut at its calls; [P] is what is to be shown of the
   device data and [Q] of a probe that published none *)
Ltac probe_paths env sd rs w :=
  unfold nct6775_probe, bind;
  destruct (request_retry (region_res env) MAXRETRIES rs w) as [region w1];
  destruct (truthy region); cbn [negb];
  [ destruct (kzalloc_ok env); cbn [negb];
    [ cbv zeta;
      destruct (superio_enter (sd_sioreg sd) w1) as [err w2];
      destruct (truthy err);
      [ destruct (sd_kind sd)
      | destruct (superio_inb (sd_sioreg sd) 42 w2) as [cr2a w3];
        destruct (sd_kind sd); cbn [kind];
        destruct (board_has_hddsaver env); cbn [have_hddsaver set_have_hddsaver];
        [ destruct (truthy (Z.land (u8 cr2a) (Z.shiftl 1 6)));
          [ destruct (superio_select (sd_sioreg sd) NCT6775_LD_GPIO_DATA w3) as [u1 w4];
            destruct (superio_inb (sd_sioreg sd) NCT6775_REG_CR_GPIO1_DATA w4)
              as [tmp w5];
            unfold ret at 1;
            destruct (superio_exit (sd_sioreg sd) w5) as [u w6];
            destruct (truthy (sysfs_err env))
          | unfold ret at 1;
            destruct (superio_exit (sd_sioreg sd) w3) as [u w4];
            destruct (truthy (sysfs_err env)) ]
        | unfold ret at 1;
          destruct (superio_exit (sd_sioreg sd) w3) as [u w4];
          destruct (truthy (sysfs_err env)) ] ]
    | ]
  | ].

(** X10.  The device data a probe publishes, whatever the outcome after the
    allocation: addr is the start of the reserved window, sioreg and kind
    are those of the platform data, the bank is the unknown 0xff, the data
    are not valid and carry no time stamp, in_num is 15 and REG_CONFIG
    0x40, no enable register value has been recorded, and the cached status
    is off unless the capability was found. *)
Theorem probe_initial_data env sd rs w :
  match snd (fst (nct6775_probe env sd rs w)) with
  | Some d =>
      addr d = rs /\ sioreg d = sd_sioreg sd /\ kind d = sd_kind sd
      /\ bank d = 0xff /\ valid d = false /\ last_updated d = 0
      /\ in_num d = 15 /\ REG_CONFIG d = NCT6775_REG_CONFIG
      /\ sio_reg_enable d = 0
      /\ (have_hddsaver d = false -> hddsaver_status d = false)
  | None => True
  end.
Proof.
  probe_paths env sd rs w; cbn; try exact I; now repeat split.
Qed.

Lemma probe_sets_sioreg env sd rs w r d w' :
  nct6775_probe env sd rs w = (r, Some d, w') -> sioreg d = sd_sioreg sd.
Proof.
  probe_paths env sd rs w; cbn; intros E; try discriminate E;
    injection E as _ <- _; reflexivity.
Qed.

(** ** The cache and the pin over the whole life of the device *)

Lemma store_keeps_sioreg kstrtobool d sd buf count w :
  sioreg (snd (fst (store_hddsaver kstrtobool d sd buf count w))) = sioreg d.
Proof.
  unfold store_hddsaver, bind.
  destruct (kstrtobool buf) as [v|]; [|reflexivity].
  destruct (superio_enter (sd_sioreg sd) w) as [e w1].
  destruct (truthy e); [reflexivity|].
  destruct (negb (Bool.eqb v (hddsaver_status d))).
  - destruct (superio_select (sd_sioreg sd) NCT6775_LD_GPIO_DATA w1) as [u1 w2].
    destruct (superio_inb (sd_sioreg sd) NCT6775_REG_CR_GPIO1_DATA w2) as [tmp w3].
    destruct (superio_outb (sd_sioreg sd) NCT6775_REG_CR_GPIO1_DATA
                           (Z.lxor (u8 tmp) (Z.shiftl 1 0)) w3) as [u2 w4].
    unfold ret at 1.
    destruct (superio_exit (sd_sioreg sd) w4) as [u w5]. reflexivity.
  - unfold ret at 1.
    destruct (superio_exit (sd_sioreg sd) w1) as [u w2]. reflexivity.
Qed.

Lemma resume_keeps_coherent sd d w :
  cache_coherent sd (d, w) -> sioreg d = sd_sioreg sd ->
  let '(_, d', w') := hddsaver_resume d w in
  cache_coherent sd (d', w') /\ sioreg d' = sd_sioreg sd.
Proof.
  unfold cache_coherent. cbn [fst snd]. intros [Hb Hs] Hio.
  destruct (next_grant w) eqn:Hg.
  2:{ rewrite resume_refused by assumption. cbn [chip]. now repeat split. }
  destruct w as [c gr n tr]. cbn [chip] in *. cbn in Hg.
  assert (Hbase : sioreg d = sio_base c) by congruence.
  pose proof (resume_granted_ext d c gr n tr Hbase Hg) as E. cbv zeta in E.
  rewrite E. clear E. proj.
  split; [split; [exact Hb|] | exact Hio].
  change (hddsaver_status (set_valid false (set_bank 255 d))) with (hddsaver_status d).
  rewrite Hs. f_equal. unfold gpio1_data, ld_reg. cbn [cr_ld].
  now destruct (hwm_enable c =? sio_reg_enable d).
Qed.

Lemma life_step_keeps_coherent kstrtobool HZ sd s op :
  cache_coherent sd s /\ sioreg (fst s) = sd_sioreg sd ->
  cache_coherent sd (life_step kstrtobool HZ sd s op)
  /\ sioreg (fst (life_step kstrtobool HZ sd s op)) = sd_sioreg sd.
Proof.
  destruct s as [d w]. cbn [fst]. intros [Hc Hio].
  destruct op as [jiffies|buf count|jiffies|]; unfold life_step; cbn [fst snd].
  - unfold show_hddsaver, nct6775_update_device, bind, ret.
    destruct (time_after jiffies _ || negb _); cbn [fst snd]; split; assumption.
  - pose proof (store_keeps_coherent kstrtobool sd d w buf count Hc) as H.
    pose proof (store_keeps_sioreg kstrtobool d sd buf count w) as H'.
    destruct (store_hddsaver kstrtobool d sd buf count w) as [[r d'] w'].
    cbn [fst snd] in *. split; [exact H | congruence].
  - unfold hddsaver_suspend, nct6775_update_device, bind, ret.
    destruct (time_after jiffies _ || negb _); cbn [fst snd]; split; assumption.
  - pose proof (resume_keeps_coherent sd d w Hc Hio) as H.
    destruct (hddsaver_resume d w) as [[r d'] w']. exact H.
Qed.

(** X11.  After a probe that returned 0 with the capability found, on a
    chip at the driver's address, the cached status equals bit 0 of the
    GPIO1 data register after any sequence of attribute reads, attribute
    writes, suspends and resumes, whatever the writes parse to and whether
    or not any bracket is granted: suspend and resume do not reach the
    GPIO data register and do not touch the cached status. *)
Theorem life_keeps_cache_coherent
        (kstrtobool : string -> option bool) (HZ : Z) env sd rs w0 d w ops :
  sd_sioreg sd = sio_base (chip w0) ->
  nct6775_probe env sd rs w0 = (0, Some d, w) ->
  have_hddsaver d = true ->
  cache_coherent sd (life_run kstrtobool HZ sd ops (d, w)).
Proof.
  intros Hb Hp Hh.
  assert (H0 : cache_coherent sd (d, w) /\ sioreg (fst (d, w)) = sd_sioreg sd).
  { split; [exact (probe_cache_coherent env sd rs w0 0 d w Hb Hp Hh)|].
    exact (probe_sets_sioreg env sd rs w0 0 d w Hp). }
  clear Hp Hh Hb. unfold life_run.
  generalize dependent (d, w). clear d w.
  induction ops as [|op ops IH]; intros s Hs; [apply Hs|].
  cbn [fold_left]. apply IH. now apply life_step_keeps_coherent.
Qed.

Lemma life_keeps_cache_coherent_witness :
  let ops := [LifeStore "1" 2; LifeSuspend 6000; LifeResume; LifeShow 6001;
              LifeStore "off" 4; LifeResume; LifeResume; LifeStore "on" 3] in
  sd_sioreg sio_2e = sio_base (chip (quiet_world 0xfe))
  /\ nct6775_probe asrock_z97 sio_2e 0x295 (quiet_world 0xfe)
     = (0, Some probed_data, snd probed_asrock)
  /\ have_hddsaver probed_data = true
  /\ cache_coherent sio_2e
       (life_run kstrtobool_kernel 250 sio_2e ops (probed_data, snd probed_asrock)).
Proof.
  intros ops.
  assert (Hb : sd_sioreg sio_2e = sio_base (chip (quiet_world 0xfe))) by reflexivity.
  assert (Hp : nct6775_probe asrock_z97 sio_2e 0x295 (quiet_world 0xfe)
               = (0, Some probed_data, snd probed_asrock))
    by (vm_compute; reflexivity).
  assert (Hh : have_hddsaver probed_data = true) by (vm_compute; reflexivity).
  split; [exact Hb|]. split; [exact Hp|]. split; [exact Hh|].
  exact (life_keeps_cache_coherent kstrtobool_kernel 250 asrock_z97 sio_2e 0x295
                                   (quiet_world 0xfe) probed_data (snd probed_asrock) ops
                                   Hb Hp Hh).
Defined.

(** X12.  What probe writes to the chip.  On a chip at the driver's
    address no configuration register differs after probe from what it
    held before, on any path of probe: refused region, failed allocation,
    refused bracket, listed or unlisted board, capability present or not.
    The one register probe writes is the logical device selector, CR 0x07:
    it is left on the GPIO logical device (8) when the capability was found
    and is as before otherwise. *)
Theorem probe_writes_selector_only env sd rs w :
  sd_sioreg sd = sio_base (chip w) ->
  let '(_, od, w') := nct6775_probe env sd rs w in
  cr_global (chip w') = cr_global (chip w)
  /\ cr_ld (chip w') = cr_ld (chip w)
  /\ sio_base (chip w') = sio_base (chip w)
  /\ sio_ldn (chip w')
     = match od with
       | Some d => if have_hddsaver d then NCT6775_LD_GPIO_DATA else sio_ldn (chip w)
       | None => sio_ldn (chip w)
       end.
Proof.
  intros Hb.
  destruct (nct6775_probe env sd rs w) as [[r od] w'] eqn:E.
  revert E. unfold nct6775_probe. unfold bind at 1.
  pose proof (request_retry_spec (region_res env) MAXRETRIES rs w) as Hloop.
  destruct (request_retry (region_res env) MAXRETRIES rs w) as [region w1].
  destruct Hloop as (Hc & _ & _).
  destruct (truthy region); cbn [negb];
    [|unfold ret; intros E; injection E as _ <- <-; rewrite Hc; repeat split; reflexivity].
  destruct (kzalloc_ok env); cbn [negb];
    [|unfold ret; intros E; injection E as _ <- <-; rewrite Hc; repeat split; reflexivity].
  destruct w1 as [c1 gr1 n1 tr1], sd as [b k]. cbn in Hc, Hb. cbn [sd_sioreg sd_kind].
  subst c1 b. cbv zeta. unfold bind.
  destruct (gr1 n1) eqn:Hg.
  2:{ rewrite superio_enter_refused by exact Hg.
      change (truthy (- EBUSY)) with true. cbv iota. unfold ret.
      intros E; injection E as _ <- <-. destruct k. repeat split; reflexivity. }
  rewrite superio_enter_granted by (reflexivity || assumption).
  change (truthy 0) with false. sio_steps.
  destruct k. cbn [kind].
  destruct (board_has_hddsaver env); cbn [have_hddsaver set_have_hddsaver].
  - match goal with
    | |- context [if truthy ?X then _ else _] => destruct (truthy X)
    end; unfold ret; sio_steps;
      destruct (truthy (sysfs_err env)); intros E; injection E as _ <- <-;
      repeat split; reflexivity.
  - change (have_hddsaver kzalloc_data) with false. unfold ret. sio_steps.
    destruct (truthy (sysfs_err env)); intros E; injection E as _ <- <-;
      repeat split; reflexivity.
Qed.

Lemma probe_writes_selector_only_witness :
  sd_sioreg sio_2e = sio_base (chip (quiet_world 0xfe))
  /\ let '(_, od, w') := nct6775_probe asrock_z97 sio_2e 0x295 (quiet_world 0xfe) in
     cr_global (chip w') = cr_global (chip (quiet_world 0xfe))
     /\ cr_ld (chip w') = cr_ld (chip (quiet_world 0xfe))
     /\ sio_base (chip w') = sio_base (chip (quiet_world 0xfe))
     /\ sio_ldn (chip w')
        = match od with
          | Some d => if have_hddsaver d then NCT6775_LD_GPIO_DATA
                      else sio_ldn (chip (quiet_world 0xfe))
          | None => sio_ldn (chip (quiet_world 0xfe))
          end.
Proof.
  split; [reflexivity|].
  exact (probe_writes_selector_only asrock_z97 sio_2e 0x295 (quiet_world 0xfe) eq_refl).
Defined.

(* on the listed board the selector moves from 0 to 8 *)
Example probe_moves_selector :
  sio_ldn (chip (quiet_world 0xfe)) = 0
  /\ sio_ldn (chip (snd probed_asrock)) = 8.
Proof. vm_compute. split; reflexivity. Qed.

(** X13.  On a listed board, after a probe that returned 0 on a chip at the
    driver's address: have_hddsaver is bit 6 of CR 0x2a, and the cached
    status is bit 0 of the GPIO1 data register if the capability is there
    and off if not. *)
Theorem probe_listed_board env sd rs w d w' :
  board_listed env ->
  sd_sioreg sd = sio_base (chip w) ->
  nct6775_probe env sd rs w = (0, Some d, w') ->
  have_hddsaver d = Z.testbit (global_reg (chip w) 0x2a) 6
  /\ hddsaver_status d = have_hddsaver d && Z.testbit (gpio1_data (chip w)) 0.
Proof.
  intros Hl Hb. apply board_has_hddsaver_listed in Hl.
  unfold nct6775_probe. unfold bind at 1.
  pose proof (request_retry_spec (region_res env) MAXRETRIES rs w) as Hloop.
  destruct (request_retry (region_res env) MAXRETRIES rs w) as [region w1].
  destruct Hloop as (Hc & _ & _).
  destruct (truthy region); cbn [negb]; [|discriminate].
  destruct (kzalloc_ok env); cbn [negb]; [|discriminate].
  destruct w1 as [c1 gr1 n1 tr1], sd as [b k]. cbn in Hc, Hb. cbn [sd_sioreg sd_kind].
  subst c1 b. cbv zeta. unfold bind.
  destruct (gr1 n1) eqn:Hg.
  2:{ rewrite superio_enter_refused by exact Hg.
      change (truthy (- EBUSY)) with true. cbv iota. unfold ret. discriminate. }
  rewrite superio_enter_granted by (reflexivity || assumption).
  change (truthy 0) with false. sio_steps.
  destruct k. cbn [kind]. rewrite Hl. cbn [have_hddsaver set_have_hddsaver].
  change (Z.shiftl 1 6) with (2 ^ 6). rewrite truthy_pow2_bit by lia.
  rewrite (u8_testbit _ 6) by lia.
  match goal with
  | |- context [Z.testbit (chip_read ?c) 6] =>
      change (chip_read c) with (global_reg (chip w) 0x2a)
  end.
  destruct (Z.testbit (global_reg (chip w) 0x2a) 6).
  - unfold ret. sio_steps.
    destruct (truthy (sysfs_err env)); intros E; injection E as _ <- _;
      try discriminate;
      (split; [reflexivity|]); cbn [hddsaver_status set_hddsaver_status have_hddsaver];
      rewrite truthy_bit0, u8_testbit by lia; reflexivity.
  - unfold ret. sio_steps.
    destruct (truthy (sysfs_err env)); intros E; injection E as _ <- _;
      try discriminate; split; reflexivity.
Qed.

Lemma probe_listed_board_witness :
  board_listed asrock_z97
  /\ sd_sioreg sio_2e = sio_base (chip (quiet_world 0xfe))
  /\ nct6775_probe asrock_z97 sio_2e 0x295 (quiet_world 0xfe)
     = (0, Some probed_data, snd probed_asrock)
  /\ have_hddsaver probed_data = Z.testbit (global_reg (chip (quiet_world 0xfe)) 0x2a) 6
  /\ hddsaver_status probed_data
     = have_hddsaver probed_data && Z.testbit (gpio1_data (chip (quiet_world 0xfe))) 0.
Proof.
  assert (Hl : board_listed asrock_z97)
    by (apply board_has_hddsaver_listed; reflexivity).
  assert (Hp : nct6775_probe asrock_z97 sio_2e 0x295 (quiet_world 0xfe)
               = (0, Some probed_data, snd probed_asrock))
    by (vm_compute; reflexivity).
  split; [exact Hl|]. split; [reflexivity|]. split; [exact Hp|].
  exact (probe_listed_board asrock_z97 sio_2e 0x295 (quiet_world 0xfe) probed_data
                            (snd probed_asrock) Hl eq_refl Hp).
Defined.

(** ** Discovery: the address and the registers *)

Lemma u16_range (x : Z) : 0 <= u16 x < 2 ^ 16.
Proof.
  unfold u16. change 0xffff with (Z.ones 16). rewrite Z.land_ones by lia.
  apply Z.mod_pos_bound. lia.
Qed.

Lemma aligned_address (x : Z) :
  let a := Z.land (u16 x) IOREGION_ALIGNMENT in
  a = 0 \/ (8 <= a <= 0xfff8 /\ a mod 8 = 0).
Proof.
  cbv zeta. unfold IOREGION_ALIGNMENT.
  pose proof (u16_range x) as Hr. set (y := u16 x) in *.
  change (Z.land y (Z.lnot 7)) with (Z.ldiff y (Z.ones 3)).
  rewrite Z.ldiff_ones_r by lia.
  rewrite Z.shiftl_mul_pow2, Z.shiftr_div_pow2 by lia.
  change (2 ^ 3) with 8. change (2 ^ 16) with 65536 in Hr.
  assert (Hq : 0 <= y / 8 <= 8191).
  { split; [apply Z.div_pos; lia|]. apply Z.lt_succ_r.
    apply Z.div_lt_upper_bound; lia. }
  destruct (Z.eq_dec (y / 8) 0) as [E|E].
  - left. now rewrite E.
  - right. split; [lia|]. apply Z.mod_mul. lia.
Qed.

(** X14.  What discovery can return, on any chip and whether or not the
    ports are free: -EBUSY, -ENODEV, or an address between 8 and 0xfff8
    that is a multiple of 8.  It never returns 0, so the test address > 0 in
    hddsaver_init separates exactly the found from the not found. *)
Theorem find_result_range sioaddr sd w :
  let r := fst (fst (nct6775_find sioaddr sd w)) in
  r = - EBUSY \/ r = - ENODEV \/ (8 <= r <= 0xfff8 /\ r mod 8 = 0).
Proof.
  cbv zeta. unfold nct6775_find, bind.
  destruct (next_grant w) eqn:Hg.
  2:{ rewrite superio_enter_refused by assumption. left. reflexivity. }
  destruct (superio_enter_trace sioaddr w Hg) as (E0 & _).
  destruct (superio_enter sioaddr w) as [e w1]. cbn [fst] in E0. subst e.
  change (truthy 0) with false. cbv beta iota.
  destruct (superio_inb sioaddr SIO_REG_DEVID w1) as [hi w2].
  destruct (superio_inb sioaddr (SIO_REG_DEVID + 1) w2) as [lo w3]. cbv beta zeta.
  destruct (negb (Z.land (u16 (Z.lor (Z.shiftl hi 8) lo)) SIO_ID_MASK =? SIO_NCT6791_ID)).
  { destruct (superio_exit sioaddr w3) as [u w4]. right. left. reflexivity. }
  destruct (superio_select sioaddr NCT6775_LD_HWM w3) as [u1 w4].
  destruct (superio_inb sioaddr SIO_REG_ADDR w4) as [hi2 w5].
  destruct (superio_inb sioaddr (SIO_REG_ADDR + 1) w5) as [lo2 w6]. cbv beta zeta.
  pose proof (aligned_address (Z.lor (Z.shiftl hi2 8) lo2)) as Ha. cbv zeta in Ha.
  destruct (Z.eqb_spec (Z.land (u16 (Z.lor (Z.shiftl hi2 8) lo2)) IOREGION_ALIGNMENT) 0)
    as [Hz|Hz].
  { destruct (superio_exit sioaddr w6) as [u w7]. right. left. reflexivity. }
  destruct (superio_inb sioaddr SIO_REG_ENABLE w6) as [en w7]. cbv beta zeta.
  match goal with
  | |- context [let (_, w') := ?m w7 in _] => destruct (m w7) as [u2 w8]
  end.
  cbn [sd_kind].
  destruct (nct6791_enable_io_mapping sioaddr w8) as [u3 w9].
  destruct (superio_exit sioaddr w9) as [u4 w10].
  unfold ret. cbn [fst]. right. right. destruct Ha as [Ha|Ha]; [contradiction | exact Ha].
Qed.

Lemma find_refused sioaddr sd w :
  next_grant w = false ->
  nct6775_find sioaddr sd w
  = (- EBUSY, sd, mk_world (chip w) (region_grant w) (S (region_calls w))
                           (trace w ++ refused_seq sioaddr)).
Proof.
  intros Hg. unfold nct6775_find, bind.
  rewrite superio_enter_refused by assumption. reflexivity.
Qed.

Lemma upd1_same f k v : upd1 f k v k = v.
Proof. unfold upd1. now rewrite Z.eqb_refl. Qed.

Lemma upd2_same f l k v : upd2 f l k v l k = v.
Proof. unfold upd2. now rewrite !Z.eqb_refl. Qed.

Lemma u16_testbit (x i : Z) : 0 <= i < 16 -> Z.testbit (u16 x) i = Z.testbit x i.
Proof.
  intros H. unfold u16. rewrite Z.land_spec.
  change 0xffff with (Z.ones 16). rewrite Z.ones_spec_low by lia. apply andb_true_r.
Qed.

Lemma truthy_low_bit (v : Z) : truthy (Z.land (u16 v) 0x01) = Z.testbit v 0.
Proof.
  change 0x01 with (2 ^ 0). rewrite truthy_pow2_bit by lia. apply u16_testbit. lia.
Qed.

(* val | 0x01, as it lands in the register *)
Lemma set_bit0 (v i : Z) :
  Z.testbit (u8 (Z.lor (u16 (u8 v)) 0x01)) i
  = if i =? 0 then true else Z.testbit (u8 v) i.
Proof.
  destruct (Z.lt_ge_cases i 0) as [Hn|Hp].
  - rewrite !Z.testbit_neg_r by assumption. destruct (Z.eqb_spec i 0); [lia | reflexivity].
  - destruct (Z.lt_ge_cases i 8) as [Hlt|Hge].
    + rewrite u8_testbit by lia. rewrite Z.lor_spec, u16_testbit, testbit_one by lia.
      destruct (Z.eqb_spec i 0); [apply orb_true_r | apply orb_false_r].
    + rewrite !u8_testbit_high by lia. destruct (Z.eqb_spec i 0); [lia | reflexivity].
Qed.

(* the registers discovery leaves behind, on each of its three ways through
   the bracket *)
Lemma find_granted_regs sd c gr n tr :
  gr n = true ->
  let '(r, sd', w') := nct6775_find (sio_base c) sd (mk_world c gr n tr) in
  sio_base (chip w') = sio_base c /\ sio_mode_of (chip w') = Locked
  /\ if negb (Z.land (chip_devid c) SIO_ID_MASK =? SIO_NCT6791_ID)
     then r = - ENODEV /\ sd' = sd
          /\ cr_global (chip w') = cr_global c /\ cr_ld (chip w') = cr_ld c
     else if Z.land (chip_hwm_base c) IOREGION_ALIGNMENT =? 0
     then r = - ENODEV
          /\ cr_global (chip w') = cr_global c /\ cr_ld (chip w') = cr_ld c
     else r = Z.land (chip_hwm_base c) IOREGION_ALIGNMENT
          /\ sd' = mk_sio_data (sio_base c) nct6791
          /\ cr_global (chip w')
             = (if Z.testbit (global_reg c 0x28) 4
                then upd1 (cr_global c) 0x28
                          (u8 (Z.land (global_reg c 0x28) (Z.lnot 0x10)))
                else cr_global c)
          /\ cr_ld (chip w')
             = (if Z.testbit (hwm_enable c) 0 then cr_ld c
                else upd2 (cr_ld c) NCT6775_LD_HWM SIO_REG_ENABLE
                          (u8 (Z.lor (u16 (hwm_enable c)) 0x01))).
Proof.
  intros Hg. destruct c as [b m i l g r]. cbn [sio_base].
  set (c := mk_chip b m i l g r).
  unfold nct6775_find, bind.
  rewrite superio_enter_granted by (reflexivity || assumption).
  change (truthy 0) with false. sio_steps.
  match goal with
  | |- context [if negb (?X =? SIO_NCT6791_ID) then _ else _] =>
      change X with (Z.land (chip_devid c) SIO_ID_MASK)
  end.
  destruct (negb (Z.land (chip_devid c) SIO_ID_MASK =? SIO_NCT6791_ID)).
  { sio_steps. unfold ret. now repeat split. }
  sio_steps.
  match goal with
  | |- context [if ?X =? 0 then _ else _] =>
      change X with (Z.land (chip_hwm_base c) IOREGION_ALIGNMENT)
  end.
  destruct (Z.land (chip_hwm_base c) IOREGION_ALIGNMENT =? 0).
  { sio_steps. unfold ret. now repeat split. }
  sio_steps.
  match goal with
  | |- context [truthy (Z.land (u16 ?X) 1)] => change X with (hwm_enable c)
  end.
  rewrite truthy_low_bit. cbn [sd_kind].
  destruct (Z.testbit (hwm_enable c) 0); cbn [negb].
  - unfold ret at 1. cbv beta iota.
    rewrite enable_io_mapping_ext by reflexivity. cbv beta iota.
    match goal with
    | |- context [Z.testbit (global_reg ?c1 40) 4] =>
        change (global_reg c1 40) with (global_reg c 40)
    end.
    destruct (Z.testbit (global_reg c 40) 4); sio_steps; unfold ret; now repeat split.
  - sio_steps.
    rewrite enable_io_mapping_ext by reflexivity. cbv beta iota.
    match goal with
    | |- context [Z.testbit (global_reg ?c1 40) 4] =>
        change (global_reg c1 40) with (global_reg c 40)
    end.
    destruct (Z.testbit (global_reg c 40) 4); sio_steps; unfold ret; now repeat split.
Qed.

(* the logical device selector discovery leaves behind *)
Lemma find_granted_ldn sd c gr n tr :
  gr n = true ->
  let '(_, w') := nct6775_find (sio_base c) sd (mk_world c gr n tr) in
  sio_ldn (chip w')
  = if Z.land (chip_devid c) SIO_ID_MASK =? SIO_NCT6791_ID
    then NCT6775_LD_HWM else sio_ldn c.
Proof.
  intros Hg. destruct c as [b m i l g r]. cbn [sio_base].
  set (c := mk_chip b m i l g r).
  unfold nct6775_find, bind.
  rewrite superio_enter_granted by (reflexivity || assumption).
  change (truthy 0) with false. sio_steps.
  match goal with
  | |- context [if negb (?X =? SIO_NCT6791_ID) then _ else _] =>
      change X with (Z.land (chip_devid c) SIO_ID_MASK)
  end.
  destruct (Z.land (chip_devid c) SIO_ID_MASK =? SIO_NCT6791_ID); cbn [negb].
  2:{ sio_steps. unfold ret. reflexivity. }
  sio_steps.
  match goal with
  | |- context [if ?X =? 0 then _ else _] =>
      change X with (Z.land (chip_hwm_base c) IOREGION_ALIGNMENT)
  end.
  destruct (Z.land (chip_hwm_base c) IOREGION_ALIGNMENT =? 0).
  { sio_steps. unfold ret. reflexivity. }
  sio_steps.
  match goal with
  | |- context [truthy (Z.land (u16 ?X) 1)] => change X with (hwm_enable c)
  end.
  rewrite truthy_low_bit. cbn [sd_kind].
  destruct (Z.testbit (hwm_enable c) 0); cbn [negb].
  - unfold ret at 1. cbv beta iota.
    rewrite enable_io_mapping_ext by reflexivity. cbv beta iota.
    match goal with
    | |- context [Z.testbit (global_reg ?c1 40) 4] =>
        change (global_reg c1 40) with (global_reg c 40)
    end.
    destruct (Z.testbit (global_reg c 40) 4); sio_steps; unfold ret; reflexivity.
  - sio_steps.
    rewrite enable_io_mapping_ext by reflexivity. cbv beta iota.
    match goal with
    | |- context [Z.testbit (global_reg ?c1 40) 4] =>
        change (global_reg c1 40) with (global_reg c 40)
    end.
    destruct (Z.testbit (global_reg c 40) 4); sio_steps; unfold ret; reflexivity.
Qed.

(** X15.  A discovery that finds the chip, let into the bracket on a chip
    at the probed address with a matching ID and a nonzero base address:
    afterwards bit 0 of the enable register of the hardware monitor is set
    and bit 4 of CR 0x28 is clear, the other bits of both registers are as
    before, no other configuration register has changed, the logical
    device selector, CR 0x07, is left on the hardware monitor (0x0b), the
    chip is locked again, and the platform data name the probed address and
    the chip kind. *)
Theorem find_found_effect sioaddr sd w :
  sio_base (chip w) = sioaddr -> next_grant w = true ->
  Z.land (chip_devid (chip w)) SIO_ID_MASK = SIO_NCT6791_ID ->
  Z.land (chip_hwm_base (chip w)) IOREGION_ALIGNMENT <> 0 ->
  let '(r, sd', w') := nct6775_find sioaddr sd w in
  r = Z.land (chip_hwm_base (chip w)) IOREGION_ALIGNMENT
  /\ sd' = mk_sio_data sioaddr nct6791
  /\ Z.testbit (hwm_enable (chip w')) 0 = true
  /\ (forall i, i <> 0 ->
        Z.testbit (hwm_enable (chip w')) i = Z.testbit (hwm_enable (chip w)) i)
  /\ Z.testbit (global_reg (chip w') NCT6791_REG_HM_IO_SPACE_LOCK_ENABLE) 4 = false
  /\ (forall i, i <> 4 ->
        Z.testbit (global_reg (chip w') NCT6791_REG_HM_IO_SPACE_LOCK_ENABLE) i
        = Z.testbit (global_reg (chip w) NCT6791_REG_HM_IO_SPACE_LOCK_ENABLE) i)
  /\ globals_but NCT6791_REG_HM_IO_SPACE_LOCK_ENABLE (chip w) (chip w')
  /\ lds_but NCT6775_LD_HWM SIO_REG_ENABLE (chip w) (chip w')
  /\ sio_mode_of (chip w') = Locked
  /\ sio_ldn (chip w') = NCT6775_LD_HWM.
Proof.
  intros Hb Hg Hid Hbase. destruct w as [c gr n tr]. cbn [chip] in *. cbn in Hg.
  subst sioaddr.
  pose proof (find_granted_regs sd c gr n tr Hg) as H.
  pose proof (find_granted_ldn sd c gr n tr Hg) as Hl.
  destruct (nct6775_find (sio_base c) sd (mk_world c gr n tr)) as [[r sd'] w'].
  rewrite Hid, Z.eqb_refl in Hl.
  destruct H as (_ & Hm & H).
  rewrite Hid, Z.eqb_refl in H. cbn [negb] in H.
  destruct (Z.eqb_spec (Z.land (chip_hwm_base c) IOREGION_ALIGNMENT) 0) as [|_];
    [contradiction|].
  destruct H as (-> & -> & Hgl & Hld).
  change NCT6791_REG_HM_IO_SPACE_LOCK_ENABLE with 0x28.
  split; [reflexivity|]. split; [reflexivity|].
  unfold hwm_enable at 1 2, ld_reg, global_reg at 1 2. rewrite Hgl, Hld.
  split; [|split; [|split; [|split; [|split; [|split; [|split]]]]]].
  8: exact Hl.
  - destruct (Z.testbit (hwm_enable c) 0) eqn:E; [exact E|].
    rewrite upd2_same. unfold hwm_enable, ld_reg.
    now rewrite u8_idem, set_bit0.
  - intros j Hj. destruct (Z.testbit (hwm_enable c) 0); [reflexivity|].
    rewrite upd2_same. unfold hwm_enable, ld_reg.
    rewrite u8_idem, set_bit0. now destruct (Z.eqb_spec j 0).
  - destruct (Z.testbit (global_reg c 40) 4) eqn:E; [|exact E].
    rewrite upd1_same. unfold global_reg.
    now rewrite u8_idem, clear_bit4.
  - intros j Hj. destruct (Z.testbit (global_reg c 40) 4); [|reflexivity].
    rewrite upd1_same. unfold global_reg.
    rewrite u8_idem, clear_bit4. now destruct (Z.eqb_spec j 4).
  - intros j Hj. rewrite Hgl.
    destruct (Z.testbit (global_reg c 40) 4); [now apply upd1_other | reflexivity].
  - intros l j Hne. rewrite Hld.
    destruct (Z.testbit (hwm_enable c) 0); [reflexivity | now apply upd2_other].
  - exact Hm.
Qed.

(* a chip found with its hardware monitor disabled and the I/O space locked *)
Example find_enables_and_unlocks :
  let c := mk_chip 0x2e Locked 0 0
             (fun i => if i =? 0x20 then 0xc8 else if i =? 0x28 then 0x1f else 0)
             (fun ld i => if (ld =? 0x0b) && (i =? 0x60) then 0x0a
                          else if (ld =? 0x0b) && (i =? 0x30) then 0xf0 else 0) in
  let '(r, _, w') := nct6775_find 0x2e sio_2e (mk_world c (always true) 0 []) in
  (r, hwm_enable (chip w'), global_reg (chip w') 0x28) = (0xa00, 0xf1, 0x0f).
Proof. vm_compute. reflexivity. Qed.

Lemma find_found_effect_witness :
  let w := quiet_world 0xfe in
  let '(r, sd', w') := nct6775_find 0x2e sio_2e w in
  r = Z.land (chip_hwm_base (chip w)) IOREGION_ALIGNMENT
  /\ sd' = mk_sio_data 0x2e nct6791
  /\ Z.testbit (hwm_enable (chip w')) 0 = true
  /\ (forall i, i <> 0 ->
        Z.testbit (hwm_enable (chip w')) i = Z.testbit (hwm_enable (chip w)) i)
  /\ Z.testbit (global_reg (chip w') NCT6791_REG_HM_IO_SPACE_LOCK_ENABLE) 4 = false
  /\ (forall i, i <> 4 ->
        Z.testbit (global_reg (chip w') NCT6791_REG_HM_IO_SPACE_LOCK_ENABLE) i
        = Z.testbit (global_reg (chip w) NCT6791_REG_HM_IO_SPACE_LOCK_ENABLE) i)
  /\ globals_but NCT6791_REG_HM_IO_SPACE_LOCK_ENABLE (chip w) (chip w')
  /\ lds_but NCT6775_LD_HWM SIO_REG_ENABLE (chip w) (chip w')
  /\ sio_mode_of (chip w') = Locked
  /\ sio_ldn (chip w') = NCT6775_LD_HWM.
Proof.
  assert (H : Z.land (chip_hwm_base (chip (quiet_world 0xfe))) IOREGION_ALIGNMENT <> 0)
    by (vm_compute; discriminate).
  exact (find_found_effect 0x2e sio_2e (quiet_world 0xfe) eq_refl eq_refl eq_refl H).
Defined.

(** X16.  A discovery that does not find the chip changes no configuration
    register.  On a chip at the probed address, whenever the result is
    negative (ports busy, unknown ID, or base address 0), every
    configuration register holds what it held before; in particular the
    hardware monitor is not enabled by force.  The logical device selector,
    CR 0x07, is the one register such a run can leave changed: it is on
    the hardware monitor (0x0b) if the bracket was granted and the ID
    matched, the base address then being the 0 that failed the run, and as
    before otherwise. *)
Theorem find_failure_writes_selector_only sioaddr sd w :
  sio_base (chip w) = sioaddr ->
  let '(r, _, w') := nct6775_find sioaddr sd w in
  r < 0 ->
  cr_global (chip w') = cr_global (chip w) /\ cr_ld (chip w') = cr_ld (chip w)
  /\ sio_ldn (chip w')
     = (if next_grant w && (Z.land (chip_devid (chip w)) SIO_ID_MASK =? SIO_NCT6791_ID)
        then NCT6775_LD_HWM else sio_ldn (chip w)).
Proof.
  intros Hb. destruct (next_grant w) eqn:Hg.
  2:{ rewrite find_refused by assumption. intros _. repeat split; reflexivity. }
  destruct w as [c gr n tr]. cbn [chip] in *. cbn in Hg. subst sioaddr.
  pose proof (find_granted_regs sd c gr n tr Hg) as H.
  pose proof (find_granted_ldn sd c gr n tr Hg) as Hl.
  pose proof (hwm_base_nonneg c) as Hnn.
  destruct (nct6775_find (sio_base c) sd (mk_world c gr n tr)) as [[r sd'] w'].
  destruct H as (_ & _ & H). intros Hr. cbn [andb].
  split; [|split; [|exact Hl]].
  - destruct (negb (Z.land (chip_devid c) SIO_ID_MASK =? SIO_NCT6791_ID)).
    + now destruct H as (_ & _ & H1 & H2).
    + destruct (Z.land (chip_hwm_base c) IOREGION_ALIGNMENT =? 0).
      * now destruct H as (_ & H1 & H2).
      * destruct H as (-> & _). lia.
  - destruct (negb (Z.land (chip_devid c) SIO_ID_MASK =? SIO_NCT6791_ID)).
    + now destruct H as (_ & _ & H1 & H2).
    + destruct (Z.land (chip_hwm_base c) IOREGION_ALIGNMENT =? 0).
      * now destruct H as (_ & H1 & H2).
      * destruct H as (-> & _). lia.
Qed.

Lemma find_failure_writes_selector_only_witness :
  let w := mk_world (mk_chip 0x2e Locked 0 0 (fun i => if i =? 0x20 then 0xc8 else 0)
                             (fun _ _ => 0)) (always true) 0 [] in
  sio_base (chip w) = 0x2e
  /\ fst (fst (nct6775_find 0x2e sio_2e w)) < 0
  /\ cr_global (chip (snd (nct6775_find 0x2e sio_2e w))) = cr_global (chip w)
  /\ cr_ld (chip (snd (nct6775_find 0x2e sio_2e w))) = cr_ld (chip w)
  /\ sio_ldn (chip (snd (nct6775_find 0x2e sio_2e w)))
     = (if next_grant w && (Z.land (chip_devid (chip w)) SIO_ID_MASK =? SIO_NCT6791_ID)
        then NCT6775_LD_HWM else sio_ldn (chip w)).
Proof.
  intros w.
  assert (Hr : fst (fst (nct6775_find 0x2e sio_2e w)) < 0) by (vm_compute; reflexivity).
  split; [reflexivity|]. split; [exact Hr|].
  pose proof (find_failure_writes_selector_only 0x2e sio_2e w eq_refl) as H.
  destruct (nct6775_find 0x2e sio_2e w) as [[r sd'] w'].
  exact (H Hr).
Defined.

(* base address 0: the selector has moved from 0 to 0x0b, no register has *)
Example find_base_zero_moves_selector :
  let w := mk_world (mk_chip 0x2e Locked 0 0 (fun i => if i =? 0x20 then 0xc8 else 0)
                             (fun _ _ => 0)) (always true) 0 [] in
  let '(r, _, w') := nct6775_find 0x2e sio_2e w in
  r = - ENODEV /\ sio_ldn (chip w) = 0 /\ sio_ldn (chip w') = 0x0b.
Proof. vm_compute. repeat split; reflexivity. Qed.

(** ** Module init *)

Lemma truthy_zero_iff (x : Z) : truthy x = false <-> x = 0.
Proof. unfold truthy. destruct (Z.eqb_spec x 0); cbn; split; intros; congruence. Qed.

Lemma truthy_nonzero (x : Z) : truthy x = true -> x <> 0.
Proof. unfold truthy. destruct (Z.eqb_spec x 0); cbn; intros; congruence. Qed.

(* the path through exit_unregister when discovery finds nothing *)
Lemma init_no_chip env m w a sd w1 :
  driver_register_err env = 0 ->
  nct6775_find 0x2e (stack_sio_data env) w = (a, sd, w1) ->
  a <= 0 ->
  hddsaver_init env m w
  = (- ENODEV,
     mk_module (pdev m) (plat_calls m ++ [PlDriverRegister; PlDriverUnregister]) (probed m),
     w1).
Proof.
  intros Hreg Hfind Ha. unfold hddsaver_init, bind. cbv zeta.
  rewrite Hreg. change (truthy 0) with false. cbv beta iota. rewrite Hfind.
  cbv beta iota.
  destruct (Z.ltb_spec 0 a); [lia|].
  unfold ret, exit_unregister, plat. cbn [pdev plat_calls probed].
  now rewrite <- app_assoc.
Qed.

(** X17.  Init when the chip is not found.  With the driver registered, if
    discovery returns anything that is not positive, -EBUSY for busy ports
    included, init returns -ENODEV, allocates no device and unregisters the
    driver again; the platform bus sees the registration and its undoing
    and nothing in between. *)
Theorem init_not_found env m w a sd w1 :
  driver_register_err env = 0 ->
  nct6775_find 0x2e (stack_sio_data env) w = (a, sd, w1) ->
  a <= 0 ->
  hddsaver_init env m w
  = (- ENODEV,
     mk_module (pdev m) (plat_calls m ++ [PlDriverRegister; PlDriverUnregister]) (probed m),
     w1).
Proof. exact (init_no_chip env m w a sd w1). Qed.

Lemma init_not_found_witness :
  driver_register_err init_env_ok = 0
  /\ nct6775_find 0x2e (stack_sio_data init_env_ok) (busy_world 0)
     = (- EBUSY, stack_sio_data init_env_ok,
        snd (nct6775_find 0x2e (stack_sio_data init_env_ok) (busy_world 0)))
  /\ - EBUSY <= 0
  /\ hddsaver_init init_env_ok module_loaded (busy_world 0)
     = (- ENODEV,
        mk_module (pdev module_loaded)
                  (plat_calls module_loaded ++ [PlDriverRegister; PlDriverUnregister])
                  (probed module_loaded),
        snd (nct6775_find 0x2e (stack_sio_data init_env_ok) (busy_world 0))).
Proof.
  assert (Hf : nct6775_find 0x2e (stack_sio_data init_env_ok) (busy_world 0)
               = (- EBUSY, stack_sio_data init_env_ok,
                  snd (nct6775_find 0x2e (stack_sio_data init_env_ok) (busy_world 0))))
    by (vm_compute; reflexivity).
  assert (Ha : - EBUSY <= 0) by (vm_compute; discriminate).
  split; [reflexivity|]. split; [exact Hf|]. split; [exact Ha|].
  exact (init_not_found init_env_ok module_loaded (busy_world 0) _ _ _ eq_refl Hf Ha).
Defined.

(** X18.  Init when everything succeeds.  With the chip found at address a
    and no platform call failing, init returns 0 and the platform bus has
    seen, in order: the driver registered, a device allocated with id a,
    the platform data of discovery attached, the window from a + 5 to
    a + 6 checked against ACPI and attached as the resource, and the device
    added; probe has run on the world discovery left, on that window and
    those platform data; the device pointer is set and nothing has been
    unregistered. *)
Theorem init_success env m w a sd w1 :
  driver_register_err env = 0 -> device_alloc_ok env = true ->
  add_data_err env = 0 -> acpi_conflict_err env = 0 ->
  add_resources_err env = 0 -> device_add_err env = 0 ->
  nct6775_find 0x2e (stack_sio_data env) w = (a, sd, w1) ->
  0 < a ->
  let p := nct6775_probe (probe_surroundings env) sd (a + IOREGION_OFFSET) w1 in
  hddsaver_init env m w
  = (0,
     mk_module true
               (plat_calls m
                  ++ [PlDriverRegister; PlDeviceAlloc a; PlDeviceAddData sd;
                      PlAcpiCheck (a + 5) (a + 6);
                      PlDeviceAddResources (a + 5) (a + 6); PlDeviceAdd])
               (Some (fst p)),
     snd p).
Proof.
  intros Hreg Halloc Hdata Hacpi Hres Hadd Hfind Ha. cbv zeta.
  unfold hddsaver_init, platform_device_add, bind. cbv zeta.
  rewrite Hreg. change (truthy 0) with false. cbv beta iota. rewrite Hfind.
  cbv beta iota.
  destruct (Z.ltb_spec 0 a); [|lia].
  unfold set_pdev, plat. cbn [pdev plat_calls probed]. rewrite Halloc. cbn [negb].
  rewrite Hdata, Hacpi, Hres, Hadd. change (truthy 0) with false. cbv beta iota.
  destruct (nct6775_probe (probe_surroundings env) sd (a + IOREGION_OFFSET) w1)
    as [p w2].
  unfold ret, set_probed. cbn [pdev plat_calls probed fst snd].
  rewrite <- !app_assoc. cbn [app].
  replace (a + IOREGION_OFFSET + IOREGION_LENGTH - 1) with (a + 6)
    by (unfold IOREGION_OFFSET, IOREGION_LENGTH; lia).
  reflexivity.
Qed.

Lemma init_success_witness :
  let found := nct6775_find 0x2e (stack_sio_data init_env_ok) (quiet_world 0xfe) in
  let p := nct6775_probe (probe_surroundings init_env_ok) sio_2e
                         (0x290 + IOREGION_OFFSET) (snd found) in
  nct6775_find 0x2e (stack_sio_data init_env_ok) (quiet_world 0xfe)
  = (0x290, sio_2e, snd found)
  /\ 0 < 0x290
  /\ hddsaver_init init_env_ok module_loaded (quiet_world 0xfe)
     = (0,
        mk_module true
                  (plat_calls module_loaded
                     ++ [PlDriverRegister; PlDeviceAlloc 0x290; PlDeviceAddData sio_2e;
                         PlAcpiCheck (0x290 + 5) (0x290 + 6);
                         PlDeviceAddResources (0x290 + 5) (0x290 + 6); PlDeviceAdd])
                  (Some (fst p)),
        snd p).
Proof.
  intros found p.
  assert (Hf : nct6775_find 0x2e (stack_sio_data init_env_ok) (quiet_world 0xfe)
               = (0x290, sio_2e, snd found)) by (vm_compute; reflexivity).
  assert (Ha : 0 < 0x290) by reflexivity.
  split; [exact Hf|]. split; [exact Ha|].
  exact (init_success init_env_ok module_loaded (quiet_world 0xfe) 0x290 sio_2e (snd found)
                      eq_refl eq_refl eq_refl eq_refl eq_refl eq_refl Hf Ha).
Defined.

(* hddsaver_init once the chip is found, one line per way out *)
Lemma init_found_table env m w a sd w1 :
  driver_register_err env = 0 ->
  nct6775_find 0x2e (stack_sio_data env) w = (a, sd, w1) ->
  0 < a ->
  let calls l := plat_calls m ++ PlDriverRegister :: PlDeviceAlloc a :: l in
  let window := [PlAcpiCheck (a + 5) (a + 6)] in
  let undo := [PlDevicePut; PlDeviceUnregister; PlDriverUnregister] in
  hddsaver_init env m w
  = if negb (device_alloc_ok env)
    then (- ENOMEM, mk_module false (calls [PlDriverUnregister]) (probed m), w1)
    else if add_data_err env =? 0 then
      if acpi_conflict_err env =? 0 then
        if add_resources_err env =? 0 then
          if device_add_err env =? 0 then
            let p := nct6775_probe (probe_surroundings env) sd (a + IOREGION_OFFSET) w1 in
            (0,
             mk_module true
                       (calls (PlDeviceAddData sd :: window
                                 ++ [PlDeviceAddResources (a + 5) (a + 6); PlDeviceAdd]))
                       (Some (fst p)),
             snd p)
          else
            (device_add_err env,
             mk_module true
                       (calls (PlDeviceAddData sd :: window
                                 ++ [PlDeviceAddResources (a + 5) (a + 6); PlDeviceAdd]
                                 ++ undo))
                       (probed m),
             w1)
        else
          (add_resources_err env,
           mk_module true
                     (calls (PlDeviceAddData sd :: window
                               ++ [PlDeviceAddResources (a + 5) (a + 6)] ++ undo))
                     (probed m),
           w1)
      else
        (- ENODEV,
         mk_module false
                   (calls (PlDeviceAddData sd :: window
                             ++ [PlDevicePut; PlDriverUnregister]))
                   (probed m),
         w1)
    else
      (add_data_err env,
       mk_module true (calls (PlDeviceAddData sd :: undo)) (probed m), w1).
Proof.
  intros Hreg Hfind Ha. cbv zeta.
  unfold hddsaver_init, platform_device_add, bind. cbv zeta.
  rewrite Hreg. change (truthy 0) with false. cbv beta iota. rewrite Hfind.
  cbv beta iota.
  destruct (Z.ltb_spec 0 a); [|lia].
  replace (a + IOREGION_OFFSET + IOREGION_LENGTH - 1) with (a + 6)
    by (unfold IOREGION_OFFSET, IOREGION_LENGTH; lia).
  change (a + IOREGION_OFFSET) with (a + 5).
  unfold truthy, exit_device_put, exit_device_unregister, exit_unregister, set_pdev, plat,
    ret, set_probed.
  cbn [pdev plat_calls probed].
  destruct (device_alloc_ok env); cbn [negb pdev plat_calls probed].
  2:{ rewrite <- !app_assoc. reflexivity. }
  destruct (add_data_err env =? 0); cbn [negb pdev plat_calls probed].
  2:{ rewrite <- !app_assoc. reflexivity. }
  destruct (acpi_conflict_err env =? 0); cbn [negb pdev plat_calls probed].
  2:{ rewrite <- !app_assoc. reflexivity. }
  destruct (add_resources_err env =? 0); cbn [negb pdev plat_calls probed].
  2:{ rewrite <- !app_assoc. reflexivity. }
  destruct (device_add_err env =? 0); cbn [negb pdev plat_calls probed].
  2:{ rewrite <- !app_assoc. reflexivity. }
  destruct (nct6775_probe (probe_surroundings env) sd (a + 5) w1) as [p w2].
  cbn [pdev plat_calls probed fst snd]. rewrite <- !app_assoc. reflexivity.
Qed.

Ltac init_paths env :=
  destruct (device_alloc_ok env) eqn:Ealloc; cbn [negb];
  [ destruct (add_data_err env =? 0) eqn:Edata;
    [ destruct (acpi_conflict_err env =? 0) eqn:Eacpi;
      [ destruct (add_resources_err env =? 0) eqn:Eres;
        [ destruct (device_add_err env =? 0) eqn:Eadd | ]
      | ]
    | ]
  | ].

(** X19.  Init and the driver registration.  Init registers the driver
    once, first of all.  If that fails it returns the error and does
    nothing more.  Otherwise it unregisters the driver once if it returns
    an error and not at all if it returns 0, and it returns 0 only with the
    device pointer set. *)
Theorem init_driver_balance env m w :
  let '(r, m', _) := hddsaver_init env m w in
  exists new,
    plat_calls m' = plat_calls m ++ PlDriverRegister :: new
    /\ count_calls is_driver_register new = 0%nat
    /\ count_calls is_driver_unregister new
       = (if (driver_register_err env =? 0) && negb (r =? 0) then 1%nat else 0%nat)
    /\ (if driver_register_err env =? 0 then True
        else r = driver_register_err env /\ new = [])
    /\ (if r =? 0 then pdev m' = true else True).
Proof.
  destruct (driver_register_err env =? 0) eqn:Ereg.
  2:{ unfold hddsaver_init, truthy. cbv zeta. rewrite Ereg. cbn [negb].
      unfold ret, plat. cbn [plat_calls]. exists []. rewrite Ereg.
      now repeat split. }
  apply Z.eqb_eq in Ereg.
  destruct (nct6775_find 0x2e (stack_sio_data env) w) as [[a sd] w1] eqn:Hfind.
  destruct (Z.ltb_spec 0 a) as [Ha|Ha].
  2:{ rewrite (init_no_chip env m w a sd w1 Ereg Hfind Ha). cbn [plat_calls pdev].
      exists [PlDriverUnregister]. now repeat split. }
  pose proof (init_found_table env m w a sd w1 Ereg Hfind Ha) as T. cbv zeta in T.
  rewrite T. clear T.
  init_paths env; cbn [plat_calls pdev];
    try rewrite Edata; try rewrite Eres; try rewrite Eadd;
    (eexists; split; [reflexivity|]); now repeat split.
Qed.

(** X20.  Init and the device, when a step after the allocation fails.  If
    attaching the platform data, attaching the resource or adding the
    device fails, init puts the device, then unregisters that same device,
    then unregisters the driver, and returns the error of the failed step
    with the device pointer still set.  If instead the ACPI check reports a
    conflict, init puts the device, clears the pointer, unregisters the
    driver and returns -ENODEV in place of the error of the check. *)
Theorem init_failure_cleanup env m w a sd w1 :
  driver_register_err env = 0 ->
  nct6775_find 0x2e (stack_sio_data env) w = (a, sd, w1) ->
  0 < a ->
  device_alloc_ok env = true ->
  let '(r, m', _) := hddsaver_init env m w in
  r <> 0 ->
  exists pre,
    ~ In PlDevicePut pre /\ ~ In PlDeviceUnregister pre
    /\ if (add_data_err env =? 0) && negb (acpi_conflict_err env =? 0)
       then plat_calls m' = plat_calls m ++ pre ++ [PlDevicePut; PlDriverUnregister]
            /\ r = - ENODEV /\ pdev m' = false
       else plat_calls m'
            = plat_calls m ++ pre ++ [PlDevicePut; PlDeviceUnregister; PlDriverUnregister]
            /\ pdev m' = true
            /\ (r = add_data_err env \/ r = add_resources_err env
                \/ r = device_add_err env).
Proof.
  intros Hreg Hfind Ha Halloc.
  pose proof (init_found_table env m w a sd w1 Hreg Hfind Ha) as T. cbv zeta in T.
  rewrite T. clear T. rewrite Halloc. cbn [negb].
  destruct (add_data_err env =? 0) eqn:Edata; cbn [andb negb].
  2:{ intros _. exists [PlDriverRegister; PlDeviceAlloc a; PlDeviceAddData sd].
      cbn [plat_calls pdev In]. repeat split; auto; intuition discriminate. }
  destruct (acpi_conflict_err env =? 0) eqn:Eacpi; cbn [negb].
  2:{ intros _. exists [PlDriverRegister; PlDeviceAlloc a; PlDeviceAddData sd;
                        PlAcpiCheck (a + 5) (a + 6)].
      cbn [plat_calls pdev In]. repeat split; auto; intuition discriminate. }
  destruct (add_resources_err env =? 0) eqn:Eres.
  2:{ intros _. exists [PlDriverRegister; PlDeviceAlloc a; PlDeviceAddData sd;
                        PlAcpiCheck (a + 5) (a + 6);
                        PlDeviceAddResources (a + 5) (a + 6)].
      cbn [plat_calls pdev In]. repeat split; auto; intuition discriminate. }
  destruct (device_add_err env =? 0) eqn:Eadd.
  - cbv zeta. intros H. now elim H.
  - intros _. exists [PlDriverRegister; PlDeviceAlloc a; PlDeviceAddData sd;
                      PlAcpiCheck (a + 5) (a + 6);
                      PlDeviceAddResources (a + 5) (a + 6); PlDeviceAdd].
    cbn [plat_calls pdev In]. repeat split; auto; intuition discriminate.
Qed.

Lemma init_failure_cleanup_witness :
  let found := nct6775_find 0x2e (stack_sio_data init_env_no_data) (quiet_world 0xfe) in
  driver_register_err init_env_no_data = 0
  /\ found = (0x290, sio_2e, snd found)
  /\ 0 < 0x290
  /\ device_alloc_ok init_env_no_data = true
  /\ let '(r, m', _) := hddsaver_init init_env_no_data module_loaded (quiet_world 0xfe) in
     r <> 0
     /\ exists pre,
         ~ In PlDevicePut pre /\ ~ In PlDeviceUnregister pre
         /\ if (add_data_err init_env_no_data =? 0)
               && negb (acpi_conflict_err init_env_no_data =? 0)
            then plat_calls m'
                 = plat_calls module_loaded ++ pre ++ [PlDevicePut; PlDriverUnregister]
                 /\ r = - ENODEV /\ pdev m' = false
            else plat_calls m'
                 = plat_calls module_loaded
                     ++ pre ++ [PlDevicePut; PlDeviceUnregister; PlDriverUnregister]
                 /\ pdev m' = true
                 /\ (r = add_data_err init_env_no_data
                     \/ r = add_resources_err init_env_no_data
                     \/ r = device_add_err init_env_no_data).
Proof.
  intros found.
  assert (Hf : nct6775_find 0x2e (stack_sio_data init_env_no_data) (quiet_world 0xfe)
               = (0x290, sio_2e, snd found)) by (vm_compute; reflexivity).
  assert (Hr : fst (fst (hddsaver_init init_env_no_data module_loaded (quiet_world 0xfe)))
               <> 0) by (vm_compute; discriminate).
  split; [reflexivity|]. split; [exact Hf|]. split; [reflexivity|]. split; [reflexivity|].
  pose proof (init_failure_cleanup init_env_no_data module_loaded (quiet_world 0xfe)
                                   0x290 sio_2e (snd found) eq_refl Hf eq_refl eq_refl) as H.
  destruct (hddsaver_init init_env_no_data module_loaded (quiet_world 0xfe))
    as [[r m'] w'].
  split; [exact Hr | exact (H Hr)].
Defined.

(** X21.  Load and unload.  After an init that returned 0, hddsaver_exit
    unregisters the device and then the driver.  Over the two together the
    platform bus has seen the driver registered first and once, the device
    added, no device put, and one unregistration of the device followed by
    one of the driver, both at the very end. *)
Theorem init_then_exit env m w :
  let '(r, m', _) := hddsaver_init env m w in
  r = 0 ->
  exists new,
    plat_calls (hddsaver_exit m')
    = plat_calls m ++ PlDriverRegister :: new ++ [PlDeviceUnregister; PlDriverUnregister]
    /\ count_calls is_driver_register new = 0%nat
    /\ count_calls is_driver_unregister new = 0%nat
    /\ ~ In PlDevicePut new /\ ~ In PlDeviceUnregister new
    /\ In PlDeviceAdd new.
Proof.
  destruct (driver_register_err env =? 0) eqn:Ereg.
  2:{ unfold hddsaver_init, truthy. cbv zeta. rewrite Ereg. cbn [negb].
      unfold ret. apply Z.eqb_neq in Ereg. intros H. contradiction. }
  apply Z.eqb_eq in Ereg.
  destruct (nct6775_find 0x2e (stack_sio_data env) w) as [[a sd] w1] eqn:Hfind.
  destruct (Z.ltb_spec 0 a) as [Ha|Ha].
  2:{ rewrite (init_no_chip env m w a sd w1 Ereg Hfind Ha). discriminate. }
  pose proof (init_found_table env m w a sd w1 Ereg Hfind Ha) as T. cbv zeta in T.
  rewrite T. clear T.
  init_paths env; cbv beta iota zeta.
  - intros _. unfold hddsaver_exit, plat. cbn [pdev plat_calls probed].
    exists [PlDeviceAlloc a; PlDeviceAddData sd; PlAcpiCheck (a + 5) (a + 6);
            PlDeviceAddResources (a + 5) (a + 6); PlDeviceAdd].
    split; [rewrite <- !app_assoc; reflexivity|].
    split; [reflexivity|]. split; [reflexivity|].
    cbn [In]. repeat split; auto 10; intuition discriminate.
  - apply Z.eqb_neq in Eadd. intros H. contradiction.
  - apply Z.eqb_neq in Eres. intros H. contradiction.
  - intros H. vm_compute in H. discriminate H.
  - apply Z.eqb_neq in Edata. intros H. contradiction.
  - intros H. vm_compute in H. discriminate H.
Qed.

Lemma init_then_exit_witness :
  let '(r, m', _) := hddsaver_init init_env_ok module_loaded (quiet_world 0xfe) in
  r = 0
  /\ exists new,
      plat_calls (hddsaver_exit m')
      = plat_calls module_loaded
          ++ PlDriverRegister :: new ++ [PlDeviceUnregister; PlDriverUnregister]
      /\ count_calls is_driver_register new = 0%nat
      /\ count_calls is_driver_unregister new = 0%nat
      /\ ~ In PlDevicePut new /\ ~ In PlDeviceUnregister new
      /\ In PlDeviceAdd new.
Proof.
  assert (Hr : fst (fst (hddsaver_init init_env_ok module_loaded (quiet_world 0xfe))) = 0)
    by (vm_compute; reflexivity).
  pose proof (init_then_exit init_env_ok module_loaded (quiet_world 0xfe)) as H.
  destruct (hddsaver_init init_env_ok module_loaded (quiet_world 0xfe)) as [[r m'] w'].
  split; [exact Hr | exact (H Hr)].
Defined.

(** ** The bracket by itself, and brackets in sequence *)

(** X22.  Entering and leaving the bracket with nothing in between, on a
    chip at the given address and whatever mode it was in: no register and
    no logical device selection changes, and the chip ends locked.  The two
    0x02 bytes that close superio_exit come after the lock byte and reach
    no register. *)
Theorem bracket_alone_changes_nothing (ioreg : Z) w :
  sio_base (chip w) = ioreg -> next_grant w = true ->
  let w' := snd (superio_exit ioreg (snd (superio_enter ioreg w))) in
  cr_global (chip w') = cr_global (chip w)
  /\ cr_ld (chip w') = cr_ld (chip w)
  /\ sio_ldn (chip w') = sio_ldn (chip w)
  /\ sio_mode_of (chip w') = Locked
  /\ trace w' = trace w ++ enter_seq ioreg ++ exit_seq ioreg.
Proof.
  intros Hb Hg. destruct w as [c gr n tr]. cbn [chip] in Hb. cbn in Hg. cbv zeta.
  rewrite superio_enter_granted by assumption. cbn [snd].
  rewrite superio_exit_ext by (subst ioreg; reflexivity). cbn [snd]. proj.
  rewrite <- app_assoc. now repeat split.
Qed.

Lemma bracket_alone_changes_nothing_witness :
  let w := open_world 0x1f in
  let w' := snd (superio_exit 0x2e (snd (superio_enter 0x2e w))) in
  cr_global (chip w') = cr_global (chip w)
  /\ cr_ld (chip w') = cr_ld (chip w)
  /\ sio_ldn (chip w') = sio_ldn (chip w)
  /\ sio_mode_of (chip w') = Locked
  /\ trace w' = trace w ++ enter_seq 0x2e ++ exit_seq 0x2e.
Proof.
  exact (bracket_alone_changes_nothing 0x2e (open_world 0x1f) eq_refl eq_refl).
Defined.

Lemma paired_app a : forall h b,
  paired h a = true -> paired false b = true -> paired h (a ++ b) = true.
Proof.
  induction a as [|e a IH]; intros h b Ha Hb.
  - cbn in Ha. destruct h; [discriminate | exact Hb].
  - destruct e, h; cbn [paired app negb andb] in *; try discriminate; now apply IH.
Qed.

Lemma life_step_paired kstrtobool HZ sd d w op :
  sioreg d = sd_sioreg sd ->
  exists tr,
    trace (snd (life_step kstrtobool HZ sd (d, w) op)) = trace w ++ tr
    /\ paired false tr = true
    /\ sioreg (fst (life_step kstrtobool HZ sd (d, w) op)) = sd_sioreg sd.
Proof.
  intros Hio. destruct op as [jiffies|buf count|jiffies|]; unfold life_step; cbn [fst snd].
  - unfold show_hddsaver, nct6775_update_device, bind, ret.
    exists []. destruct (time_after jiffies _ || negb _); cbn [fst snd];
      rewrite app_nil_r; now repeat split.
  - pose proof (store_keeps_sioreg kstrtobool d sd buf count w) as Hs.
    destruct (kstrtobool buf) as [v|] eqn:Hv.
    + pose proof (store_bracket kstrtobool d sd buf count w v Hv) as H.
      destruct (store_hddsaver kstrtobool d sd buf count w) as [[r d'] w'].
      cbn [fst snd] in *. destruct H as (tr & Et & _ & Hp & _).
      exists tr. repeat split; [exact Et | exact Hp | congruence].
    + rewrite store_invalid in * by assumption. cbn [fst snd] in *.
      exists []. rewrite app_nil_r. now repeat split.
  - unfold hddsaver_suspend, nct6775_update_device, bind, ret.
    exists []. destruct (time_after jiffies _ || negb _); cbn [fst snd];
      rewrite app_nil_r; now repeat split.
  - pose proof (resume_bracket d w) as H.
    pose proof (resume_always_invalidates_data d w) as Hd.
    destruct (hddsaver_resume d w) as [[r d'] w']. cbn [fst snd] in *.
    destruct H as (tr & Et & _ & Hp & _).
    exists tr. repeat split; [exact Et | exact Hp |]. now rewrite Hd.
Qed.

(** X23.  Bracket pairing over whole call sequences.  Whatever sequence of
    attribute reads, attribute writes, suspends and resumes is run on a
    device whose data name the address of its platform data, the trace it
    adds passes the pairing scan: every granted request for the ports is
    answered by exactly one release before the next request, nothing is
    released that is not held, and no port is touched outside a granted
    bracket. *)
Theorem life_trace_paired
        (kstrtobool : string -> option bool) (HZ : Z) sd ops d w :
  sioreg d = sd_sioreg sd ->
  exists tr,
    trace (snd (life_run kstrtobool HZ sd ops (d, w))) = trace w ++ tr
    /\ paired false tr = true.
Proof.
  revert d w. unfold life_run.
  induction ops as [|op ops IH]; intros d w Hio.
  - exists []. cbn. now rewrite app_nil_r.
  - cbn [fold_left].
    destruct (life_step_paired kstrtobool HZ sd d w op Hio) as (tr1 & E1 & P1 & Hio1).
    destruct (life_step kstrtobool HZ sd (d, w) op) as [d1 w1]. cbn [fst snd] in *.
    destruct (IH d1 w1 Hio1) as (tr2 & E2 & P2).
    exists (tr1 ++ tr2). split.
    + now rewrite E2, E1, app_assoc.
    + now apply paired_app.
Qed.

Lemma life_trace_paired_witness :
  let ops := [LifeStore "1" 2; LifeSuspend 6000; LifeResume; LifeShow 6001;
              LifeStore "nonsense" 9; LifeStore "off" 4; LifeResume] in
  sioreg probed_data = sd_sioreg sio_2e
  /\ exists tr,
      trace (snd (life_run kstrtobool_kernel 250 sio_2e ops
                           (probed_data, snd probed_asrock)))
      = trace (snd probed_asrock) ++ tr
      /\ paired false tr = true.
Proof.
  intros ops.
  assert (H : sioreg probed_data = sd_sioreg sio_2e) by (vm_compute; reflexivity).
  split; [exact H|].
  exact (life_trace_paired kstrtobool_kernel 250 sio_2e ops probed_data
                           (snd probed_asrock) H).
Defined.

Example life_trace_with_refusals :
  let w := mk_world (nct6791d 0xfe) (fun n => Nat.even n) 0 [] in
  let '(_, w') :=
    life_run kstrtobool_kernel 250 sio_2e
             [LifeStore "1" 2; LifeStore "1" 2; LifeResume; LifeStore "0" 2]
             (set_hddsaver_status false (mk_data 0x295 0x2e nct6791 0x40 false 0 0xff 15
                                                 true false 0), w) in
  paired false (trace w') = true /\ releases (trace w') = 2%nat.
Proof. vm_compute. split; reflexivity. Qed.

(** ** Discovery, run again *)




(** ** The enable register across suspend and resume *)

Lemma store_keeps_sio_reg_enable kstrtobool d sd buf count w :
  sio_reg_enable (snd (fst (store_hddsaver kstrtobool d sd buf count w)))
  = sio_reg_enable d.
Proof.
  unfold store_hddsaver, bind.
  destruct (kstrtobool buf) as [v|]; [|reflexivity].
  destruct (superio_enter (sd_sioreg sd) w) as [e w1].
  destruct (truthy e); [reflexivity|].
  destruct (negb (Bool.eqb v (hddsaver_status d))).
  - destruct (superio_select (sd_sioreg sd) NCT6775_LD_GPIO_DATA w1) as [u1 w2].
    destruct (superio_inb (sd_sioreg sd) NCT6775_REG_CR_GPIO1_DATA w2) as [tmp w3].
    destruct (superio_outb (sd_sioreg sd) NCT6775_REG_CR_GPIO1_DATA
                           (Z.lxor (u8 tmp) (Z.shiftl 1 0)) w3) as [u2 w4].
    unfold ret at 1.
    destruct (superio_exit (sd_sioreg sd) w4) as [u w5]. reflexivity.
  - unfold ret at 1.
    destruct (superio_exit (sd_sioreg sd) w1) as [u w2]. reflexivity.
Qed.

(* no entry point assigns sio_reg_enable or sioreg *)
Lemma life_step_keeps_recorded kstrtobool HZ sd s op :
  sio_reg_enable (fst (life_step kstrtobool HZ sd s op)) = sio_reg_enable (fst s)
  /\ sioreg (fst (life_step kstrtobool HZ sd s op)) = sioreg (fst s).
Proof.
  destruct s as [d w]. cbn [fst].
  destruct op as [jiffies|buf count|jiffies|]; unfold life_step; cbn [fst snd].
  - unfold show_hddsaver, nct6775_update_device, bind, ret.
    destruct (time_after jiffies _ || negb _); cbn [fst snd]; split; reflexivity.
  - pose proof (store_keeps_sio_reg_enable kstrtobool d sd buf count w) as H.
    pose proof (store_keeps_sioreg kstrtobool d sd buf count w) as H'.
    destruct (store_hddsaver kstrtobool d sd buf count w) as [[r d'] w'].
    cbn [fst snd] in *. split; assumption.
  - unfold hddsaver_suspend, nct6775_update_device, bind, ret.
    destruct (time_after jiffies _ || negb _); cbn [fst snd]; split; reflexivity.
  - pose proof (resume_always_invalidates_data d w) as H.
    destruct (hddsaver_resume d w) as [[r d'] w']. cbn [fst snd] in *. subst d'.
    split; reflexivity.
Qed.

Lemma life_run_keeps_recorded kstrtobool HZ sd ops : forall s,
  sio_reg_enable (fst (life_run kstrtobool HZ sd ops s)) = sio_reg_enable (fst s)
  /\ sioreg (fst (life_run kstrtobool HZ sd ops s)) = sioreg (fst s).
Proof.
  unfold life_run. induction ops as [|op ops IH]; intros s; cbn [fold_left].
  - split; reflexivity.
  - destruct (IH (life_step kstrtobool HZ sd s op)) as [E1 E2].
    destruct (life_step_keeps_recorded kstrtobool HZ sd s op) as [F1 F2].
    split; congruence.
Qed.

Lemma probe_leaves_sio_reg_enable env sd rs w r d w' :
  nct6775_probe env sd rs w = (r, Some d, w') -> sio_reg_enable d = 0.
Proof.
  probe_paths env sd rs w; cbn; intros E; try discriminate E;
    injection E as _ <- _; reflexivity.
Qed.

(** X25.  The enable register of the hardware monitor after a resume.  No
    entry point records the register: the data a probe publishes hold 0 in
    sio_reg_enable, and no read, write, suspend or resume changes that.  So
    after any such sequence following a probe, a resume that is let into
    the bracket on a chip at the driver's address leaves the enable
    register holding 0, whatever it held before. *)
Theorem resume_after_probe_zeroes_enable
        (kstrtobool : string -> option bool) (HZ : Z) env sd rs w r d w1 ops :
  nct6775_probe env sd rs w = (r, Some d, w1) ->
  let s := life_run kstrtobool HZ sd ops (d, w1) in
  sd_sioreg sd = sio_base (chip (snd s)) -> next_grant (snd s) = true ->
  sio_reg_enable (fst s) = 0
  /\ hwm_enable (chip (snd (hddsaver_resume (fst s) (snd s)))) = 0.
Proof.
  intros Hp s Hb Hg.
  pose proof (probe_sets_sioreg env sd rs w r d w1 Hp) as Hio.
  pose proof (probe_leaves_sio_reg_enable env sd rs w r d w1 Hp) as Hen.
  destruct (life_run_keeps_recorded kstrtobool HZ sd ops (d, w1)) as [E1 E2].
  fold s in E1, E2. cbn [fst] in E1, E2.
  assert (Hz : sio_reg_enable (fst s) = 0) by congruence.
  split; [exact Hz|].
  destruct s as [d2 [c gr n tr]]. cbn [fst snd chip] in *. cbn in Hg.
  assert (Hbase : sioreg d2 = sio_base c) by congruence.
  pose proof (resume_granted_ext d2 c gr n tr Hbase Hg) as E. cbv zeta in E.
  rewrite E. clear E. cbn [snd chip].
  unfold hwm_enable at 1, ld_reg. cbn [cr_ld]. rewrite Hz.
  destruct (Z.eqb_spec (hwm_enable c) 0) as [He|He].
  - exact He.
  - rewrite upd2_same. reflexivity.
Qed.

Lemma resume_after_probe_zeroes_enable_witness :
  let ops := [LifeShow 300; LifeStore "1" 2; LifeSuspend 6000] in
  let s := life_run kstrtobool_kernel 250 sio_2e ops (probed_data, snd probed_asrock) in
  hwm_enable (chip (snd s)) = 0x01
  /\ sio_reg_enable (fst s) = 0
  /\ hwm_enable (chip (snd (hddsaver_resume (fst s) (snd s)))) = 0.
Proof.
  intros ops s.
  assert (Hp : nct6775_probe asrock_z97 sio_2e 0x295 (quiet_world 0xfe)
               = (0, Some probed_data, snd probed_asrock)) by (vm_compute; reflexivity).
  assert (Hb : sd_sioreg sio_2e = sio_base (chip (snd s))) by (vm_compute; reflexivity).
  assert (Hg : next_grant (snd s) = true) by (vm_compute; reflexivity).
  split; [vm_compute; reflexivity|].
  exact (resume_after_probe_zeroes_enable kstrtobool_kernel 250 asrock_z97 sio_2e 0x295
           (quiet_world 0xfe) 0 probed_data (snd probed_asrock) ops Hp Hb Hg).
Defined.
